(** * Person / Address / FeeDetails / VisaStatus service

    A shallow embedding of [main.py] and of the pydantic models under
    [models/], with the properties of the entity management layer.

    - Python [str] values are sequences of Unicode code points.
    - The module-level dictionaries [persons], [addresses], [fee_details]
      and [visa_statuses] are insertion-ordered maps, modelled as
      association lists in insertion order.
    - [uuid4()] and [datetime.utcnow()] read from the environment; the
      environment is a part of the server state ([World]).
    - A handler either returns or raises; what it wrote to the dictionaries
      before raising stays written.
    - A model validates all its fields, also after one that failed, and
      raises at the end.
    - The values of a request body have the JSON types of the fields they
      are given to (a string, an integer, a boolean, a list of objects);
      the conversions that pydantic attempts on values of another type are
      outside the embedding. *)

From Stdlib Require Import List NArith ZArith Bool String Ascii Lia.
Import ListNotations.

Set Implicit Arguments.

(** ** Primitive data *)

(** A Python [str]: the sequence of its code points. *)
Definition str := list N.

(** The code points of an ASCII literal. *)
Fixpoint lit (s : string) : str :=
  match s with
  | EmptyString => []
  | String c s' => N_of_ascii c :: lit s'
  end.

Definition str_eqb (a b : str) : bool :=
  if list_eq_dec N.eq_dec a b then true else false.

(** [uuid.UUID]: a 128-bit number. *)
Definition UUID := N.

(** [datetime.datetime], in microseconds since the epoch. *)
Definition datetime := Z.

(** [datetime.date]. *)
Record date := Date { year : N; month : N; day : N }.

Definition digit (n : N) : N := (48 + n mod 10)%N.

(** [str(d)] for a date [d]: [YYYY-MM-DD]. *)
Definition date_str (d : date) : str :=
  [ digit (year d / 1000); digit (year d / 100); digit (year d / 10); digit (year d);
    45%N;
    digit (month d / 10); digit (month d);
    45%N;
    digit (day d / 10); digit (day d) ].

(** [str(x)] for an [Optional[date]]: [str(None)] is the text [None]. *)
Definition str_of_birth_date (b : option date) : str :=
  match b with
  | Some d => date_str d
  | None => lit "None"
  end.

(** ** Insertion-ordered dictionaries keyed by [UUID] *)

Section Dict.
Variable V : Type.

Definition Dict := list (UUID * V).

(** [k in d] *)
Fixpoint dict_mem (k : UUID) (d : Dict) : bool :=
  match d with
  | [] => false
  | (k', _) :: d' => if N.eqb k k' then true else dict_mem k d'
  end.

(** [d[k]], when [k in d] *)
Fixpoint dict_get (k : UUID) (d : Dict) : option V :=
  match d with
  | [] => None
  | (k', v) :: d' => if N.eqb k k' then Some v else dict_get k d'
  end.

(** [d[k] = v]: an existing key keeps its place, a new key goes last. *)
Fixpoint dict_set (k : UUID) (v : V) (d : Dict) : Dict :=
  match d with
  | [] => [(k, v)]
  | (k', v') :: d' =>
      if N.eqb k k' then (k', v) :: d' else (k', v') :: dict_set k v d'
  end.

(** [list(d.keys())] and [list(d.values())] *)
Definition dict_keys (d : Dict) : list UUID := map fst d.
Definition dict_values (d : Dict) : list V := map snd d.

End Dict.

(** ** Regular expressions

    pydantic checks a [StringConstraints(pattern=...)] by searching the
    string for the pattern, with the regular expressions of its core (the
    Rust [regex] crate, the default [regex_engine]): [$] matches at the end
    of the string only and [\d] is the Unicode class of decimal digits.
    Between the anchors [^] and [$] the search succeeds exactly when the
    whole string matches the body of the pattern. *)

Inductive regex :=
| Eps                                  (* the empty string *)
| Class (p : N -> bool)                (* one code point of a class *)
| Cat (r1 r2 : regex)                  (* r1 r2 *)
| Alt (r1 r2 : regex).                 (* r1 | r2 *)

(** [r{0,n}] *)
Fixpoint upto (r : regex) (n : nat) : regex :=
  match n with
  | O => Eps
  | S n' => Alt Eps (Cat r (upto r n'))
  end.

(** [r{lo,lo+more}] *)
Fixpoint at_least (r : regex) (lo more : nat) : regex :=
  match lo with
  | O => upto r more
  | S lo' => Cat r (at_least r lo' more)
  end.

(** [r{lo,hi}] *)
Definition Repeat (r : regex) (lo hi : nat) : regex := at_least r lo (hi - lo).

(** Does the whole of [s] match [r]? *)
Fixpoint fullmatch (r : regex) (s : str) : bool :=
  match r with
  | Eps => match s with [] => true | _ => false end
  | Class p => match s with [c] => p c | _ => false end
  | Cat r1 r2 =>
      existsb (fun i => fullmatch r1 (firstn i s) && fullmatch r2 (skipn i s))
              (seq 0 (S (List.length s)))
  | Alt r1 r2 => fullmatch r1 s || fullmatch r2 s
  end.

(** [[a-z]] *)
Definition lower_az (c : N) : bool := ((97 <=? c) && (c <=? 122))%N.

(** [\d]: the code points of the Unicode general category Nd (decimal
    digits), which the regex engine takes from the Unicode Character
    Database; the table is that of Unicode 16.0.  The digits come in runs
    of ten, zero to nine of a script, of which [Nd_zeros] lists the first
    code points (two consecutive runs in U+116D0..U+116E3), and the fifty
    mathematical digits U+1D7CE..U+1D7FF.  On ASCII they are [0] to [9]. *)
Definition Nd_zeros : list N :=
  [ 0x0030; 0x0660; 0x06F0; 0x07C0; 0x0966; 0x09E6; 0x0A66; 0x0AE6;
    0x0B66; 0x0BE6; 0x0C66; 0x0CE6; 0x0D66; 0x0DE6; 0x0E50; 0x0ED0;
    0x0F20; 0x1040; 0x1090; 0x17E0; 0x1810; 0x1946; 0x19D0; 0x1A80;
    0x1A90; 0x1B50; 0x1BB0; 0x1C40; 0x1C50; 0xA620; 0xA8D0; 0xA900;
    0xA9D0; 0xA9F0; 0xAA50; 0xABF0; 0xFF10;
    0x104A0; 0x10D30; 0x10D40; 0x11066; 0x110F0; 0x11136; 0x111D0;
    0x112F0; 0x11450; 0x114D0; 0x11650; 0x116C0; 0x116D0; 0x116DA;
    0x11730; 0x118E0; 0x11950; 0x11BF0; 0x11C50; 0x11D50; 0x11DA0;
    0x11F50; 0x16130; 0x16A60; 0x16AC0; 0x16B50; 0x16D70; 0x1CCF0;
    0x1E140; 0x1E2F0; 0x1E4F0; 0x1E5F1; 0x1E950; 0x1FBF0 ]%N.

Definition unicode_Nd (c : N) : bool :=
  (existsb (fun zero => (zero <=? c) && (c <? zero + 10)) Nd_zeros
   || ((0x1D7CE <=? c) && (c <=? 0x1D7FF)))%N.

(** ** Keyword arguments and JSON objects

    A key of a Python dictionary unpacked into the keyword arguments of a
    model class, or of a JSON request body: absent, present with [None]
    (JSON [null]), or present with a value of the type of the field.  A
    body that gives a field a value of another JSON type (a number where a
    string is declared, the string of a number where an integer is
    declared), which pydantic refuses or converts, has no counterpart
    here. *)

Inductive field (T : Type) :=
| Unset
| Null
| Val (v : T).
Arguments Unset {T}.
Arguments Null {T}.
Arguments Val {T} v.

(** [a.update(b)] at one key *)
Definition update_key {T} (a b : field T) : field T :=
  match b with
  | Unset => a
  | _ => b
  end.

(** The value of an [Optional] attribute in [model_dump()]. *)
Definition dump_optional {T} (o : option T) : field T :=
  match o with
  | Some v => Val v
  | None => Null
  end.

(** ** The data model *)

(** The dictionaries the model classes are built from and dumped to. *)

Module AddressDict.
(** Modelled from the spec: the keys of the Address classes of
    [models/address.py]. *)
Record t := Make {
  id : field UUID;
  street : field str;
  city : field str;
  state : field str;
  postal_code : field str;
  country : field str;
  created_at : field datetime;
  updated_at : field datetime }.

Definition update (a b : t) : t :=
  {| id := update_key (id a) (id b);
     street := update_key (street a) (street b);
     city := update_key (city a) (city b);
     state := update_key (state a) (state b);
     postal_code := update_key (postal_code a) (postal_code b);
     country := update_key (country a) (country b);
     created_at := update_key (created_at a) (created_at b);
     updated_at := update_key (updated_at a) (updated_at b) |}.
End AddressDict.

Module PersonDict.
Record t := Make {
  uni : field str;
  first_name : field str;
  last_name : field str;
  email : field str;
  phone : field str;
  birth_date : field date;
  addresses : field (list AddressDict.t);
  id : field UUID;
  created_at : field datetime;
  updated_at : field datetime }.

Definition update (a b : t) : t :=
  {| uni := update_key (uni a) (uni b);
     first_name := update_key (first_name a) (first_name b);
     last_name := update_key (last_name a) (last_name b);
     email := update_key (email a) (email b);
     phone := update_key (phone a) (phone b);
     birth_date := update_key (birth_date a) (birth_date b);
     addresses := update_key (addresses a) (addresses b);
     id := update_key (id a) (id b);
     created_at := update_key (created_at a) (created_at b);
     updated_at := update_key (updated_at a) (updated_at b) |}.
End PersonDict.

Module FeeDetailsDict.
Record t := Make {
  university_name : field str;
  number_of_credits : field Z;
  fee_paid : field bool;
  id : field UUID;
  created_at : field datetime;
  updated_at : field datetime }.

Definition update (a b : t) : t :=
  {| university_name := update_key (university_name a) (university_name b);
     number_of_credits := update_key (number_of_credits a) (number_of_credits b);
     fee_paid := update_key (fee_paid a) (fee_paid b);
     id := update_key (id a) (id b);
     created_at := update_key (created_at a) (created_at b);
     updated_at := update_key (updated_at a) (updated_at b) |}.
End FeeDetailsDict.

Module VisaStatusDict.
Record t := Make {
  visa_status : field str;
  id : field UUID;
  created_at : field datetime;
  updated_at : field datetime }.

Definition update (a b : t) : t :=
  {| visa_status := update_key (visa_status a) (visa_status b);
     id := update_key (id a) (id b);
     created_at := update_key (created_at a) (created_at b);
     updated_at := update_key (updated_at a) (updated_at b) |}.
End VisaStatusDict.

(** *** Address

    [models/address.py] is not among the sources.  [main.py] reads
    [address.id] from an [AddressCreate], and [person.py] embeds
    [AddressBase] values that carry an [id]. *)

Module AddressBase.
(** Modelled from the spec: [class AddressBase] of [models/address.py].
    The five text fields are required; the identifier is the one of the
    payload when the payload has one and is generated otherwise. *)
Record t := Make {
  id : UUID;
  street : str;
  city : str;
  state : str;
  postal_code : str;
  country : str }.

Definition model_dump (a : t) : AddressDict.t :=
  {| AddressDict.id := Val (id a);
     AddressDict.street := Val (street a);
     AddressDict.city := Val (city a);
     AddressDict.state := Val (state a);
     AddressDict.postal_code := Val (postal_code a);
     AddressDict.country := Val (country a);
     AddressDict.created_at := Unset;
     AddressDict.updated_at := Unset |}.

(** An instance together with what [model_dump(exclude_unset=True)] reads
    of its [model_fields_set]: whether [id] was given or generated.  (The
    other fields are required, hence always set.)  The code dumps so only
    the addresses nested in a [PersonUpdate]. *)
Record parsed := Parsed {
  value : t;
  id_given : bool }.

(** [model_dump(exclude_unset=True)]: a generated [id] is left out. *)
Definition model_dump_exclude_unset (a : parsed) : AddressDict.t :=
  {| AddressDict.id := if id_given a then Val (id (value a)) else Unset;
     AddressDict.street := Val (street (value a));
     AddressDict.city := Val (city (value a));
     AddressDict.state := Val (state (value a));
     AddressDict.postal_code := Val (postal_code (value a));
     AddressDict.country := Val (country (value a));
     AddressDict.created_at := Unset;
     AddressDict.updated_at := Unset |}.
End AddressBase.

(** [class AddressCreate(AddressBase)] *)
Module AddressCreate := AddressBase.

Module AddressUpdate.
(** Modelled from the spec: [class AddressUpdate] of [models/address.py],
    the five text fields, each optional. *)
Record t := Make {
  street : field str;
  city : field str;
  state : field str;
  postal_code : field str;
  country : field str }.

(** [model_dump(exclude_unset=True)] *)
Definition model_dump_exclude_unset (u : t) : AddressDict.t :=
  {| AddressDict.id := Unset;
     AddressDict.street := street u;
     AddressDict.city := city u;
     AddressDict.state := state u;
     AddressDict.postal_code := postal_code u;
     AddressDict.country := country u;
     AddressDict.created_at := Unset;
     AddressDict.updated_at := Unset |}.
End AddressUpdate.

Module AddressRead.
(** Modelled from the spec: [class AddressRead] of [models/address.py],
    [AddressBase] and the two timestamps. *)
Record t := Make {
  id : UUID;
  street : str;
  city : str;
  state : str;
  postal_code : str;
  country : str;
  created_at : datetime;
  updated_at : datetime }.

Definition model_dump (a : t) : AddressDict.t :=
  {| AddressDict.id := Val (id a);
     AddressDict.street := Val (street a);
     AddressDict.city := Val (city a);
     AddressDict.state := Val (state a);
     AddressDict.postal_code := Val (postal_code a);
     AddressDict.country := Val (country a);
     AddressDict.created_at := Val (created_at a);
     AddressDict.updated_at := Val (updated_at a) |}.
End AddressRead.

(** *** Person ([models/person.py]) *)

Module PersonBase.
Record t := Make {
  uni : str;
  first_name : str;
  last_name : str;
  email : str;
  phone : option str;
  birth_date : option date;
  addresses : list AddressBase.t }.

Definition model_dump (p : t) : PersonDict.t :=
  {| PersonDict.uni := Val (uni p);
     PersonDict.first_name := Val (first_name p);
     PersonDict.last_name := Val (last_name p);
     PersonDict.email := Val (email p);
     PersonDict.phone := dump_optional (phone p);
     PersonDict.birth_date := dump_optional (birth_date p);
     PersonDict.addresses := Val (map AddressBase.model_dump (addresses p));
     PersonDict.id := Unset;
     PersonDict.created_at := Unset;
     PersonDict.updated_at := Unset |}.
End PersonBase.

(** [class PersonCreate(PersonBase)] *)
Module PersonCreate := PersonBase.

Module PersonUpdate.
Record t := Make {
  uni : field str;
  first_name : field str;
  last_name : field str;
  email : field str;
  phone : field str;
  birth_date : field date;
  addresses : field (list AddressBase.parsed) }.

(** The dump applies [exclude_unset] to the nested addresses as well. *)
Definition dump_addresses (f : field (list AddressBase.parsed))
  : field (list AddressDict.t) :=
  match f with
  | Unset => Unset
  | Null => Null
  | Val l => Val (map AddressBase.model_dump_exclude_unset l)
  end.

(** [model_dump(exclude_unset=True)] *)
Definition model_dump_exclude_unset (u : t) : PersonDict.t :=
  {| PersonDict.uni := uni u;
     PersonDict.first_name := first_name u;
     PersonDict.last_name := last_name u;
     PersonDict.email := email u;
     PersonDict.phone := phone u;
     PersonDict.birth_date := birth_date u;
     PersonDict.addresses := dump_addresses (addresses u);
     PersonDict.id := Unset;
     PersonDict.created_at := Unset;
     PersonDict.updated_at := Unset |}.

(** The addresses that the payload gives, as values. *)
Definition addresses_given (u : t) : field (list AddressBase.t) :=
  match addresses u with
  | Unset => Unset
  | Null => Null
  | Val l => Val (map AddressBase.value l)
  end.
End PersonUpdate.

Module PersonRead.
Record t := Make {
  uni : str;
  first_name : str;
  last_name : str;
  email : str;
  phone : option str;
  birth_date : option date;
  addresses : list AddressBase.t;
  id : UUID;
  created_at : datetime;
  updated_at : datetime }.

Definition model_dump (p : t) : PersonDict.t :=
  {| PersonDict.uni := Val (uni p);
     PersonDict.first_name := Val (first_name p);
     PersonDict.last_name := Val (last_name p);
     PersonDict.email := Val (email p);
     PersonDict.phone := dump_optional (phone p);
     PersonDict.birth_date := dump_optional (birth_date p);
     PersonDict.addresses := Val (map AddressBase.model_dump (addresses p));
     PersonDict.id := Val (id p);
     PersonDict.created_at := Val (created_at p);
     PersonDict.updated_at := Val (updated_at p) |}.
End PersonRead.

(** *** FeeDetails ([models/FeeDetails.py]) *)

Module FeeDetailsBase.
Record t := Make {
  university_name : str;
  number_of_credits : Z;
  fee_paid : bool }.

Definition model_dump (f : t) : FeeDetailsDict.t :=
  {| FeeDetailsDict.university_name := Val (university_name f);
     FeeDetailsDict.number_of_credits := Val (number_of_credits f);
     FeeDetailsDict.fee_paid := Val (fee_paid f);
     FeeDetailsDict.id := Unset;
     FeeDetailsDict.created_at := Unset;
     FeeDetailsDict.updated_at := Unset |}.
End FeeDetailsBase.

(** [class FeeDetailsCreate(FeeDetailsBase)] *)
Module FeeDetailsCreate := FeeDetailsBase.

Module FeeDetailsUpdate.
Record t := Make {
  university_name : field str;
  number_of_credits : field Z;
  fee_paid : field bool }.

(** [model_dump(exclude_unset=True)] *)
Definition model_dump_exclude_unset (u : t) : FeeDetailsDict.t :=
  {| FeeDetailsDict.university_name := university_name u;
     FeeDetailsDict.number_of_credits := number_of_credits u;
     FeeDetailsDict.fee_paid := fee_paid u;
     FeeDetailsDict.id := Unset;
     FeeDetailsDict.created_at := Unset;
     FeeDetailsDict.updated_at := Unset |}.
End FeeDetailsUpdate.

Module FeeDetailsRead.
Record t := Make {
  university_name : str;
  number_of_credits : Z;
  fee_paid : bool;
  id : UUID;
  created_at : datetime;
  updated_at : datetime }.

Definition model_dump (f : t) : FeeDetailsDict.t :=
  {| FeeDetailsDict.university_name := Val (university_name f);
     FeeDetailsDict.number_of_credits := Val (number_of_credits f);
     FeeDetailsDict.fee_paid := Val (fee_paid f);
     FeeDetailsDict.id := Val (id f);
     FeeDetailsDict.created_at := Val (created_at f);
     FeeDetailsDict.updated_at := Val (updated_at f) |}.
End FeeDetailsRead.

(** *** VisaStatus ([models/VisaDetails.py]) *)

Module VisaStatusBase.
Record t := Make { visa_status : str }.

Definition model_dump (v : t) : VisaStatusDict.t :=
  {| VisaStatusDict.visa_status := Val (visa_status v);
     VisaStatusDict.id := Unset;
     VisaStatusDict.created_at := Unset;
     VisaStatusDict.updated_at := Unset |}.
End VisaStatusBase.

(** [class VisaStatusCreate(VisaStatusBase)] *)
Module VisaStatusCreate := VisaStatusBase.

Module VisaStatusUpdate.
Record t := Make { visa_status : field str }.

(** [model_dump(exclude_unset=True)] *)
Definition model_dump_exclude_unset (u : t) : VisaStatusDict.t :=
  {| VisaStatusDict.visa_status := visa_status u;
     VisaStatusDict.id := Unset;
     VisaStatusDict.created_at := Unset;
     VisaStatusDict.updated_at := Unset |}.
End VisaStatusUpdate.

Module VisaStatusRead.
Record t := Make {
  visa_status : str;
  id : UUID;
  created_at : datetime;
  updated_at : datetime }.

Definition model_dump (v : t) : VisaStatusDict.t :=
  {| VisaStatusDict.visa_status := Val (visa_status v);
     VisaStatusDict.id := Val (id v);
     VisaStatusDict.created_at := Val (created_at v);
     VisaStatusDict.updated_at := Val (updated_at v) |}.
End VisaStatusRead.


(** ** The server state and the handler monad *)

(** What the process reads from outside: the [n]-th value returned by
    [uuid4()] and by [datetime.utcnow()], and how many were read so far. *)
Record World := {
  rand : nat -> UUID;
  drawn : nat;
  clock : nat -> datetime;
  ticks : nat }.

(** The module-level dictionaries of [main.py] and the world. *)
Record Server := {
  db_persons : Dict PersonRead.t;
  db_addresses : Dict AddressRead.t;
  db_fee_details : Dict FeeDetailsRead.t;
  db_visa_statuses : Dict VisaStatusRead.t;
  world : World }.

Inductive exn :=
| HTTPException (status_code : Z) (detail : string)
| ValidationError
| KeyError.

Inductive outcome (A : Type) :=
| Returns (a : A)
| Raises (e : exn).
Arguments Returns {A} a.
Arguments Raises {A} e.

(** A computation reads and writes the server state and returns or raises;
    a raise keeps the state reached so far. *)
Definition M (A : Type) := Server -> outcome A * Server.

Definition ret {A} (a : A) : M A := fun s => (Returns a, s).

Definition raise {A} (e : exn) : M A := fun s => (Raises e, s).

Definition bind {A B} (m : M A) (k : A -> M B) : M B :=
  fun s =>
    match m s with
    | (Returns a, s') => k a s'
    | (Raises e, s') => (Raises e, s')
    end.

Declare Scope py_scope.
Delimit Scope py_scope with py.
Notation "x <- m ;; k" := (bind m (fun x => k))
  (at level 61, m at next level, right associativity) : py_scope.
Notation "m ;;; k" := (bind m (fun _ => k))
  (at level 61, right associativity) : py_scope.
Open Scope py_scope.

(** One more field for a constructor.  pydantic validates the fields of a
    model in the order of their declaration, all of them: a field that
    fails does not stop the validation of the fields after it, whose
    [default_factory] still runs, and the model raises its
    [ValidationError] at the end. *)
Definition ap {A B} (mf : M (A -> B)) (ma : M A) : M B :=
  fun s =>
    match mf s with
    | (rf, s1) =>
        match ma s1 with
        | (ra, s2) =>
            (match rf, ra with
             | Returns f, Returns a => Returns (f a)
             | Raises e, _ => Raises e
             | Returns _, Raises e => Raises e
             end, s2)
        end
    end.

Notation "mf <*> ma" := (ap mf ma)
  (at level 59, left associativity) : py_scope.

(** A [List[...]] field: every item is validated, also after one that
    failed. *)
Fixpoint each {A B} (f : A -> M B) (l : list A) : M (list B) :=
  match l with
  | [] => ret []
  | a :: l' => ret cons <*> f a <*> each f l'
  end.

Definition set_world (w : World) (s : Server) : Server :=
  {| db_persons := db_persons s; db_addresses := db_addresses s;
     db_fee_details := db_fee_details s; db_visa_statuses := db_visa_statuses s;
     world := w |}.

(** The world after [draws] more calls of [uuid4] and [reads] more calls of
    [utcnow]. *)
Definition later (draws reads : nat) (w : World) : World :=
  {| rand := rand w; drawn := draws + drawn w;
     clock := clock w; ticks := reads + ticks w |}.

(** [uuid.uuid4()] *)
Definition uuid4 : M UUID :=
  fun s =>
    (Returns (rand (world s) (drawn (world s))),
     set_world (later 1 0 (world s)) s).

(** [datetime.utcnow()] *)
Definition utcnow : M datetime :=
  fun s =>
    (Returns (clock (world s) (ticks (world s))),
     set_world (later 0 1 (world s)) s).

(** One of the global dictionaries, as a place in the server state. *)
Record table (V : Type) := {
  load : Server -> Dict V;
  store : Dict V -> Server -> Server }.

Definition persons : table PersonRead.t :=
  {| load := db_persons;
     store := fun d s =>
       {| db_persons := d; db_addresses := db_addresses s;
          db_fee_details := db_fee_details s; db_visa_statuses := db_visa_statuses s;
          world := world s |} |}.

Definition addresses : table AddressRead.t :=
  {| load := db_addresses;
     store := fun d s =>
       {| db_persons := db_persons s; db_addresses := d;
          db_fee_details := db_fee_details s; db_visa_statuses := db_visa_statuses s;
          world := world s |} |}.

Definition fee_details : table FeeDetailsRead.t :=
  {| load := db_fee_details;
     store := fun d s =>
       {| db_persons := db_persons s; db_addresses := db_addresses s;
          db_fee_details := d; db_visa_statuses := db_visa_statuses s;
          world := world s |} |}.

Definition visa_statuses : table VisaStatusRead.t :=
  {| load := db_visa_statuses;
     store := fun d s =>
       {| db_persons := db_persons s; db_addresses := db_addresses s;
          db_fee_details := db_fee_details s; db_visa_statuses := d;
          world := world s |} |}.

(** [k in t] *)
Definition contains {V} (t : table V) (k : UUID) : M bool :=
  fun s => (Returns (dict_mem k (load t s)), s).

(** [t[k]] *)
Definition getitem {V} (t : table V) (k : UUID) : M V :=
  fun s =>
    match dict_get k (load t s) with
    | Some v => (Returns v, s)
    | None => (Raises KeyError, s)
    end.

(** [t[k] = v] *)
Definition setitem {V} (t : table V) (k : UUID) (v : V) : M unit :=
  fun s => (Returns tt, store t (dict_set k v (load t s)) s).

(** [list(t.values())] *)
Definition values {V} (t : table V) : M (list V) :=
  fun s => (Returns (dict_values (load t s)), s).

(** ** Validation: building a model from keyword arguments *)

(** A field declared with [Field(...)]: required, [None] is not a value. *)
Definition required {T} (f : field T) : M T :=
  match f with
  | Val v => ret v
  | _ => raise ValidationError
  end.

(** A field [Optional[T] = Field(None)] of a Base or Read class. *)
Definition optional {T} (f : field T) : M (option T) :=
  match f with
  | Val v => ret (Some v)
  | _ => ret None
  end.

(** A field with [default_factory]: the factory runs when the key is absent. *)
Definition default_factory {T} (factory : M T) (f : field T) : M T :=
  match f with
  | Unset => factory
  | Null => raise ValidationError
  | Val v => ret v
  end.

(** A field [Optional[T] = Field(None)] of an Update class; the object
    remembers whether the key was given ([model_fields_set]). *)
Definition given {T U} (check : T -> M U) (f : field T) : M (field U) :=
  match f with
  | Unset => ret Unset
  | Null => ret Null
  | Val v => v' <- check v ;; ret (Val v')
  end.

(** Is the key among the keyword arguments? *)
Definition is_set {T} (f : field T) : bool :=
  match f with
  | Unset => false
  | _ => true
  end.

(** The constructors of the model classes, called with the keys of [kw] as
    keyword arguments. *)

(** Modelled from the spec: the constructor of [AddressBase], and of
    [AddressCreate] which inherits it. *)
Definition AddressBase_init (kw : AddressDict.t) : M AddressBase.t :=
  ret AddressBase.Make
  <*> default_factory uuid4 (AddressDict.id kw)
  <*> required (AddressDict.street kw)
  <*> required (AddressDict.city kw)
  <*> required (AddressDict.state kw)
  <*> required (AddressDict.postal_code kw)
  <*> required (AddressDict.country kw).

Definition AddressCreate_init := AddressBase_init.

(** The same, keeping whether [id] was among the keyword arguments. *)
Definition AddressBase_parse (kw : AddressDict.t) : M AddressBase.parsed :=
  a <- AddressBase_init kw ;;
  ret (AddressBase.Parsed a (is_set (AddressDict.id kw))).

(** Modelled from the spec: the constructor of [AddressUpdate]. *)
Definition AddressUpdate_init (kw : AddressDict.t) : M AddressUpdate.t :=
  ret AddressUpdate.Make
  <*> given ret (AddressDict.street kw)
  <*> given ret (AddressDict.city kw)
  <*> given ret (AddressDict.state kw)
  <*> given ret (AddressDict.postal_code kw)
  <*> given ret (AddressDict.country kw).

(** Modelled from the spec: the constructor of [AddressRead]. *)
Definition AddressRead_init (kw : AddressDict.t) : M AddressRead.t :=
  ret AddressRead.Make
  <*> default_factory uuid4 (AddressDict.id kw)
  <*> required (AddressDict.street kw)
  <*> required (AddressDict.city kw)
  <*> required (AddressDict.state kw)
  <*> required (AddressDict.postal_code kw)
  <*> required (AddressDict.country kw)
  <*> default_factory utcnow (AddressDict.created_at kw)
  <*> default_factory utcnow (AddressDict.updated_at kw).

Definition FeeDetailsCreate_init (kw : FeeDetailsDict.t) : M FeeDetailsCreate.t :=
  ret FeeDetailsBase.Make
  <*> required (FeeDetailsDict.university_name kw)
  <*> required (FeeDetailsDict.number_of_credits kw)
  <*> required (FeeDetailsDict.fee_paid kw).

Definition FeeDetailsUpdate_init (kw : FeeDetailsDict.t) : M FeeDetailsUpdate.t :=
  ret FeeDetailsUpdate.Make
  <*> given ret (FeeDetailsDict.university_name kw)
  <*> given ret (FeeDetailsDict.number_of_credits kw)
  <*> given ret (FeeDetailsDict.fee_paid kw).

Definition FeeDetailsRead_init (kw : FeeDetailsDict.t) : M FeeDetailsRead.t :=
  ret FeeDetailsRead.Make
  <*> required (FeeDetailsDict.university_name kw)
  <*> required (FeeDetailsDict.number_of_credits kw)
  <*> required (FeeDetailsDict.fee_paid kw)
  <*> default_factory uuid4 (FeeDetailsDict.id kw)
  <*> default_factory utcnow (FeeDetailsDict.created_at kw)
  <*> default_factory utcnow (FeeDetailsDict.updated_at kw).

Definition VisaStatusCreate_init (kw : VisaStatusDict.t) : M VisaStatusCreate.t :=
  ret VisaStatusBase.Make
  <*> required (VisaStatusDict.visa_status kw).

Definition VisaStatusUpdate_init (kw : VisaStatusDict.t) : M VisaStatusUpdate.t :=
  ret VisaStatusUpdate.Make
  <*> given ret (VisaStatusDict.visa_status kw).

Definition VisaStatusRead_init (kw : VisaStatusDict.t) : M VisaStatusRead.t :=
  ret VisaStatusRead.Make
  <*> required (VisaStatusDict.visa_status kw)
  <*> default_factory uuid4 (VisaStatusDict.id kw)
  <*> default_factory utcnow (VisaStatusDict.created_at kw)
  <*> default_factory utcnow (VisaStatusDict.updated_at kw).

(** ** Sample data, for the examples and the counterexamples *)

Module Sample.

(** A validator of emails that wants an [@] and returns the address as it
    is. *)
Definition has_at (s : str) : option str :=
  if existsb (N.eqb 64) s then Some s else None.

(** A clock that does not advance during the first two readings, and one
    that advances by one microsecond at each reading. *)
Definition coarse_world : World :=
  {| rand := fun n => (1000 + N.of_nat n)%N; drawn := 0;
     clock := fun n => if (n <? 2)%nat then 100%Z else 200%Z; ticks := 0 |}.

Definition ticking_world : World :=
  {| rand := fun n => (1000 + N.of_nat n)%N; drawn := 0;
     clock := fun n => Z.of_nat n; ticks := 0 |}.

Definition riverside : AddressCreate.t :=
  {| AddressBase.id := 7%N;
     AddressBase.street := lit "736 Riverside Dr";
     AddressBase.city := lit "New York";
     AddressBase.state := lit "NY";
     AddressBase.postal_code := lit "10031";
     AddressBase.country := lit "USA" |}.

Definition to_brooklyn : AddressUpdate.t :=
  {| AddressUpdate.street := Unset;
     AddressUpdate.city := Val (lit "Brooklyn");
     AddressUpdate.state := Unset;
     AddressUpdate.postal_code := Unset;
     AddressUpdate.country := Unset |}.

Definition riverside_read : AddressRead.t :=
  {| AddressRead.id := 7%N;
     AddressRead.street := lit "736 Riverside Dr";
     AddressRead.city := lit "New York";
     AddressRead.state := lit "NY";
     AddressRead.postal_code := lit "10031";
     AddressRead.country := lit "USA";
     AddressRead.created_at := 100%Z;
     AddressRead.updated_at := 100%Z |}.

Definition columbia : FeeDetailsRead.t :=
  {| FeeDetailsRead.university_name := lit "Columbia University";
     FeeDetailsRead.number_of_credits := 30%Z;
     FeeDetailsRead.fee_paid := true;
     FeeDetailsRead.id := 1%N;
     FeeDetailsRead.created_at := 100%Z;
     FeeDetailsRead.updated_at := 100%Z |}.

Definition columbia_create : FeeDetailsCreate.t :=
  {| FeeDetailsBase.university_name := lit "Columbia University";
     FeeDetailsBase.number_of_credits := 30%Z;
     FeeDetailsBase.fee_paid := true |}.

(** The body [{"fee_paid": null}] *)
Definition fee_paid_null : FeeDetailsUpdate.t :=
  {| FeeDetailsUpdate.university_name := Unset;
     FeeDetailsUpdate.number_of_credits := Unset;
     FeeDetailsUpdate.fee_paid := Null |}.

(** The body [{"number_of_credits": 36}] *)
Definition credits_36 : FeeDetailsUpdate.t :=
  {| FeeDetailsUpdate.university_name := Unset;
     FeeDetailsUpdate.number_of_credits := Val 36%Z;
     FeeDetailsUpdate.fee_paid := Unset |}.

Definition f1_visa : VisaStatusRead.t :=
  {| VisaStatusRead.visa_status := lit "F1";
     VisaStatusRead.id := 3%N;
     VisaStatusRead.created_at := 100%Z;
     VisaStatusRead.updated_at := 100%Z |}.

(** A person without a birth date. *)
Definition dy2530 : PersonRead.t :=
  {| PersonRead.uni := lit "dy2530";
     PersonRead.first_name := lit "Dhanvanth Reddy";
     PersonRead.last_name := lit "Yerramreddy";
     PersonRead.email := lit "dy2530@columbia.edu";
     PersonRead.phone := None;
     PersonRead.birth_date := None;
     PersonRead.addresses := [riverside];
     PersonRead.id := 9%N;
     PersonRead.created_at := 100%Z;
     PersonRead.updated_at := 100%Z |}.

Definition dy2530_create : PersonCreate.t :=
  {| PersonBase.uni := lit "dy2530";
     PersonBase.first_name := lit "Dhanvanth Reddy";
     PersonBase.last_name := lit "Yerramreddy";
     PersonBase.email := lit "dy2530@columbia.edu";
     PersonBase.phone := None;
     PersonBase.birth_date := None;
     PersonBase.addresses := [riverside] |}.

(** The body [{"addresses": []}] *)
Definition no_addresses : PersonUpdate.t :=
  {| PersonUpdate.uni := Unset;
     PersonUpdate.first_name := Unset;
     PersonUpdate.last_name := Unset;
     PersonUpdate.email := Unset;
     PersonUpdate.phone := Unset;
     PersonUpdate.birth_date := Unset;
     PersonUpdate.addresses := Val [] |}.

(** The body [{"first_name": null, "addresses": []}] *)
Definition no_addresses_null_name : PersonUpdate.t :=
  {| PersonUpdate.uni := Unset;
     PersonUpdate.first_name := Null;
     PersonUpdate.last_name := Unset;
     PersonUpdate.email := Unset;
     PersonUpdate.phone := Unset;
     PersonUpdate.birth_date := Unset;
     PersonUpdate.addresses := Val [] |}.

(** The body [{"addresses": [a, b]}] where [a] has the identifier 8 and [b]
    has none: the object built from the body carries for [b] an identifier
    that the validation of the body generated, here 1002. *)
Definition boston : AddressBase.t :=
  {| AddressBase.id := 8%N;
     AddressBase.street := lit "1 Main St";
     AddressBase.city := lit "Boston";
     AddressBase.state := lit "MA";
     AddressBase.postal_code := lit "02108";
     AddressBase.country := lit "USA" |}.

Definition broadway : AddressBase.t :=
  {| AddressBase.id := 1002%N;
     AddressBase.street := lit "2960 Broadway";
     AddressBase.city := lit "New York";
     AddressBase.state := lit "NY";
     AddressBase.postal_code := lit "10027";
     AddressBase.country := lit "USA" |}.

Definition two_addresses : PersonUpdate.t :=
  {| PersonUpdate.uni := Unset;
     PersonUpdate.first_name := Unset;
     PersonUpdate.last_name := Unset;
     PersonUpdate.email := Unset;
     PersonUpdate.phone := Unset;
     PersonUpdate.birth_date := Unset;
     PersonUpdate.addresses :=
       Val [AddressBase.Parsed boston true; AddressBase.Parsed broadway false] |}.


(** The body [{"last_name": "Reddy"}] *)
Definition new_last_name : PersonUpdate.t :=
  {| PersonUpdate.uni := Unset;
     PersonUpdate.first_name := Unset;
     PersonUpdate.last_name := Val (lit "Reddy");
     PersonUpdate.email := Unset;
     PersonUpdate.phone := Unset;
     PersonUpdate.birth_date := Unset;
     PersonUpdate.addresses := Unset |}.

(** A state with one record in each dictionary, reached at time 100; the
    clock reads 200 from then on. *)
Definition populated : Server :=
  {| db_persons := [(9%N, dy2530)];
     db_addresses := [(7%N, riverside_read)];
     db_fee_details := [(1%N, columbia)];
     db_visa_statuses := [(3%N, f1_visa)];
     world := {| rand := fun n => (1000 + N.of_nat n)%N; drawn := 3;
                 clock := fun n => if (n <? 8)%nat then 100%Z else 200%Z;
                 ticks := 8 |} |}.

End Sample.

Section Service.

(** [EmailStr]: the [email-validator] package accepts an address and
    returns its normal form, or rejects it. *)
Variable validate_email : str -> option str.

(** The pattern of [UNIType]: [^[a-z]{2,3}\d{1,4}$] *)
Definition UNI_pattern : regex :=
  Cat (Repeat (Class lower_az) 2 3) (Repeat (Class unicode_Nd) 1 4).

(** What [UNI_pattern] accepts, in the words of its comment: 2 to 3
    lowercase letters, then 1 to 4 digits; the digits are those of [\d],
    the decimal digits of any script. *)
Definition is_uni (s : str) : Prop :=
  exists letters digits,
    s = letters ++ digits /\
    (2 <= List.length letters <= 3)%nat /\
    Forall (fun c => (97 <= c <= 122)%N) letters /\
    (1 <= List.length digits <= 4)%nat /\
    Forall (fun c => unicode_Nd c = true) digits.

Definition UNIType (s : str) : M str :=
  if fullmatch UNI_pattern s then ret s else raise ValidationError.

Definition EmailStr (s : str) : M str :=
  match validate_email s with
  | Some s' => ret s'
  | None => raise ValidationError
  end.

(** [PersonBase], and [PersonCreate] which inherits it. *)
Definition PersonBase_init (kw : PersonDict.t) : M PersonBase.t :=
  ret PersonBase.Make
  <*> (s <- required (PersonDict.uni kw) ;; UNIType s)
  <*> required (PersonDict.first_name kw)
  <*> required (PersonDict.last_name kw)
  <*> (s <- required (PersonDict.email kw) ;; EmailStr s)
  <*> optional (PersonDict.phone kw)
  <*> optional (PersonDict.birth_date kw)
  <*> (l <- default_factory (ret []) (PersonDict.addresses kw) ;;
       each AddressBase_init l).

Definition PersonCreate_init := PersonBase_init.

Definition PersonUpdate_init (kw : PersonDict.t) : M PersonUpdate.t :=
  ret PersonUpdate.Make
  <*> given UNIType (PersonDict.uni kw)
  <*> given ret (PersonDict.first_name kw)
  <*> given ret (PersonDict.last_name kw)
  <*> given EmailStr (PersonDict.email kw)
  <*> given ret (PersonDict.phone kw)
  <*> given ret (PersonDict.birth_date kw)
  <*> given (each AddressBase_parse) (PersonDict.addresses kw).

Definition PersonRead_init (kw : PersonDict.t) : M PersonRead.t :=
  ret PersonRead.Make
  <*> (s <- required (PersonDict.uni kw) ;; UNIType s)
  <*> required (PersonDict.first_name kw)
  <*> required (PersonDict.last_name kw)
  <*> (s <- required (PersonDict.email kw) ;; EmailStr s)
  <*> optional (PersonDict.phone kw)
  <*> optional (PersonDict.birth_date kw)
  <*> (l <- default_factory (ret []) (PersonDict.addresses kw) ;;
       each AddressBase_init l)
  <*> default_factory uuid4 (PersonDict.id kw)
  <*> default_factory utcnow (PersonDict.created_at kw)
  <*> default_factory utcnow (PersonDict.updated_at kw).

(** ** The handlers of [main.py] *)

(** [results = [x for x in results if test(x, value)]] under
    [if value is not None] *)
Definition narrow {V T} (value : option T) (test : V -> T -> bool)
  (results : list V) : list V :=
  match value with
  | Some x => filter (fun v => test v x) results
  | None => results
  end.

(** [a == b] for an [Optional[str]] attribute [a] and a [str] [b] *)
Definition optional_str_eqb (a : option str) (b : str) : bool :=
  match a with
  | Some s => str_eqb s b
  | None => false
  end.

(** *** Address endpoints *)

Definition create_address (address : AddressCreate.t) : M AddressRead.t :=
  present <- contains addresses (AddressCreate.id address) ;;
  if present then
    raise (HTTPException 400 "Address with this ID already exists")
  else
    a <- AddressRead_init (AddressCreate.model_dump address) ;;
    setitem addresses (AddressCreate.id address) a ;;;
    getitem addresses (AddressCreate.id address).

Definition list_addresses (street city state postal_code country : option str)
  : M (list AddressRead.t) :=
  results <- values addresses ;;
  let results := narrow street (fun a x => str_eqb (AddressRead.street a) x) results in
  let results := narrow city (fun a x => str_eqb (AddressRead.city a) x) results in
  let results := narrow state (fun a x => str_eqb (AddressRead.state a) x) results in
  let results :=
    narrow postal_code (fun a x => str_eqb (AddressRead.postal_code a) x) results in
  let results := narrow country (fun a x => str_eqb (AddressRead.country a) x) results in
  ret results.

Definition get_address (address_id : UUID) : M AddressRead.t :=
  present <- contains addresses address_id ;;
  if negb present then raise (HTTPException 404 "Address not found")
  else getitem addresses address_id.

Definition update_address (address_id : UUID) (update : AddressUpdate.t)
  : M AddressRead.t :=
  present <- contains addresses address_id ;;
  if negb present then raise (HTTPException 404 "Address not found")
  else
    a <- getitem addresses address_id ;;
    let stored := AddressRead.model_dump a in
    let stored :=
      AddressDict.update stored (AddressUpdate.model_dump_exclude_unset update) in
    a' <- AddressRead_init stored ;;
    setitem addresses address_id a' ;;;
    getitem addresses address_id.

(** *** Person endpoints *)

Definition create_person (person : PersonCreate.t) : M PersonRead.t :=
  person_read <- PersonRead_init (PersonCreate.model_dump person) ;;
  setitem persons (PersonRead.id person_read) person_read ;;;
  ret person_read.

Definition list_persons
  (uni first_name last_name email phone birth_date city country : option str)
  : M (list PersonRead.t) :=
  results <- values persons ;;
  let results := narrow uni (fun p x => str_eqb (PersonRead.uni p) x) results in
  let results :=
    narrow first_name (fun p x => str_eqb (PersonRead.first_name p) x) results in
  let results :=
    narrow last_name (fun p x => str_eqb (PersonRead.last_name p) x) results in
  let results := narrow email (fun p x => str_eqb (PersonRead.email p) x) results in
  let results :=
    narrow phone (fun p x => optional_str_eqb (PersonRead.phone p) x) results in
  let results :=
    narrow birth_date
      (fun p x => str_eqb (str_of_birth_date (PersonRead.birth_date p)) x) results in
  let results :=
    narrow city
      (fun p x => existsb (fun addr => str_eqb (AddressBase.city addr) x)
                    (PersonRead.addresses p)) results in
  let results :=
    narrow country
      (fun p x => existsb (fun addr => str_eqb (AddressBase.country addr) x)
                    (PersonRead.addresses p)) results in
  ret results.

Definition get_person (person_id : UUID) : M PersonRead.t :=
  present <- contains persons person_id ;;
  if negb present then raise (HTTPException 404 "Person not found")
  else getitem persons person_id.

Definition update_person (person_id : UUID) (update : PersonUpdate.t)
  : M PersonRead.t :=
  present <- contains persons person_id ;;
  if negb present then raise (HTTPException 404 "Person not found")
  else
    p <- getitem persons person_id ;;
    let stored := PersonRead.model_dump p in
    let stored :=
      PersonDict.update stored (PersonUpdate.model_dump_exclude_unset update) in
    p' <- PersonRead_init stored ;;
    setitem persons person_id p' ;;;
    getitem persons person_id.

(** *** FeeDetails endpoints *)

Definition create_fee_details (fee : FeeDetailsCreate.t) : M FeeDetailsRead.t :=
  fee_read <- FeeDetailsRead_init (FeeDetailsCreate.model_dump fee) ;;
  setitem fee_details (FeeDetailsRead.id fee_read) fee_read ;;;
  ret fee_read.

Definition list_fee_details (university_name : option str) (fee_paid : option bool)
  : M (list FeeDetailsRead.t) :=
  results <- values fee_details ;;
  let results :=
    narrow university_name
      (fun f x => str_eqb (FeeDetailsRead.university_name f) x) results in
  let results :=
    narrow fee_paid (fun f x => Bool.eqb (FeeDetailsRead.fee_paid f) x) results in
  ret results.

Definition get_fee_details (fee_id : UUID) : M FeeDetailsRead.t :=
  present <- contains fee_details fee_id ;;
  if negb present then raise (HTTPException 404 "FeeDetails not found")
  else getitem fee_details fee_id.

Definition update_fee_details (fee_id : UUID) (update : FeeDetailsUpdate.t)
  : M FeeDetailsRead.t :=
  present <- contains fee_details fee_id ;;
  if negb present then raise (HTTPException 404 "FeeDetails not found")
  else
    f <- getitem fee_details fee_id ;;
    let stored := FeeDetailsRead.model_dump f in
    let stored :=
      FeeDetailsDict.update stored (FeeDetailsUpdate.model_dump_exclude_unset update) in
    f' <- FeeDetailsRead_init stored ;;
    setitem fee_details fee_id f' ;;;
    getitem fee_details fee_id.

(** *** VisaStatus endpoints *)

Definition create_visa_status (visa : VisaStatusCreate.t) : M VisaStatusRead.t :=
  visa_read <- VisaStatusRead_init (VisaStatusCreate.model_dump visa) ;;
  setitem visa_statuses (VisaStatusRead.id visa_read) visa_read ;;;
  ret visa_read.

Definition list_visa_statuses (visa_status : option str) : M (list VisaStatusRead.t) :=
  results <- values visa_statuses ;;
  let results :=
    narrow visa_status (fun v x => str_eqb (VisaStatusRead.visa_status v) x) results in
  ret results.

Definition get_visa_status (visa_id : UUID) : M VisaStatusRead.t :=
  present <- contains visa_statuses visa_id ;;
  if negb present then raise (HTTPException 404 "VisaStatus not found")
  else getitem visa_statuses visa_id.

Definition update_visa_status (visa_id : UUID) (update : VisaStatusUpdate.t)
  : M VisaStatusRead.t :=
  present <- contains visa_statuses visa_id ;;
  if negb present then raise (HTTPException 404 "VisaStatus not found")
  else
    v <- getitem visa_statuses visa_id ;;
    let stored := VisaStatusRead.model_dump v in
    let stored :=
      VisaStatusDict.update stored (VisaStatusUpdate.model_dump_exclude_unset update) in
    v' <- VisaStatusRead_init stored ;;
    setitem visa_statuses visa_id v' ;;;
    getitem visa_statuses visa_id.

(** ** Requests

    FastAPI builds the handler's argument from the request body with the
    class the handler is annotated with, and calls the handler when that
    succeeds. *)

Inductive request :=
| POST_addresses (body : AddressDict.t)
| GET_addresses (street city state postal_code country : option str)
| GET_address (address_id : UUID)
| PATCH_address (address_id : UUID) (body : AddressDict.t)
| POST_persons (body : PersonDict.t)
| GET_persons (uni first_name last_name email phone birth_date city country : option str)
| GET_person (person_id : UUID)
| PATCH_person (person_id : UUID) (body : PersonDict.t)
| POST_fee_details (body : FeeDetailsDict.t)
| GET_fee_details (university_name : option str) (fee_paid : option bool)
| GET_fee_detail (fee_id : UUID)
| PATCH_fee_detail (fee_id : UUID) (body : FeeDetailsDict.t)
| POST_visa_status (body : VisaStatusDict.t)
| GET_visa_statuses (visa_status : option str)
| GET_visa_status (visa_id : UUID)
| PATCH_visa_status (visa_id : UUID) (body : VisaStatusDict.t).

Inductive response :=
| OneAddress (a : AddressRead.t)
| ManyAddresses (l : list AddressRead.t)
| OnePerson (p : PersonRead.t)
| ManyPersons (l : list PersonRead.t)
| OneFeeDetails (f : FeeDetailsRead.t)
| ManyFeeDetails (l : list FeeDetailsRead.t)
| OneVisaStatus (v : VisaStatusRead.t)
| ManyVisaStatuses (l : list VisaStatusRead.t).

Definition handle (r : request) : M response :=
  match r with
  | POST_addresses body =>
      address <- AddressCreate_init body ;; a <- create_address address ;;
      ret (OneAddress a)
  | GET_addresses street city state postal_code country =>
      l <- list_addresses street city state postal_code country ;;
      ret (ManyAddresses l)
  | GET_address address_id =>
      a <- get_address address_id ;; ret (OneAddress a)
  | PATCH_address address_id body =>
      update <- AddressUpdate_init body ;; a <- update_address address_id update ;;
      ret (OneAddress a)
  | POST_persons body =>
      person <- PersonCreate_init body ;; p <- create_person person ;;
      ret (OnePerson p)
  | GET_persons uni first_name last_name email phone birth_date city country =>
      l <- list_persons uni first_name last_name email phone birth_date city country ;;
      ret (ManyPersons l)
  | GET_person person_id =>
      p <- get_person person_id ;; ret (OnePerson p)
  | PATCH_person person_id body =>
      update <- PersonUpdate_init body ;; p <- update_person person_id update ;;
      ret (OnePerson p)
  | POST_fee_details body =>
      fee <- FeeDetailsCreate_init body ;; f <- create_fee_details fee ;;
      ret (OneFeeDetails f)
  | GET_fee_details university_name fee_paid =>
      l <- list_fee_details university_name fee_paid ;; ret (ManyFeeDetails l)
  | GET_fee_detail fee_id =>
      f <- get_fee_details fee_id ;; ret (OneFeeDetails f)
  | PATCH_fee_detail fee_id body =>
      update <- FeeDetailsUpdate_init body ;; f <- update_fee_details fee_id update ;;
      ret (OneFeeDetails f)
  | POST_visa_status body =>
      visa <- VisaStatusCreate_init body ;; v <- create_visa_status visa ;;
      ret (OneVisaStatus v)
  | GET_visa_statuses visa_status =>
      l <- list_visa_statuses visa_status ;; ret (ManyVisaStatuses l)
  | GET_visa_status visa_id =>
      v <- get_visa_status visa_id ;; ret (OneVisaStatus v)
  | PATCH_visa_status visa_id body =>
      update <- VisaStatusUpdate_init body ;; v <- update_visa_status visa_id update ;;
      ret (OneVisaStatus v)
  end.

(** The state after a sequence of requests. *)
Fixpoint serve (rs : list request) (s : Server) : Server :=
  match rs with
  | [] => s
  | r :: rs' => serve rs' (snd (handle r s))
  end.

(** The process at start: the four dictionaries are empty. *)
Definition boot (w : World) : Server :=
  {| db_persons := []; db_addresses := []; db_fee_details := [];
     db_visa_statuses := []; world := w |}.

(** Creates and updates, the requests that write. *)
Definition is_create (r : request) : bool :=
  match r with
  | POST_addresses _ | POST_persons _ | POST_fee_details _ | POST_visa_status _ => true
  | _ => false
  end.

Definition is_update (r : request) : bool :=
  match r with
  | PATCH_address _ _ | PATCH_person _ _ | PATCH_fee_detail _ _
  | PATCH_visa_status _ _ => true
  | _ => false
  end.


(** ** Vocabulary of the properties *)

(** The value of an attribute after a merge: the payload's value when the
    payload carries one, the stored value otherwise. *)
Definition pick {T} (old : T) (f : field T) : T :=
  match f with
  | Val v => v
  | _ => old
  end.

(** The same for an [Optional] attribute, which [null] clears. *)
Definition pick_optional {T} (old : option T) (f : field T) : option T :=
  match f with
  | Unset => old
  | Null => None
  | Val v => Some v
  end.

(** The address [stored] is the address [given] of a payload: the same
    text fields, and the same identifier when the payload gave one. *)
Definition same_address (given : AddressBase.parsed) (stored : AddressBase.t)
  : Prop :=
  AddressBase.street stored = AddressBase.street (AddressBase.value given)
  /\ AddressBase.city stored = AddressBase.city (AddressBase.value given)
  /\ AddressBase.state stored = AddressBase.state (AddressBase.value given)
  /\ AddressBase.postal_code stored
     = AddressBase.postal_code (AddressBase.value given)
  /\ AddressBase.country stored = AddressBase.country (AddressBase.value given)
  /\ (AddressBase.id_given given = true ->
      AddressBase.id stored = AddressBase.id (AddressBase.value given)).

(** All the addresses of a payload come with their identifier. *)
Definition ids_given (l : list AddressBase.parsed) : Prop :=
  Forall (fun a => AddressBase.id_given a = true) l.

(** The address [a] under the identifier [k]. *)
Definition with_id (k : UUID) (a : AddressBase.t) : AddressBase.t :=
  {| AddressBase.id := k;
     AddressBase.street := AddressBase.street a;
     AddressBase.city := AddressBase.city a;
     AddressBase.state := AddressBase.state a;
     AddressBase.postal_code := AddressBase.postal_code a;
     AddressBase.country := AddressBase.country a |}.

(** The addresses that a person has after an update with the addresses [l],
    [n] being the number of identifiers generated before the update: an
    address that came with its identifier is taken as it is, an address
    that came without one gets the next identifier of the generator, which
    is not the one that the payload object carried. *)
Fixpoint regenerated (rand : nat -> UUID) (n : nat) (l : list AddressBase.parsed)
  : list AddressBase.t :=
  match l with
  | [] => []
  | a :: l' =>
      if AddressBase.id_given a then
        AddressBase.value a :: regenerated rand n l'
      else
        with_id (rand n) (AddressBase.value a) :: regenerated rand (S n) l'
  end.

(** The number of identifiers that this takes from the generator. *)
Definition generated (l : list AddressBase.parsed) : nat :=
  List.length (filter (fun a => negb (AddressBase.id_given a)) l).

(** The same for the [addresses] of an update payload, which may be
    absent: the person keeps the addresses [old] then. *)
Definition addresses_after (w : World) (old : list AddressBase.t)
  (f : field (list AddressBase.parsed)) : list AddressBase.t :=
  match f with
  | Val l => regenerated (rand w) (drawn w) l
  | _ => old
  end.

Definition ids_generated (f : field (list AddressBase.parsed)) : nat :=
  match f with
  | Val l => generated l
  | _ => 0
  end.

(** A computation returns. *)
Definition accepts {A} (m : M A) (s : Server) : Prop :=
  exists a s', m s = (Returns a, s').

(** A computation that raises nothing but [ValidationError]. *)
Definition validation {A} (m : M A) : Prop :=
  forall s e, fst (m s) = Raises e -> e = ValidationError.

(** The clock does not run backwards. *)
Definition monotone (w : World) : Prop :=
  forall n m, (n <= m)%nat -> (clock w n <= clock w m)%Z.

(** A filter of a list request holds of a record: no value was given, or
    the test succeeds. *)
Definition holds {V T} (value : option T) (test : V -> T -> bool) (v : V) : bool :=
  match value with
  | Some x => test v x
  | None => true
  end.

(** A person as the validation leaves it: the UNI matches the pattern and
    the email is in the normal form of the validator. *)
Definition validated_uni (s : str) : Prop := fullmatch UNI_pattern s = true.
Definition validated_email (s : str) : Prop := validate_email s = Some s.

(** The four dictionaries of a state. *)
Definition dicts (s : Server) :=
  (db_persons s, db_addresses s, db_fee_details s, db_visa_statuses s).

(** A computation that writes to none of the dictionaries. *)
Definition reads_only {A} (m : M A) : Prop :=
  forall s, dicts (snd (m s)) = dicts s.

(** Every record of a dictionary is stored under its own identifier. *)
Definition keyed_by_id {V} (id_of : V -> UUID) (d : Dict V) : Prop :=
  forall k v, In (k, v) d -> id_of v = k.

Definition key_record_agreement (s : Server) : Prop :=
  keyed_by_id PersonRead.id (db_persons s) /\
  keyed_by_id AddressRead.id (db_addresses s) /\
  keyed_by_id FeeDetailsRead.id (db_fee_details s) /\
  keyed_by_id VisaStatusRead.id (db_visa_statuses s).

(** The keys of the four dictionaries, each in the order of [d.keys()]. *)
Definition key_order (s : Server) :=
  (dict_keys (db_persons s), dict_keys (db_addresses s),
   dict_keys (db_fee_details s), dict_keys (db_visa_statuses s)).

(** [l'] is [l] with further elements after it. *)
Definition grows {A} (l l' : list A) : Prop := exists new, l' = l ++ new.

Definition key_order_grows (s s' : Server) : Prop :=
  grows (dict_keys (db_persons s)) (dict_keys (db_persons s')) /\
  grows (dict_keys (db_addresses s)) (dict_keys (db_addresses s')) /\
  grows (dict_keys (db_fee_details s)) (dict_keys (db_fee_details s')) /\
  grows (dict_keys (db_visa_statuses s)) (dict_keys (db_visa_statuses s')).

(** A filter of a list request, when it was given, requires [P] of its
    value. *)
Definition when_given {T} (f : option T) (P : T -> Prop) : Prop :=
  forall v, f = Some v -> P v.

(** What identifies and dates a record. *)
Definition stamp_of_person (p : PersonRead.t) :=
  (PersonRead.id p, PersonRead.created_at p, PersonRead.updated_at p).
Definition stamp_of_address (a : AddressRead.t) :=
  (AddressRead.id a, AddressRead.created_at a, AddressRead.updated_at a).
Definition stamp_of_fee_details (f : FeeDetailsRead.t) :=
  (FeeDetailsRead.id f, FeeDetailsRead.created_at f, FeeDetailsRead.updated_at f).
Definition stamp_of_visa_status (v : VisaStatusRead.t) :=
  (VisaStatusRead.id v, VisaStatusRead.created_at v, VisaStatusRead.updated_at v).

(** What one request does to one dictionary: nothing, or one assignment
    [d[k] = v] of a record that is [ok]; when the request is not a create,
    [k] was a key and [v] has the stamp of the record it replaces. *)
Definition write_of {V S} (stamp : V -> S) (ok : V -> Prop) (create : bool)
  (d d' : Dict V) : Prop :=
  d' = d \/
  exists k v,
    d' = dict_set k v d /\ ok v /\
    (create = false -> exists v0, dict_get k d = Some v0 /\ stamp v = stamp v0).

(** A person as [PersonRead] accepts it. *)
Definition accepted_person (p : PersonRead.t) : Prop :=
  is_uni (PersonRead.uni p)
  /\ exists e, validate_email e = Some (PersonRead.email p).

(** The ASCII code points of a string are lowercase letters or the digits
    [0] to [9]. *)
Definition ascii_alnum (s : str) : Prop :=
  Forall (fun c => (c < 128)%N -> (97 <= c <= 122)%N \/ (48 <= c <= 57)%N) s.

(** The attributes of a Person body other than [uni] are as [PersonCreate]
    wants them: the two names are there, the email is one that the
    validator accepts and the addresses, if the body has any, are
    accepted. *)
Definition rest_accepted (kw : PersonDict.t) (s : Server) : Prop :=
  (exists v, PersonDict.first_name kw = Val v)
  /\ (exists v, PersonDict.last_name kw = Val v)
  /\ (exists e, PersonDict.email kw = Val e /\ validate_email e <> None)
  /\ (PersonDict.addresses kw = Unset
      \/ exists l, PersonDict.addresses kw = Val l
                   /\ accepts (each AddressBase_init l) s).



(** The entity whose endpoint a request calls. *)
Inductive entity := Address | Person | FeeDetails | VisaStatus.

Definition entity_of (r : request) : entity :=
  match r with
  | POST_addresses _ | GET_addresses _ _ _ _ _ | GET_address _
  | PATCH_address _ _ => Address
  | POST_persons _ | GET_persons _ _ _ _ _ _ _ _ | GET_person _
  | PATCH_person _ _ => Person
  | POST_fee_details _ | GET_fee_details _ _ | GET_fee_detail _
  | PATCH_fee_detail _ _ => FeeDetails
  | POST_visa_status _ | GET_visa_statuses _ | GET_visa_status _
  | PATCH_visa_status _ _ => VisaStatus
  end.


(** * Properties *)

(** ** Strings and dictionaries *)

Lemma str_eqb_eq a b : str_eqb a b = true <-> a = b.
Proof.
  unfold str_eqb. destruct (list_eq_dec N.eq_dec a b); split; congruence.
Qed.

Section DictFacts.
Variable V : Type.
Implicit Types (d : Dict V) (k : UUID) (v : V).

Lemma dict_mem_get k d : dict_mem k d = true <-> exists v, dict_get k d = Some v.
Proof.
  induction d as [|[k' v'] d IH]; simpl.
  - split; [discriminate | intros [v H]; discriminate].
  - destruct (N.eqb k k'); [split; eauto | exact IH].
Qed.

Lemma dict_mem_false_get k d : dict_mem k d = false <-> dict_get k d = None.
Proof.
  induction d as [|[k' v'] d IH]; simpl.
  - tauto.
  - destruct (N.eqb k k'); [split; discriminate | exact IH].
Qed.

Lemma dict_mem_keys k d : dict_mem k d = true <-> In k (dict_keys d).
Proof.
  induction d as [|[k' v'] d IH]; simpl.
  - split; [discriminate | tauto].
  - destruct (N.eqb_spec k k') as [->|Hne].
    + tauto.
    + rewrite IH. split; [tauto | intros [H|H]; congruence].
Qed.

Lemma dict_get_set_same k v d : dict_get k (dict_set k v d) = Some v.
Proof.
  induction d as [|[k' v'] d IH]; simpl.
  - now rewrite N.eqb_refl.
  - destruct (N.eqb k k') eqn:E; simpl; rewrite E; auto.
Qed.

Lemma dict_get_set_other k k' v d :
  k' <> k -> dict_get k' (dict_set k v d) = dict_get k' d.
Proof.
  intros Hne. induction d as [|[k0 v0] d IH]; simpl.
  - destruct (N.eqb_spec k' k); congruence.
  - destruct (N.eqb_spec k k0) as [->|Hk]; simpl.
    + destruct (N.eqb_spec k' k0); congruence.
    + now rewrite IH.
Qed.


(** A new key is appended. *)
Lemma dict_set_new k v d :
  dict_mem k d = false -> dict_set k v d = d ++ [(k, v)].
Proof.
  induction d as [|[k' v'] d IH]; simpl; auto.
  destruct (N.eqb k k'); [discriminate|].
  intros H. now rewrite IH.
Qed.

(** Writing never reorders the keys that are there. *)
Lemma dict_set_keys_old k v d :
  dict_mem k d = true -> dict_keys (dict_set k v d) = dict_keys d.
Proof.
  induction d as [|[k' v'] d IH]; simpl; [discriminate|].
  destruct (N.eqb k k'); simpl; auto.
  intros H. now rewrite IH.
Qed.

Lemma dict_set_length_old k v d :
  dict_mem k d = true -> List.length (dict_set k v d) = List.length d.
Proof.
  intros H. apply dict_set_keys_old with (v := v) in H.
  unfold dict_keys in H.
  rewrite <- (length_map fst d), <- H. now rewrite length_map.
Qed.

(** The keys of a dictionary built by [dict_set] are pairwise distinct. *)
Lemma dict_set_NoDup k v d :
  NoDup (dict_keys d) -> NoDup (dict_keys (dict_set k v d)).
Proof.
  intros Hnd. destruct (dict_mem k d) eqn:E.
  - now rewrite dict_set_keys_old.
  - rewrite dict_set_new by assumption.
    unfold dict_keys in *. rewrite map_app. simpl.
    apply NoDup_app; [assumption | repeat constructor; simpl; tauto |].
    intros x Hx [Hk|[]]. subst x.
    apply (proj2 (dict_mem_keys k d)) in Hx. congruence.
Qed.

(** Overwriting [k] changes the value at the position of [k] only. *)
Lemma dict_set_values_old k v d i :
  NoDup (dict_keys d) ->
  nth_error (dict_keys d) i = Some k ->
  dict_values (dict_set k v d)
  = firstn i (dict_values d) ++ v :: skipn (S i) (dict_values d).
Proof.
  revert i. induction d as [|[k' v'] d IH]; intros i Hnd Hi.
  - destruct i; discriminate.
  - simpl in Hnd. inversion Hnd as [|? ? Hnotin Hnd']; subst.
    destruct i as [|i]; simpl in Hi.
    + injection Hi as ->. simpl. now rewrite N.eqb_refl.
    + simpl. destruct (N.eqb_spec k k') as [->|Hne].
      * exfalso. apply Hnotin. eapply nth_error_In; eauto.
      * simpl. f_equal. now apply IH.
Qed.
End DictFacts.

(** ** Regular expressions *)

Lemma fullmatch_Cat r1 r2 s :
  fullmatch (Cat r1 r2) s = true <->
  exists s1 s2, s = s1 ++ s2 /\ fullmatch r1 s1 = true /\ fullmatch r2 s2 = true.
Proof.
  cbn [fullmatch]. rewrite existsb_exists. split.
  - intros (i & _ & H). apply andb_true_iff in H.
    exists (firstn i s), (skipn i s). now rewrite firstn_skipn.
  - intros (s1 & s2 & -> & H1 & H2). exists (List.length s1). split.
    + apply in_seq. rewrite length_app. lia.
    + rewrite firstn_app, Nat.sub_diag, firstn_all, firstn_O, app_nil_r.
      rewrite skipn_app, Nat.sub_diag, skipn_all. simpl.
      now rewrite H1, H2.
Qed.

Lemma fullmatch_Class p s :
  fullmatch (Class p) s = true <-> exists c, s = [c] /\ p c = true.
Proof.
  simpl. destruct s as [|c [|c' s]].
  - split; [discriminate | intros (c & H & _); discriminate].
  - split; [eauto | intros (c0 & H & Hp); congruence].
  - split; [discriminate | intros (c0 & H & _); discriminate].
Qed.

(** [p{0,n}] matches the strings of at most [n] code points, all in [p]. *)
Lemma fullmatch_upto p n s :
  fullmatch (upto (Class p) n) s = true <->
  (List.length s <= n)%nat /\ forallb p s = true.
Proof.
  revert s. induction n as [|n IH]; intros s.
  - simpl. destruct s; simpl; split; try easy; intros [H _]; lia.
  - change (upto (Class p) (S n)) with (Alt Eps (Cat (Class p) (upto (Class p) n))).
    change (fullmatch (Alt ?a ?b) s) with (fullmatch a s || fullmatch b s).
    rewrite orb_true_iff, fullmatch_Cat. split.
    + intros [H | (s1 & s2 & -> & H1 & H2)].
      * destruct s; [simpl; split; [lia | reflexivity] | discriminate].
      * apply fullmatch_Class in H1 as (c & -> & Hc).
        apply IH in H2 as [Hl Hp]. simpl. rewrite Hc, Hp. split; [lia | reflexivity].
    + intros [Hl Hp]. destruct s as [|c s]; [now left | right].
      simpl in Hl, Hp. apply andb_true_iff in Hp as [Hc Hp].
      exists [c], s. repeat split.
      * apply fullmatch_Class; eauto.
      * apply IH. split; [lia | assumption].
Qed.

(** [p{lo,lo+more}] *)
Lemma fullmatch_at_least p lo more s :
  fullmatch (at_least (Class p) lo more) s = true <->
  (lo <= List.length s <= lo + more)%nat /\ forallb p s = true.
Proof.
  revert s. induction lo as [|lo IH]; intros s.
  - simpl at_least. rewrite fullmatch_upto. simpl.
    split; intros [H1 H2]; split; auto; lia.
  - change (at_least (Class p) (S lo) more)
      with (Cat (Class p) (at_least (Class p) lo more)).
    rewrite fullmatch_Cat. split.
    + intros (s1 & s2 & -> & H1 & H2).
      apply fullmatch_Class in H1 as (c & -> & Hc).
      apply IH in H2 as [Hl Hp]. simpl. rewrite Hc, Hp. split; [lia | reflexivity].
    + intros [Hl Hp]. destruct s as [|c s]; [simpl in Hl; lia|].
      simpl in Hl, Hp. apply andb_true_iff in Hp as [Hc Hp].
      exists [c], s. repeat split.
      * apply fullmatch_Class; eauto.
      * apply IH. split; [lia | assumption].
Qed.

Lemma fullmatch_Repeat p lo hi s :
  (lo <= hi)%nat ->
  (fullmatch (Repeat (Class p) lo hi) s = true <->
   (lo <= List.length s <= hi)%nat /\ forallb p s = true).
Proof.
  intros H. unfold Repeat. rewrite fullmatch_at_least.
  replace (lo + (hi - lo))%nat with hi by lia. reflexivity.
Qed.

Lemma UNI_pattern_spec s : fullmatch UNI_pattern s = true <-> is_uni s.
Proof.
  unfold UNI_pattern, is_uni. rewrite fullmatch_Cat. split.
  - intros (l & d & -> & Hl & Hd).
    apply fullmatch_Repeat in Hl as [Hl1 Hl2]; [|lia].
    apply fullmatch_Repeat in Hd as [Hd1 Hd2]; [|lia].
    exists l, d. repeat split; try lia.
    + rewrite forallb_forall in Hl2. apply Forall_forall. intros c Hc.
      apply Hl2 in Hc. unfold lower_az in Hc.
      apply andb_true_iff in Hc as [H1 H2].
      apply N.leb_le in H1, H2. lia.
    + rewrite forallb_forall in Hd2. apply Forall_forall. auto.
  - intros (l & d & -> & Hl1 & Hl2 & Hd1 & Hd2).
    exists l, d. repeat split.
    + apply fullmatch_Repeat; [lia|]. split; [lia|].
      apply forallb_forall. rewrite Forall_forall in Hl2. intros c Hc.
      apply Hl2 in Hc. unfold lower_az.
      apply andb_true_iff. split; apply N.leb_le; lia.
    + apply fullmatch_Repeat; [lia|]. split; [lia|].
      apply forallb_forall. now rewrite Forall_forall in Hd2.
Qed.

(** ** The handler monad *)

Lemma update_key_Val {T} (old : T) (f : field T) :
  f <> Null -> update_key (Val old) f = Val (pick old f).
Proof. destruct f; simpl; congruence. Qed.

Lemma dict_get_mem {V} k (d : Dict V) v :
  dict_get k d = Some v -> dict_mem k d = true.
Proof. intros H. apply dict_mem_get. eauto. Qed.

(** A model is built when each of its fields is. *)
Lemma ap_returns {A B} (mf : M (A -> B)) (ma : M A) s f s1 a s2 :
  mf s = (Returns f, s1) -> ma s1 = (Returns a, s2) ->
  (mf <*> ma) s = (Returns (f a), s2).
Proof. intros H1 H2. unfold ap. now rewrite H1, H2. Qed.

Lemma ap_inv {A B} (mf : M (A -> B)) (ma : M A) s b s2 :
  (mf <*> ma) s = (Returns b, s2) ->
  exists f a s1, mf s = (Returns f, s1) /\ ma s1 = (Returns a, s2) /\ b = f a.
Proof.
  unfold ap. destruct (mf s) as [[f|e] s1];
    destruct (ma s1) as [[a|e'] s2'] eqn:Ea; intros H; try discriminate H.
  injection H as <- <-. exists f, a, s1. auto.
Qed.

(** A field that fails makes the model fail, whatever the other fields. *)
Lemma ap_raises_l {A B} (mf : M (A -> B)) (ma : M A) s e :
  fst (mf s) = Raises e -> fst ((mf <*> ma) s) = Raises e.
Proof.
  unfold ap. destruct (mf s) as [rf s1]. simpl. intros ->.
  now destruct (ma s1).
Qed.

Lemma ap_raises_r {A B} (mf : M (A -> B)) (ma : M A) s :
  validation mf ->
  fst (ma (snd (mf s))) = Raises ValidationError ->
  fst ((mf <*> ma) s) = Raises ValidationError.
Proof.
  intros H. specialize (H s). unfold ap.
  destruct (mf s) as [[f|e] s1]; simpl in *;
    destruct (ma s1) as [ra s2]; simpl; intros ->; [reflexivity|].
  now rewrite (H e eq_refl).
Qed.

Lemma ap_snd {A B} (mf : M (A -> B)) (ma : M A) s :
  snd ((mf <*> ma) s) = snd (ma (snd (mf s))).
Proof. unfold ap. destruct (mf s) as [rf s1]. simpl. now destruct (ma s1). Qed.

(** The world after some readings and some more. *)
Lemma set_world_same s : set_world (later 0 0 (world s)) s = s.
Proof. now destruct s as [? ? ? ? []]. Qed.

Lemma set_world_later n s :
  let s1 := set_world (later 1 0 (world s)) s in
  set_world (later n 0 (world s1)) s1 = set_world (later (S n) 0 (world s)) s.
Proof.
  unfold set_world, later. simpl. now rewrite Nat.add_succ_r.
Qed.

(** ** Validation leaves the dictionaries alone *)

Lemma reads_only_ret {A} (a : A) : reads_only (ret a).
Proof. intros s. reflexivity. Qed.

Lemma reads_only_raise {A} e : reads_only (@raise A e).
Proof. intros s. reflexivity. Qed.

Lemma reads_only_bind {A B} (m : M A) (k : A -> M B) :
  reads_only m -> (forall a, reads_only (k a)) -> reads_only (bind m k).
Proof.
  intros Hm Hk s. unfold bind. specialize (Hm s).
  destruct (m s) as [[a|e] s1]; simpl in *.
  - now rewrite Hk.
  - assumption.
Qed.

Lemma reads_only_uuid4 : reads_only uuid4.
Proof. intros s. reflexivity. Qed.

Lemma reads_only_utcnow : reads_only utcnow.
Proof. intros s. reflexivity. Qed.

Lemma reads_only_required {T} (f : field T) : reads_only (required f).
Proof. destruct f; intros s; reflexivity. Qed.

Lemma reads_only_optional {T} (f : field T) : reads_only (optional f).
Proof. destruct f; intros s; reflexivity. Qed.

Lemma reads_only_default_factory {T} (m : M T) (f : field T) :
  reads_only m -> reads_only (default_factory m f).
Proof. intros H. destruct f; simpl; auto; intros s; reflexivity. Qed.

Lemma reads_only_given {T U} (check : T -> M U) (f : field T) :
  (forall v, reads_only (check v)) -> reads_only (given check f).
Proof.
  intros H. destruct f; simpl; try (intros s; reflexivity).
  apply reads_only_bind; [apply H | intros; apply reads_only_ret].
Qed.

Lemma reads_only_ap {A B} (mf : M (A -> B)) (ma : M A) :
  reads_only mf -> reads_only ma -> reads_only (mf <*> ma).
Proof. intros Hf Ha s. now rewrite ap_snd, Ha, Hf. Qed.

Lemma reads_only_each {A B} (f : A -> M B) l :
  (forall a, reads_only (f a)) -> reads_only (each f l).
Proof.
  intros H. induction l as [|a l IH]; simpl; [apply reads_only_ret|].
  repeat apply reads_only_ap; auto using reads_only_ret.
Qed.

Lemma reads_only_UNIType s : reads_only (UNIType s).
Proof. unfold UNIType. destruct (fullmatch UNI_pattern s); intros st; reflexivity. Qed.

Lemma reads_only_EmailStr s : reads_only (EmailStr s).
Proof. unfold EmailStr. destruct (validate_email s); intros st; reflexivity. Qed.

Create HintDb reads_only.
#[local] Hint Resolve reads_only_ret reads_only_raise reads_only_uuid4
  reads_only_utcnow reads_only_required reads_only_optional
  reads_only_default_factory reads_only_given reads_only_each
  reads_only_UNIType reads_only_EmailStr : reads_only.

Ltac reads_only :=
  repeat first
    [ apply reads_only_ap
    | apply reads_only_bind; [|intros ?]
    | solve [auto with reads_only] ].

Lemma reads_only_AddressBase_init kw : reads_only (AddressBase_init kw).
Proof. unfold AddressBase_init. reads_only. Qed.

Lemma reads_only_AddressBase_parse kw : reads_only (AddressBase_parse kw).
Proof.
  pose proof reads_only_AddressBase_init.
  unfold AddressBase_parse. reads_only.
Qed.

Lemma reads_only_AddressUpdate_init kw : reads_only (AddressUpdate_init kw).
Proof. unfold AddressUpdate_init. reads_only. Qed.

Lemma reads_only_FeeDetailsCreate_init kw : reads_only (FeeDetailsCreate_init kw).
Proof. unfold FeeDetailsCreate_init. reads_only. Qed.

Lemma reads_only_FeeDetailsUpdate_init kw : reads_only (FeeDetailsUpdate_init kw).
Proof. unfold FeeDetailsUpdate_init. reads_only. Qed.

Lemma reads_only_VisaStatusCreate_init kw : reads_only (VisaStatusCreate_init kw).
Proof. unfold VisaStatusCreate_init. reads_only. Qed.

Lemma reads_only_VisaStatusUpdate_init kw : reads_only (VisaStatusUpdate_init kw).
Proof. unfold VisaStatusUpdate_init. reads_only. Qed.

Lemma reads_only_PersonBase_init kw : reads_only (PersonBase_init kw).
Proof.
  pose proof reads_only_AddressBase_init.
  unfold PersonBase_init. reads_only.
Qed.

Lemma reads_only_PersonUpdate_init kw : reads_only (PersonUpdate_init kw).
Proof.
  pose proof reads_only_AddressBase_parse.
  unfold PersonUpdate_init. reads_only.
Qed.

Lemma reads_only_PersonRead_init kw : reads_only (PersonRead_init kw).
Proof.
  pose proof reads_only_AddressBase_init.
  unfold PersonRead_init. reads_only.
Qed.

(** ** Validation raises validation errors only *)

Lemma validation_ret {A} (a : A) : validation (ret a).
Proof. intros s e H. discriminate H. Qed.

Lemma validation_raise {A} : validation (@raise A ValidationError).
Proof. intros s e H. now injection H as <-. Qed.

Lemma validation_bind {A B} (m : M A) (k : A -> M B) :
  validation m -> (forall a, validation (k a)) -> validation (bind m k).
Proof.
  intros Hm Hk s e. unfold bind. specialize (Hm s).
  destruct (m s) as [[a|e'] s1]; simpl in *.
  - apply Hk.
  - intros H. injection H as <-. now apply Hm.
Qed.

Lemma validation_ap {A B} (mf : M (A -> B)) (ma : M A) :
  validation mf -> validation ma -> validation (mf <*> ma).
Proof.
  intros Hf Ha s e. unfold ap. specialize (Hf s).
  destruct (mf s) as [[f|e'] s1]; simpl in *; specialize (Ha s1);
    destruct (ma s1) as [[a|e''] s2]; simpl in *; intros H;
    try discriminate H; injection H as <-; auto.
Qed.

Lemma validation_uuid4 : validation uuid4.
Proof. intros s e H. discriminate H. Qed.

Lemma validation_utcnow : validation utcnow.
Proof. intros s e H. discriminate H. Qed.

Lemma validation_required {T} (f : field T) : validation (required f).
Proof. destruct f; simpl; auto using validation_ret, validation_raise. Qed.

Lemma validation_optional {T} (f : field T) : validation (optional f).
Proof. destruct f; simpl; apply validation_ret. Qed.

Lemma validation_default_factory {T} (m : M T) (f : field T) :
  validation m -> validation (default_factory m f).
Proof. destruct f; simpl; auto using validation_ret, validation_raise. Qed.

Lemma validation_given {T U} (check : T -> M U) (f : field T) :
  (forall v, validation (check v)) -> validation (given check f).
Proof.
  intros H. destruct f; simpl; try apply validation_ret.
  apply validation_bind; [apply H | intros; apply validation_ret].
Qed.

Lemma validation_each {A B} (f : A -> M B) l :
  (forall a, validation (f a)) -> validation (each f l).
Proof.
  intros H. induction l as [|a l IH]; simpl; [apply validation_ret|].
  repeat apply validation_ap; auto using validation_ret.
Qed.

Lemma validation_UNIType s : validation (UNIType s).
Proof.
  unfold UNIType. destruct (fullmatch UNI_pattern s);
    auto using validation_ret, validation_raise.
Qed.

Lemma validation_EmailStr s : validation (EmailStr s).
Proof.
  unfold EmailStr. destruct (validate_email s);
    auto using validation_ret, validation_raise.
Qed.

Create HintDb validation.
#[local] Hint Resolve validation_ret validation_raise validation_uuid4
  validation_utcnow validation_required validation_optional
  validation_default_factory validation_given validation_each
  validation_UNIType validation_EmailStr : validation.

Ltac validation :=
  repeat first
    [ apply validation_ap
    | apply validation_bind; [|intros ?]
    | solve [auto with validation] ].

Lemma validation_AddressBase_init kw : validation (AddressBase_init kw).
Proof. unfold AddressBase_init. validation. Qed.

Lemma validation_AddressBase_parse kw : validation (AddressBase_parse kw).
Proof.
  pose proof validation_AddressBase_init.
  unfold AddressBase_parse. validation.
Qed.

Lemma validation_PersonBase_init kw : validation (PersonBase_init kw).
Proof.
  pose proof validation_AddressBase_init.
  unfold PersonBase_init. validation.
Qed.

Lemma validation_PersonUpdate_init kw : validation (PersonUpdate_init kw).
Proof.
  pose proof validation_AddressBase_parse.
  unfold PersonUpdate_init. validation.
Qed.

Lemma validation_PersonRead_init kw : validation (PersonRead_init kw).
Proof.
  pose proof validation_AddressBase_init.
  unfold PersonRead_init. validation.
Qed.

(** ** What the fields accept *)

(** What [optional] returns. *)
Lemma optional_ret {T} (f : field T) :
  optional f = ret (match f with Val v => Some v | _ => None end).
Proof. now destruct f. Qed.

Lemma optional_update_key {T} (old : option T) (f : field T) :
  optional (update_key (dump_optional old) f) = ret (pick_optional old f).
Proof. now destruct f, old. Qed.

Lemma required_inv {T} (f : field T) s v s' :
  required f s = (Returns v, s') -> f = Val v /\ s' = s.
Proof. destruct f; intros H; try discriminate H. now injection H as <- <-. Qed.

Lemma optional_inv {T} (f : field T) s o s' :
  optional f s = (Returns o, s') -> s' = s.
Proof. destruct f; intros H; now injection H as _ <-. Qed.


Lemma UNIType_inv f s u s' :
  (x <- required f ;; UNIType x) s = (Returns u, s') ->
  f = Val u /\ validated_uni u /\ s' = s.
Proof.
  destruct f as [| |x]; try discriminate. unfold bind, required, ret, UNIType.
  destruct (fullmatch UNI_pattern x) eqn:E; [|discriminate].
  intros H. now injection H as <- <-.
Qed.

Lemma EmailStr_inv f s e' s' :
  (x <- required f ;; EmailStr x) s = (Returns e', s') ->
  exists e, f = Val e /\ validate_email e = Some e' /\ s' = s.
Proof.
  destruct f as [| |x]; try discriminate. unfold bind, required, ret, EmailStr.
  destruct (validate_email x) eqn:E; [|discriminate].
  intros H. injection H as <- <-. eauto.
Qed.



Lemma addresses_inv fa s l' s' :
  (l <- default_factory (ret []) fa ;; each AddressBase_init l) s = (Returns l', s') ->
  (fa = Unset /\ l' = [] /\ s' = s)
  \/ exists l, fa = Val l /\ each AddressBase_init l s = (Returns l', s').
Proof.
  destruct fa as [| |l]; simpl.
  - intros H. injection H as <- <-. auto.
  - discriminate.
  - intros H. right. eauto.
Qed.

(** What [PersonCreate] accepts: a body whose [uni] is of the pattern and
    whose other attributes are accepted; the [uni] of the object is the
    string of the body. *)
Lemma PersonBase_init_inv kw s person s' :
  PersonBase_init kw s = (Returns person, s') ->
  PersonDict.uni kw = Val (PersonBase.uni person)
  /\ validated_uni (PersonBase.uni person)
  /\ (exists e, validate_email e = Some (PersonBase.email person))
  /\ rest_accepted kw s.
Proof.
  intros H. unfold PersonBase_init in H.
  apply ap_inv in H as (g7 & l' & s7 & H & Ha & ->).
  apply ap_inv in H as (g6 & bd & s6 & H & Hbd & ->).
  apply ap_inv in H as (g5 & ph & s5 & H & Hph & ->).
  apply ap_inv in H as (g4 & e' & s4 & H & He & ->).
  apply ap_inv in H as (g3 & ln & s3 & H & Hln & ->).
  apply ap_inv in H as (g2 & fn & s2 & H & Hfn & ->).
  apply ap_inv in H as (g1 & u & s1 & H & Hu & ->).
  injection H as <- <-. simpl.
  apply UNIType_inv in Hu as (Hf1 & Hv & ->).
  apply required_inv in Hfn as (Hf2 & ->).
  apply required_inv in Hln as (Hf3 & ->).
  apply EmailStr_inv in He as (e & Hf4 & He & ->).
  apply optional_inv in Hph as ->. apply optional_inv in Hbd as ->.
  split; [assumption|]. split; [assumption|]. split; [eauto|].
  unfold rest_accepted. rewrite Hf2, Hf3, Hf4.
  split; [eauto|]. split; [eauto|]. split; [exists e; split; congruence|].
  apply addresses_inv in Ha as [(Ha & _) | (l & Ha & Hl)]; [now left|].
  right. exists l. split; [assumption|]. now exists l', s'.
Qed.






(** On ASCII the class [\d] is [0] to [9]. *)
Lemma unicode_Nd_ascii c :
  (c < 128)%N -> (unicode_Nd c = true <-> (48 <= c <= 57)%N).
Proof.
  intros Hc. unfold unicode_Nd, Nd_zeros. cbn [existsb].
  rewrite !orb_true_iff, !andb_true_iff, !N.leb_le, !N.ltb_lt. lia.
Qed.

(** ** Updates *)

Lemma update_fee_details_absent fee_id update s :
  dict_get fee_id (db_fee_details s) = None ->
  update_fee_details fee_id update s
  = (Raises (HTTPException 404 "FeeDetails not found"), s).
Proof.
  intros H. apply dict_mem_false_get in H.
  unfold update_fee_details, bind, contains. simpl. now rewrite H.
Qed.

Lemma update_fee_details_present fee_id update s f :
  dict_get fee_id (db_fee_details s) = Some f ->
  FeeDetailsUpdate.university_name update <> Null ->
  FeeDetailsUpdate.number_of_credits update <> Null ->
  FeeDetailsUpdate.fee_paid update <> Null ->
  let f' :=
    {| FeeDetailsRead.university_name :=
         pick (FeeDetailsRead.university_name f)
           (FeeDetailsUpdate.university_name update);
       FeeDetailsRead.number_of_credits :=
         pick (FeeDetailsRead.number_of_credits f)
              (FeeDetailsUpdate.number_of_credits update);
       FeeDetailsRead.fee_paid :=
         pick (FeeDetailsRead.fee_paid f) (FeeDetailsUpdate.fee_paid update);
       FeeDetailsRead.id := FeeDetailsRead.id f;
       FeeDetailsRead.created_at := FeeDetailsRead.created_at f;
       FeeDetailsRead.updated_at := FeeDetailsRead.updated_at f |} in
  update_fee_details fee_id update s
  = (Returns f', store fee_details (dict_set fee_id f' (db_fee_details s)) s).
Proof.
  intros Hget H1 H2 H3 f'.
  unfold update_fee_details, bind, contains, getitem, setitem. simpl.
  rewrite (dict_get_mem _ _ Hget). simpl. rewrite Hget.
  unfold FeeDetailsRead_init, bind. simpl.
  rewrite !update_key_Val by assumption. simpl.
  now rewrite dict_get_set_same.
Qed.

Lemma update_visa_status_absent visa_id update s :
  dict_get visa_id (db_visa_statuses s) = None ->
  update_visa_status visa_id update s
  = (Raises (HTTPException 404 "VisaStatus not found"), s).
Proof.
  intros H. apply dict_mem_false_get in H.
  unfold update_visa_status, bind, contains. simpl. now rewrite H.
Qed.

Lemma update_address_absent address_id update s :
  dict_get address_id (db_addresses s) = None ->
  update_address address_id update s
  = (Raises (HTTPException 404 "Address not found"), s).
Proof.
  intros H. apply dict_mem_false_get in H.
  unfold update_address, bind, contains. simpl. now rewrite H.
Qed.

Lemma update_person_absent person_id update s :
  dict_get person_id (db_persons s) = None ->
  update_person person_id update s
  = (Raises (HTTPException 404 "Person not found"), s).
Proof.
  intros H. apply dict_mem_false_get in H.
  unfold update_person, bind, contains. simpl. now rewrite H.
Qed.

Lemma update_visa_status_present visa_id update s v :
  dict_get visa_id (db_visa_statuses s) = Some v ->
  VisaStatusUpdate.visa_status update <> Null ->
  let v' :=
    {| VisaStatusRead.visa_status :=
         pick (VisaStatusRead.visa_status v) (VisaStatusUpdate.visa_status update);
       VisaStatusRead.id := VisaStatusRead.id v;
       VisaStatusRead.created_at := VisaStatusRead.created_at v;
       VisaStatusRead.updated_at := VisaStatusRead.updated_at v |} in
  update_visa_status visa_id update s
  = (Returns v',
     store visa_statuses (dict_set visa_id v' (db_visa_statuses s)) s).
Proof.
  intros Hget H1 v'.
  unfold update_visa_status, bind, contains, getitem, setitem. simpl.
  rewrite (dict_get_mem _ _ Hget). simpl. rewrite Hget.
  unfold VisaStatusRead_init, bind. simpl.
  rewrite !update_key_Val by assumption. simpl.
  now rewrite dict_get_set_same.
Qed.

Lemma update_address_present address_id update s a :
  dict_get address_id (db_addresses s) = Some a ->
  AddressUpdate.street update <> Null ->
  AddressUpdate.city update <> Null ->
  AddressUpdate.state update <> Null ->
  AddressUpdate.postal_code update <> Null ->
  AddressUpdate.country update <> Null ->
  let a' :=
    {| AddressRead.id := AddressRead.id a;
       AddressRead.street := pick (AddressRead.street a) (AddressUpdate.street update);
       AddressRead.city := pick (AddressRead.city a) (AddressUpdate.city update);
       AddressRead.state := pick (AddressRead.state a) (AddressUpdate.state update);
       AddressRead.postal_code :=
         pick (AddressRead.postal_code a) (AddressUpdate.postal_code update);
       AddressRead.country := pick (AddressRead.country a) (AddressUpdate.country update);
       AddressRead.created_at := AddressRead.created_at a;
       AddressRead.updated_at := AddressRead.updated_at a |} in
  update_address address_id update s
  = (Returns a', store addresses (dict_set address_id a' (db_addresses s)) s).
Proof.
  intros Hget H1 H2 H3 H4 H5 a'.
  unfold update_address, bind, contains, getitem, setitem. simpl.
  rewrite (dict_get_mem _ _ Hget). simpl. rewrite Hget.
  unfold AddressRead_init, bind. simpl.
  rewrite !update_key_Val by assumption. simpl.
  now rewrite dict_get_set_same.
Qed.

(** Building the embedded addresses back from their full dump gives them
    back and reads nothing from the world. *)
Lemma AddressBase_init_dump a s :
  AddressBase_init (AddressBase.model_dump a) s = (Returns a, s).
Proof. now destruct a. Qed.

Lemma each_AddressBase_init_dump l s :
  each AddressBase_init (map AddressBase.model_dump l) s = (Returns l, s).
Proof.
  induction l as [|a l IH]; [reflexivity|].
  cbn [map each]. unfold ap at 1 2. unfold ret at 1.
  now rewrite AddressBase_init_dump, IH.
Qed.

(** Building them back from the dump without the unset keys gives the same
    addresses, with the next identifiers of the generator where the payload
    gave none. *)
Lemma each_AddressBase_init_regenerated l s :
  each AddressBase_init (map AddressBase.model_dump_exclude_unset l) s
  = (Returns (regenerated (rand (world s)) (drawn (world s)) l),
     set_world (later (generated l) 0 (world s)) s).
Proof.
  revert s. induction l as [|a l IH]; intros s.
  - unfold generated. simpl. now rewrite set_world_same.
  - cbn [map each]. unfold ap at 1 2. unfold ret at 1.
    destruct a as [[i f1 f2 f3 f4 f5] [|]].
    + change (AddressBase_init
                (AddressBase.model_dump_exclude_unset
                   (AddressBase.Parsed (AddressBase.Make i f1 f2 f3 f4 f5) true)) s)
        with (Returns (AddressBase.Make i f1 f2 f3 f4 f5), s).
      cbv beta iota. now rewrite IH.
    + change (AddressBase_init
                (AddressBase.model_dump_exclude_unset
                   (AddressBase.Parsed (AddressBase.Make i f1 f2 f3 f4 f5) false)) s)
        with (Returns
                (AddressBase.Make (rand (world s) (drawn (world s))) f1 f2 f3 f4 f5),
              set_world (later 1 0 (world s)) s).
      cbv beta iota. rewrite IH. unfold generated. cbn [filter negb AddressBase.id_given].
      cbn [List.length regenerated AddressBase.id_given AddressBase.value with_id].
      fold (generated l). rewrite <- (set_world_later (generated l) s).
      reflexivity.
Qed.

Lemma regenerated_same_address rand n l :
  Forall2 same_address l (regenerated rand n l).
Proof.
  revert n. induction l as [|a l IH]; intros n; simpl; [constructor|].
  destruct (AddressBase.id_given a) eqn:E; constructor; auto;
    repeat split; try reflexivity; congruence.
Qed.

Lemma regenerated_ids_given rand n l :
  ids_given l -> regenerated rand n l = map AddressBase.value l /\ generated l = 0.
Proof.
  unfold generated.
  induction 1 as [|a l Ha Hl [IH1 IH2]]; simpl; [auto|].
  rewrite Ha, IH1. simpl. auto.
Qed.

Lemma regenerated_nth rand n l i a :
  nth_error l i = Some a ->
  nth_error (regenerated rand n l) i
  = Some (if AddressBase.id_given a then AddressBase.value a
          else with_id (rand (n + generated (firstn i l))) (AddressBase.value a)).
Proof.
  unfold generated.
  revert n i. induction l as [|b l IH]; intros n i Hi; [now destruct i|].
  destruct i as [|i]; simpl in Hi.
  - injection Hi as ->. simpl. rewrite Nat.add_0_r.
    now destruct (AddressBase.id_given a).
  - simpl. destruct (AddressBase.id_given b); simpl; rewrite (IH _ _ Hi);
      [reflexivity|].
    now rewrite Nat.add_succ_r.
Qed.

Lemma regenerated_length rand n l :
  List.length (regenerated rand n l) = List.length l.
Proof.
  revert n. induction l as [|a l IH]; intros n; simpl; [reflexivity|].
  destruct (AddressBase.id_given a); simpl; now rewrite IH.
Qed.

(** [PersonRead] called with keyword arguments that it accepts, [id],
    [created_at] and [updated_at] among them. *)
Lemma PersonRead_init_returns kw s u fn ln e e' ph bd l l' s1 i c t :
  PersonDict.uni kw = Val u -> validated_uni u ->
  PersonDict.first_name kw = Val fn ->
  PersonDict.last_name kw = Val ln ->
  PersonDict.email kw = Val e -> validate_email e = Some e' ->
  optional (PersonDict.phone kw) = ret ph ->
  optional (PersonDict.birth_date kw) = ret bd ->
  PersonDict.addresses kw = Val l ->
  each AddressBase_init l s = (Returns l', s1) ->
  PersonDict.id kw = Val i ->
  PersonDict.created_at kw = Val c ->
  PersonDict.updated_at kw = Val t ->
  PersonRead_init kw s
  = (Returns (PersonRead.Make u fn ln e' ph bd l' i c t), s1).
Proof.
  destruct kw as [f1 f2 f3 f4 f5 f6 fa fi fc fu]. simpl.
  intros -> Hu -> -> -> He Hph Hbd -> Hl -> -> ->.
  unfold PersonRead_init. cbn [PersonDict.uni PersonDict.first_name
    PersonDict.last_name PersonDict.email PersonDict.phone PersonDict.birth_date
    PersonDict.addresses PersonDict.id PersonDict.created_at PersonDict.updated_at].
  rewrite Hph, Hbd.
  repeat (eapply ap_returns); try reflexivity.
  - unfold bind, required, ret, UNIType. now rewrite Hu.
  - unfold bind, required, ret, EmailStr. now rewrite He.
  - unfold bind, default_factory, ret. exact Hl.
Qed.

(** [PersonRead] called with keyword arguments that it accepts, [id],
    [created_at] and [updated_at] not among them: the identifier is the
    next of the generator, drawn after those of the embedded addresses, and
    the timestamps are the next two readings of the clock. *)
Lemma PersonRead_init_new kw s u fn ln e e' ph bd l l' s1 :
  PersonDict.uni kw = Val u -> validated_uni u ->
  PersonDict.first_name kw = Val fn ->
  PersonDict.last_name kw = Val ln ->
  PersonDict.email kw = Val e -> validate_email e = Some e' ->
  optional (PersonDict.phone kw) = ret ph ->
  optional (PersonDict.birth_date kw) = ret bd ->
  PersonDict.addresses kw = Val l ->
  each AddressBase_init l s = (Returns l', s1) ->
  PersonDict.id kw = Unset ->
  PersonDict.created_at kw = Unset ->
  PersonDict.updated_at kw = Unset ->
  let w := world s1 in
  PersonRead_init kw s
  = (Returns (PersonRead.Make u fn ln e' ph bd l' (rand w (drawn w))
                (clock w (ticks w)) (clock w (S (ticks w)))),
     set_world (later 1 2 w) s1).
Proof.
  destruct kw as [f1 f2 f3 f4 f5 f6 fa fi fc fu]. simpl.
  intros -> Hu -> -> -> He Hph Hbd -> Hl -> -> ->.
  unfold PersonRead_init. cbn [PersonDict.uni PersonDict.first_name
    PersonDict.last_name PersonDict.email PersonDict.phone PersonDict.birth_date
    PersonDict.addresses PersonDict.id PersonDict.created_at PersonDict.updated_at].
  rewrite Hph, Hbd.
  repeat (eapply ap_returns); try reflexivity.
  - unfold bind, required, ret, UNIType. now rewrite Hu.
  - unfold bind, required, ret, EmailStr. now rewrite He.
  - unfold bind, default_factory, ret. exact Hl.
Qed.

(** The update of a stored person with a payload that the Read class
    accepts: the record stored and returned. *)
Lemma update_person_present person_id update s p :
  dict_get person_id (db_persons s) = Some p ->
  validated_uni (PersonRead.uni p) -> validated_email (PersonRead.email p) ->
  (forall u, PersonUpdate.uni update = Val u -> validated_uni u) ->
  (forall e, PersonUpdate.email update = Val e -> validated_email e) ->
  PersonUpdate.uni update <> Null ->
  PersonUpdate.first_name update <> Null ->
  PersonUpdate.last_name update <> Null ->
  PersonUpdate.email update <> Null ->
  PersonUpdate.addresses update <> Null ->
  let w := world s in
  let p' :=
    {| PersonRead.uni := pick (PersonRead.uni p) (PersonUpdate.uni update);
       PersonRead.first_name :=
         pick (PersonRead.first_name p) (PersonUpdate.first_name update);
       PersonRead.last_name :=
         pick (PersonRead.last_name p) (PersonUpdate.last_name update);
       PersonRead.email := pick (PersonRead.email p) (PersonUpdate.email update);
       PersonRead.phone :=
         pick_optional (PersonRead.phone p) (PersonUpdate.phone update);
       PersonRead.birth_date :=
         pick_optional (PersonRead.birth_date p) (PersonUpdate.birth_date update);
       PersonRead.addresses :=
         addresses_after w (PersonRead.addresses p) (PersonUpdate.addresses update);
       PersonRead.id := PersonRead.id p;
       PersonRead.created_at := PersonRead.created_at p;
       PersonRead.updated_at := PersonRead.updated_at p |} in
  update_person person_id update s
  = (Returns p',
     store persons (dict_set person_id p' (db_persons s))
       (set_world (later (ids_generated (PersonUpdate.addresses update)) 0 w) s)).
Proof.
  intros Hget Hu He HUu HUe N1 N2 N3 N4 N5 w p'.
  assert (Huni : validated_uni (pick (PersonRead.uni p) (PersonUpdate.uni update))).
  { destruct (PersonUpdate.uni update) eqn:E; simpl; auto. }
  assert (Hemail : validate_email
                     (pick (PersonRead.email p) (PersonUpdate.email update))
                   = Some (pick (PersonRead.email p) (PersonUpdate.email update))).
  { destruct (PersonUpdate.email update) eqn:E; simpl; auto. now apply HUe. }
  assert (Hadr : exists l,
    update_key (Val (map AddressBase.model_dump (PersonRead.addresses p)))
      (PersonUpdate.dump_addresses (PersonUpdate.addresses update)) = Val l
    /\ each AddressBase_init l s
       = (Returns (addresses_after w (PersonRead.addresses p)
                     (PersonUpdate.addresses update)),
          set_world (later (ids_generated (PersonUpdate.addresses update)) 0 w) s)).
  { subst w. destruct (PersonUpdate.addresses update) as [| |l];
      cbn [PersonUpdate.dump_addresses update_key addresses_after ids_generated];
      try congruence.
    - eexists. split; [reflexivity|].
      now rewrite each_AddressBase_init_dump, set_world_same.
    - eexists. split; [reflexivity|]. apply each_AddressBase_init_regenerated. }
  destruct Hadr as (l & Hl & Hadr).
  unfold update_person, bind, contains, getitem, setitem.
  cbn [load persons]. rewrite (dict_get_mem _ _ Hget). cbn [negb].
  rewrite Hget.
  erewrite PersonRead_init_returns;
    [ | cbn [PersonDict.update PersonRead.model_dump
             PersonUpdate.model_dump_exclude_unset
             PersonDict.uni PersonDict.first_name PersonDict.last_name
             PersonDict.email PersonDict.phone PersonDict.birth_date
             PersonDict.addresses PersonDict.id PersonDict.created_at
             PersonDict.updated_at];
        first [ apply update_key_Val; assumption
              | apply optional_update_key
              | eassumption
              | reflexivity ] .. ].
  cbn [load store persons db_persons set_world].
  now rewrite dict_get_set_same.
Qed.

(** Called with [id], [created_at] and [updated_at] among the keyword
    arguments, a Read class reads neither the clock nor the generator for
    them: it raises, or returns a record with these three values. *)

Ltac raises_here := solve [left; eexists; reflexivity].

Lemma FeeDetailsRead_init_stored kw i c u s :
  FeeDetailsDict.id kw = Val i ->
  FeeDetailsDict.created_at kw = Val c ->
  FeeDetailsDict.updated_at kw = Val u ->
  (exists e, FeeDetailsRead_init kw s = (Raises e, s)) \/
  (exists f, FeeDetailsRead_init kw s = (Returns f, s) /\
     FeeDetailsRead.id f = i /\ FeeDetailsRead.created_at f = c /\
     FeeDetailsRead.updated_at f = u).
Proof.
  destruct kw as [f1 f2 f3 fi fc fu]. simpl. intros -> -> ->.
  destruct f1, f2, f3; try raises_here.
  right. eexists. split; [reflexivity|]. simpl. auto.
Qed.

Lemma VisaStatusRead_init_stored kw i c u s :
  VisaStatusDict.id kw = Val i ->
  VisaStatusDict.created_at kw = Val c ->
  VisaStatusDict.updated_at kw = Val u ->
  (exists e, VisaStatusRead_init kw s = (Raises e, s)) \/
  (exists v, VisaStatusRead_init kw s = (Returns v, s) /\
     VisaStatusRead.id v = i /\ VisaStatusRead.created_at v = c /\
     VisaStatusRead.updated_at v = u).
Proof.
  destruct kw as [f1 fi fc fu]. simpl. intros -> -> ->.
  destruct f1; try raises_here.
  right. eexists. split; [reflexivity|]. simpl. auto.
Qed.

Lemma AddressRead_init_stored kw i c u s :
  AddressDict.id kw = Val i ->
  AddressDict.created_at kw = Val c ->
  AddressDict.updated_at kw = Val u ->
  (exists e, AddressRead_init kw s = (Raises e, s)) \/
  (exists a, AddressRead_init kw s = (Returns a, s) /\
     AddressRead.id a = i /\ AddressRead.created_at a = c /\
     AddressRead.updated_at a = u).
Proof.
  destruct kw as [fi f1 f2 f3 f4 f5 fc fu]. simpl. intros -> -> ->.
  destruct f1, f2, f3, f4, f5; try raises_here.
  right. eexists. split; [reflexivity|]. simpl. auto.
Qed.

(** [PersonRead] may take identifiers for the embedded addresses from the
    generator, also when it raises. *)
Lemma PersonRead_init_stored kw i c u s p s' :
  PersonDict.id kw = Val i ->
  PersonDict.created_at kw = Val c ->
  PersonDict.updated_at kw = Val u ->
  PersonRead_init kw s = (Returns p, s') ->
  PersonRead.id p = i /\ PersonRead.created_at p = c /\
  PersonRead.updated_at p = u.
Proof.
  destruct kw as [f1 f2 f3 f4 f5 f6 fa fi fc fu]. simpl. intros -> -> -> H.
  unfold PersonRead_init in H.
  apply ap_inv in H as (g10 & t' & s10 & H & Ht & ->).
  apply ap_inv in H as (g9 & c' & s9 & H & Hc & ->).
  apply ap_inv in H as (g8 & i' & s8 & H & Hi & ->).
  apply ap_inv in H as (g7 & l' & s7 & H & _ & ->).
  apply ap_inv in H as (g6 & bd & s6 & H & _ & ->).
  apply ap_inv in H as (g5 & ph & s5 & H & _ & ->).
  apply ap_inv in H as (g4 & e' & s4 & H & _ & ->).
  apply ap_inv in H as (g3 & ln & s3 & H & _ & ->).
  apply ap_inv in H as (g2 & fn & s2 & H & _ & ->).
  apply ap_inv in H as (g1 & u' & s1 & H & _ & ->).
  injection H as <- _. injection Ht as <- _. injection Hc as <- _.
  injection Hi as <- _. simpl. auto.
Qed.

(** What [PersonRead] accepts has a [uni] of the pattern and an email that
    the validator returned; every stored person is such a record. *)
Lemma PersonRead_init_validated kw s p s' :
  PersonRead_init kw s = (Returns p, s') ->
  validated_uni (PersonRead.uni p)
  /\ exists e, validate_email e = Some (PersonRead.email p).
Proof.
  intros H. unfold PersonRead_init in H.
  apply ap_inv in H as (g10 & t' & s10 & H & _ & ->).
  apply ap_inv in H as (g9 & c' & s9 & H & _ & ->).
  apply ap_inv in H as (g8 & i' & s8 & H & _ & ->).
  apply ap_inv in H as (g7 & l' & s7 & H & _ & ->).
  apply ap_inv in H as (g6 & bd & s6 & H & _ & ->).
  apply ap_inv in H as (g5 & ph & s5 & H & _ & ->).
  apply ap_inv in H as (g4 & e' & s4 & H & He & ->).
  apply ap_inv in H as (g3 & ln & s3 & H & _ & ->).
  apply ap_inv in H as (g2 & fn & s2 & H & _ & ->).
  apply ap_inv in H as (g1 & u' & s1 & H & Hu & ->).
  injection H as <- _. simpl.
  apply UNIType_inv in Hu as (_ & Hu & _).
  apply EmailStr_inv in He as (e & _ & He & _). eauto.
Qed.

(** An update raises and changes nothing in the dictionaries, or returns
    what it has stored under the same key, with the stored [id],
    [created_at] and [updated_at]. *)

Lemma update_fee_details_cases fee_id update s :
  (exists e, update_fee_details fee_id update s = (Raises e, s)) \/
  (exists f f',
     dict_get fee_id (db_fee_details s) = Some f /\
     update_fee_details fee_id update s
     = (Returns f', store fee_details (dict_set fee_id f' (db_fee_details s)) s) /\
     FeeDetailsRead.id f' = FeeDetailsRead.id f /\
     FeeDetailsRead.created_at f' = FeeDetailsRead.created_at f /\
     FeeDetailsRead.updated_at f' = FeeDetailsRead.updated_at f).
Proof.
  destruct (dict_get fee_id (db_fee_details s)) as [f|] eqn:Hget.
  - unfold update_fee_details, bind, contains, getitem, setitem. simpl.
    rewrite (dict_get_mem _ _ Hget). simpl. rewrite Hget.
    edestruct (FeeDetailsRead_init_stored
      (FeeDetailsDict.update (FeeDetailsRead.model_dump f)
         (FeeDetailsUpdate.model_dump_exclude_unset update)))
      as [[e ->] | (f' & -> & Hi & Hc & Hu)]; try reflexivity.
    + left. eauto.
    + right. exists f, f'. rewrite dict_get_set_same. auto.
  - left. eexists. now apply update_fee_details_absent.
Qed.

Lemma update_visa_status_cases visa_id update s :
  (exists e, update_visa_status visa_id update s = (Raises e, s)) \/
  (exists v v',
     dict_get visa_id (db_visa_statuses s) = Some v /\
     update_visa_status visa_id update s
     = (Returns v',
        store visa_statuses (dict_set visa_id v' (db_visa_statuses s)) s) /\
     VisaStatusRead.id v' = VisaStatusRead.id v /\
     VisaStatusRead.created_at v' = VisaStatusRead.created_at v /\
     VisaStatusRead.updated_at v' = VisaStatusRead.updated_at v).
Proof.
  destruct (dict_get visa_id (db_visa_statuses s)) as [v|] eqn:Hget.
  - unfold update_visa_status, bind, contains, getitem, setitem. simpl.
    rewrite (dict_get_mem _ _ Hget). simpl. rewrite Hget.
    edestruct (VisaStatusRead_init_stored
      (VisaStatusDict.update (VisaStatusRead.model_dump v)
         (VisaStatusUpdate.model_dump_exclude_unset update)))
      as [[e ->] | (v' & -> & Hi & Hc & Hu)]; try reflexivity.
    + left. eauto.
    + right. exists v, v'. rewrite dict_get_set_same. auto.
  - left. eexists. now apply update_visa_status_absent.
Qed.

Lemma update_address_cases address_id update s :
  (exists e, update_address address_id update s = (Raises e, s)) \/
  (exists a a',
     dict_get address_id (db_addresses s) = Some a /\
     update_address address_id update s
     = (Returns a', store addresses (dict_set address_id a' (db_addresses s)) s) /\
     AddressRead.id a' = AddressRead.id a /\
     AddressRead.created_at a' = AddressRead.created_at a /\
     AddressRead.updated_at a' = AddressRead.updated_at a).
Proof.
  destruct (dict_get address_id (db_addresses s)) as [a|] eqn:Hget.
  - unfold update_address, bind, contains, getitem, setitem. simpl.
    rewrite (dict_get_mem _ _ Hget). simpl. rewrite Hget.
    edestruct (AddressRead_init_stored
      (AddressDict.update (AddressRead.model_dump a)
         (AddressUpdate.model_dump_exclude_unset update)))
      as [[e ->] | (a' & -> & Hi & Hc & Hu)]; try reflexivity.
    + left. eauto.
    + right. exists a, a'. rewrite dict_get_set_same. auto.
  - left. eexists. now apply update_address_absent.
Qed.

Lemma update_person_cases person_id update s :
  (exists e s1,
     update_person person_id update s = (Raises e, s1) /\ dicts s1 = dicts s) \/
  (exists p p' s1,
     dict_get person_id (db_persons s) = Some p /\
     dicts s1 = dicts s /\
     update_person person_id update s
     = (Returns p', store persons (dict_set person_id p' (db_persons s1)) s1) /\
     PersonRead.id p' = PersonRead.id p /\
     PersonRead.created_at p' = PersonRead.created_at p /\
     PersonRead.updated_at p' = PersonRead.updated_at p).
Proof.
  destruct (dict_get person_id (db_persons s)) as [p|] eqn:Hget.
  - unfold update_person, bind, contains, getitem, setitem. simpl.
    rewrite (dict_get_mem _ _ Hget). simpl. rewrite Hget.
    pose proof (reads_only_PersonRead_init
      (PersonDict.update (PersonRead.model_dump p)
         (PersonUpdate.model_dump_exclude_unset update)) s) as Hd.
    destruct (PersonRead_init
      (PersonDict.update (PersonRead.model_dump p)
         (PersonUpdate.model_dump_exclude_unset update)) s)
      as [[p'|e] s1] eqn:E; simpl in Hd.
    + right. exists p, p', s1. simpl. rewrite dict_get_set_same.
      eapply PersonRead_init_stored in E; [|reflexivity..].
      repeat split; auto; apply E.
    + left. eauto.
  - left. do 2 eexists. split; [now apply update_person_absent | reflexivity].
Qed.

(** ** Reads *)

Lemma get_address_eq address_id s :
  get_address address_id s =
  match dict_get address_id (db_addresses s) with
  | Some a => (Returns a, s)
  | None => (Raises (HTTPException 404 "Address not found"), s)
  end.
Proof.
  unfold get_address, bind, contains, getitem. simpl.
  destruct (dict_get address_id (db_addresses s)) eqn:E.
  - rewrite (dict_get_mem _ _ E). simpl. now rewrite E.
  - apply dict_mem_false_get in E. now rewrite E.
Qed.

Lemma get_person_eq person_id s :
  get_person person_id s =
  match dict_get person_id (db_persons s) with
  | Some p => (Returns p, s)
  | None => (Raises (HTTPException 404 "Person not found"), s)
  end.
Proof.
  unfold get_person, bind, contains, getitem. simpl.
  destruct (dict_get person_id (db_persons s)) eqn:E.
  - rewrite (dict_get_mem _ _ E). simpl. now rewrite E.
  - apply dict_mem_false_get in E. now rewrite E.
Qed.

Lemma get_fee_details_eq fee_id s :
  get_fee_details fee_id s =
  match dict_get fee_id (db_fee_details s) with
  | Some f => (Returns f, s)
  | None => (Raises (HTTPException 404 "FeeDetails not found"), s)
  end.
Proof.
  unfold get_fee_details, bind, contains, getitem. simpl.
  destruct (dict_get fee_id (db_fee_details s)) eqn:E.
  - rewrite (dict_get_mem _ _ E). simpl. now rewrite E.
  - apply dict_mem_false_get in E. now rewrite E.
Qed.

Lemma get_visa_status_eq visa_id s :
  get_visa_status visa_id s =
  match dict_get visa_id (db_visa_statuses s) with
  | Some v => (Returns v, s)
  | None => (Raises (HTTPException 404 "VisaStatus not found"), s)
  end.
Proof.
  unfold get_visa_status, bind, contains, getitem. simpl.
  destruct (dict_get visa_id (db_visa_statuses s)) eqn:E.
  - rewrite (dict_get_mem _ _ E). simpl. now rewrite E.
  - apply dict_mem_false_get in E. now rewrite E.
Qed.

(** ** Lists *)

Lemma narrow_filter {V T} (value : option T) (test : V -> T -> bool) l :
  narrow value test l = filter (holds value test) l.
Proof.
  destruct value; simpl; [reflexivity|].
  induction l; simpl; congruence.
Qed.

Lemma filter_filter {V} (p q : V -> bool) l :
  filter q (filter p l) = filter (fun v => p v && q v) l.
Proof.
  induction l as [|v l IH]; simpl; [reflexivity|].
  destruct (p v); simpl; [destruct (q v)|]; now rewrite IH.
Qed.

Lemma list_addresses_eq street city state postal_code country s :
  list_addresses street city state postal_code country s =
  (Returns
     (filter
        (fun a =>
           holds street (fun a x => str_eqb (AddressRead.street a) x) a
           && holds city (fun a x => str_eqb (AddressRead.city a) x) a
           && holds state (fun a x => str_eqb (AddressRead.state a) x) a
           && holds postal_code (fun a x => str_eqb (AddressRead.postal_code a) x) a
           && holds country (fun a x => str_eqb (AddressRead.country a) x) a)
        (dict_values (db_addresses s))),
   s).
Proof.
  unfold list_addresses, bind, values, ret. simpl.
  rewrite !narrow_filter, !filter_filter. do 2 f_equal.
  apply filter_ext. intros x. now rewrite !andb_assoc.
Qed.

Lemma list_persons_eq uni first_name last_name email phone birth_date city country s :
  list_persons uni first_name last_name email phone birth_date city country s =
  (Returns
     (filter
        (fun p =>
           holds uni (fun p x => str_eqb (PersonRead.uni p) x) p
           && holds first_name (fun p x => str_eqb (PersonRead.first_name p) x) p
           && holds last_name (fun p x => str_eqb (PersonRead.last_name p) x) p
           && holds email (fun p x => str_eqb (PersonRead.email p) x) p
           && holds phone (fun p x => optional_str_eqb (PersonRead.phone p) x) p
           && holds birth_date
                (fun p x => str_eqb (str_of_birth_date (PersonRead.birth_date p)) x) p
           && holds city
                (fun p x => existsb (fun addr => str_eqb (AddressBase.city addr) x)
                              (PersonRead.addresses p)) p
           && holds country
                (fun p x => existsb (fun addr => str_eqb (AddressBase.country addr) x)
                              (PersonRead.addresses p)) p)
        (dict_values (db_persons s))),
   s).
Proof.
  unfold list_persons, bind, values, ret. simpl.
  rewrite !narrow_filter, !filter_filter. do 2 f_equal.
  apply filter_ext. intros x. now rewrite !andb_assoc.
Qed.

Lemma list_fee_details_eq university_name fee_paid s :
  list_fee_details university_name fee_paid s =
  (Returns
     (filter
        (fun f =>
           holds university_name
             (fun f x => str_eqb (FeeDetailsRead.university_name f) x) f
           && holds fee_paid (fun f x => Bool.eqb (FeeDetailsRead.fee_paid f) x) f)
        (dict_values (db_fee_details s))),
   s).
Proof.
  unfold list_fee_details, bind, values, ret. simpl.
  now rewrite !narrow_filter, !filter_filter.
Qed.

Lemma list_visa_statuses_eq visa_status s :
  list_visa_statuses visa_status s =
  (Returns
     (filter
        (holds visa_status (fun v x => str_eqb (VisaStatusRead.visa_status v) x))
        (dict_values (db_visa_statuses s))),
   s).
Proof.
  unfold list_visa_statuses, bind, values, ret. simpl.
  now rewrite !narrow_filter.
Qed.

(** ** Creates *)

Lemma create_fee_details_eq fee s :
  let w := world s in
  let fee_read :=
    {| FeeDetailsRead.university_name := FeeDetailsCreate.university_name fee;
       FeeDetailsRead.number_of_credits := FeeDetailsCreate.number_of_credits fee;
       FeeDetailsRead.fee_paid := FeeDetailsCreate.fee_paid fee;
       FeeDetailsRead.id := rand w (drawn w);
       FeeDetailsRead.created_at := clock w (ticks w);
       FeeDetailsRead.updated_at := clock w (S (ticks w)) |} in
  create_fee_details fee s =
  (Returns fee_read,
   store fee_details (dict_set (rand w (drawn w)) fee_read (db_fee_details s))
     (set_world (later 1 2 w) s)).
Proof. reflexivity. Qed.

Lemma create_visa_status_eq visa s :
  let w := world s in
  let visa_read :=
    {| VisaStatusRead.visa_status := VisaStatusCreate.visa_status visa;
       VisaStatusRead.id := rand w (drawn w);
       VisaStatusRead.created_at := clock w (ticks w);
       VisaStatusRead.updated_at := clock w (S (ticks w)) |} in
  create_visa_status visa s =
  (Returns visa_read,
   store visa_statuses (dict_set (rand w (drawn w)) visa_read (db_visa_statuses s))
     (set_world (later 1 2 w) s)).
Proof. reflexivity. Qed.

Lemma create_address_eq address s :
  let w := world s in
  let a :=
    {| AddressRead.id := AddressCreate.id address;
       AddressRead.street := AddressCreate.street address;
       AddressRead.city := AddressCreate.city address;
       AddressRead.state := AddressCreate.state address;
       AddressRead.postal_code := AddressCreate.postal_code address;
       AddressRead.country := AddressCreate.country address;
       AddressRead.created_at := clock w (ticks w);
       AddressRead.updated_at := clock w (S (ticks w)) |} in
  create_address address s =
  if dict_mem (AddressCreate.id address) (db_addresses s) then
    (Raises (HTTPException 400 "Address with this ID already exists"), s)
  else
    (Returns a,
     store addresses (dict_set (AddressCreate.id address) a (db_addresses s))
       (set_world (later 0 2 w) s)).
Proof.
  intros w a. unfold create_address, bind, contains. simpl.
  destruct (dict_mem (AddressCreate.id address) (db_addresses s)); [reflexivity|].
  unfold getitem, setitem. simpl. now rewrite dict_get_set_same.
Qed.

Lemma create_person_eq person s :
  validated_uni (PersonCreate.uni person) ->
  validated_email (PersonCreate.email person) ->
  let w := world s in
  let person_read :=
    {| PersonRead.uni := PersonCreate.uni person;
       PersonRead.first_name := PersonCreate.first_name person;
       PersonRead.last_name := PersonCreate.last_name person;
       PersonRead.email := PersonCreate.email person;
       PersonRead.phone := PersonCreate.phone person;
       PersonRead.birth_date := PersonCreate.birth_date person;
       PersonRead.addresses := PersonCreate.addresses person;
       PersonRead.id := rand w (drawn w);
       PersonRead.created_at := clock w (ticks w);
       PersonRead.updated_at := clock w (S (ticks w)) |} in
  create_person person s =
  (Returns person_read,
   store persons (dict_set (rand w (drawn w)) person_read (db_persons s))
     (set_world (later 1 2 w) s)).
Proof.
  intros Hu He w person_read.
  unfold create_person, bind.
  erewrite PersonRead_init_new;
    [ | reflexivity | exact Hu | reflexivity | reflexivity | reflexivity
      | exact He | apply optional_ret | apply optional_ret | reflexivity
      | apply each_AddressBase_init_dump | reflexivity.. ].
  subst person_read w. cbn.
  destruct (PersonCreate.phone person), (PersonCreate.birth_date person);
    reflexivity.
Qed.

Lemma create_person_cases person s :
  (exists e s1, create_person person s = (Raises e, s1) /\ dicts s1 = dicts s) \/
  (exists p s1,
     dicts s1 = dicts s /\
     create_person person s
     = (Returns p, store persons (dict_set (PersonRead.id p) p (db_persons s1)) s1)).
Proof.
  unfold create_person, bind.
  pose proof (reads_only_PersonRead_init (PersonCreate.model_dump person) s) as Hd.
  destruct (PersonRead_init (PersonCreate.model_dump person) s) as [[p|e] s1];
    simpl in Hd.
  - right. exists p, s1. split; [assumption | reflexivity].
  - left. exists e, s1. split; [reflexivity | assumption].
Qed.

(** ** Key and record agree *)

Lemma dict_get_In {V} k (d : Dict V) v : dict_get k d = Some v -> In (k, v) d.
Proof.
  induction d as [|[k' v'] d IH]; simpl; [discriminate|].
  destruct (N.eqb_spec k k') as [->|Hne].
  - intros [= ->]. now left.
  - intros H. right. auto.
Qed.

Lemma In_dict_set {V} k v (d : Dict V) k' v' :
  In (k', v') (dict_set k v d) -> (k', v') = (k, v) \/ In (k', v') d.
Proof.
  induction d as [|[k0 v0] d IH]; simpl.
  - intros [H|[]]. left. congruence.
  - destruct (N.eqb_spec k k0) as [->|Hne]; simpl.
    + intros [H|H]; [left; congruence | right; right; assumption].
    + intros [H|H]; [right; left; assumption|].
      destruct (IH H); [left | right; right]; assumption.
Qed.

Lemma keyed_by_id_set {V} (id_of : V -> UUID) d k v :
  keyed_by_id id_of d -> id_of v = k -> keyed_by_id id_of (dict_set k v d).
Proof.
  intros Hd Hv k' v' Hin. apply In_dict_set in Hin as [[= -> ->] | Hin]; auto.
Qed.

Lemma key_record_agreement_dicts s s' :
  dicts s' = dicts s -> key_record_agreement s -> key_record_agreement s'.
Proof.
  unfold dicts, key_record_agreement. intros [= -> -> -> ->]. auto.
Qed.

(** Splits a request into the validation of its body and its handler. *)
Ltac validated H init :=
  unfold handle, AddressCreate_init, PersonCreate_init, bind; fold (@bind);
  pose proof init as H;
  match type of H with
  | dicts (snd (?m ?s)) = _ =>
      let o := fresh "o" in
      let s1 := fresh "s1" in
      destruct (m s) as [[o|o] s1]; simpl in H; cbv beta iota zeta
  end.

Lemma handle_key_record_agreement r s :
  key_record_agreement s -> key_record_agreement (snd (handle r s)).
Proof.
  intros Inv. destruct r.
  - (* POST /addresses *)
    validated H (reads_only_AddressBase_init body s);
      [|exact (key_record_agreement_dicts H Inv)].
    apply (key_record_agreement_dicts H) in Inv.
    unfold bind. rewrite create_address_eq.
    destruct (dict_mem (AddressCreate.id o) (db_addresses s1)); simpl; [assumption|].
    destruct Inv as (I1 & I2 & I3 & I4). repeat split; simpl; auto.
    now apply keyed_by_id_set.
  - unfold handle, bind. now rewrite list_addresses_eq.
  - unfold handle, bind. rewrite get_address_eq.
    now destruct (dict_get address_id (db_addresses s)).
  - (* PATCH /addresses/{address_id} *)
    validated H (reads_only_AddressUpdate_init body s);
      [|exact (key_record_agreement_dicts H Inv)].
    apply (key_record_agreement_dicts H) in Inv.
    unfold bind.
    destruct (update_address_cases address_id o s1)
      as [[e ->] | (a & a' & Hget & -> & Hi & _)]; simpl; [assumption|].
    destruct Inv as (I1 & I2 & I3 & I4). repeat split; simpl; auto.
    apply keyed_by_id_set; [assumption|].
    rewrite Hi. apply I2. now apply dict_get_In.
  - (* POST /persons *)
    validated H (reads_only_PersonBase_init body s);
      [|exact (key_record_agreement_dicts H Inv)].
    apply (key_record_agreement_dicts H) in Inv.
    unfold bind.
    destruct (create_person_cases o s1)
      as [(e & s2 & -> & Hd) | (p & s2 & Hd & ->)]; simpl;
      [exact (key_record_agreement_dicts Hd Inv)|].
    apply (key_record_agreement_dicts Hd) in Inv.
    destruct Inv as (I1 & I2 & I3 & I4). repeat split; simpl; auto.
    now apply keyed_by_id_set.
  - unfold handle, bind. now rewrite list_persons_eq.
  - unfold handle, bind. rewrite get_person_eq.
    now destruct (dict_get person_id (db_persons s)).
  - (* PATCH /persons/{person_id} *)
    validated H (reads_only_PersonUpdate_init body s);
      [|exact (key_record_agreement_dicts H Inv)].
    apply (key_record_agreement_dicts H) in Inv.
    unfold bind.
    destruct (update_person_cases person_id o s1)
      as [(e & s2 & -> & Hd) | (p & p' & s2 & Hget & Hd & -> & Hi & _)]; simpl;
      [exact (key_record_agreement_dicts Hd Inv)|].
    destruct Inv as (I1 & I2 & I3 & I4). injection Hd as -> -> -> ->.
    repeat split; simpl; auto.
    apply keyed_by_id_set; [assumption|].
    rewrite Hi. apply I1. now apply dict_get_In.
  - (* POST /fee_details *)
    validated H (reads_only_FeeDetailsCreate_init body s);
      [|exact (key_record_agreement_dicts H Inv)].
    apply (key_record_agreement_dicts H) in Inv.
    unfold bind. rewrite create_fee_details_eq. simpl.
    destruct Inv as (I1 & I2 & I3 & I4). repeat split; simpl; auto.
    now apply keyed_by_id_set.
  - unfold handle, bind. now rewrite list_fee_details_eq.
  - unfold handle, bind. rewrite get_fee_details_eq.
    now destruct (dict_get fee_id (db_fee_details s)).
  - (* PATCH /fee_details/{fee_id} *)
    validated H (reads_only_FeeDetailsUpdate_init body s);
      [|exact (key_record_agreement_dicts H Inv)].
    apply (key_record_agreement_dicts H) in Inv.
    unfold bind.
    destruct (update_fee_details_cases fee_id o s1)
      as [[e ->] | (f & f' & Hget & -> & Hi & _)]; simpl; [assumption|].
    destruct Inv as (I1 & I2 & I3 & I4). repeat split; simpl; auto.
    apply keyed_by_id_set; [assumption|].
    rewrite Hi. apply I3. now apply dict_get_In.
  - (* POST /visa_status *)
    validated H (reads_only_VisaStatusCreate_init body s);
      [|exact (key_record_agreement_dicts H Inv)].
    apply (key_record_agreement_dicts H) in Inv.
    unfold bind. rewrite create_visa_status_eq. simpl.
    destruct Inv as (I1 & I2 & I3 & I4). repeat split; simpl; auto.
    now apply keyed_by_id_set.
  - unfold handle, bind. now rewrite list_visa_statuses_eq.
  - unfold handle, bind. rewrite get_visa_status_eq.
    now destruct (dict_get visa_id (db_visa_statuses s)).
  - (* PATCH /visa_status/{visa_id} *)
    validated H (reads_only_VisaStatusUpdate_init body s);
      [|exact (key_record_agreement_dicts H Inv)].
    apply (key_record_agreement_dicts H) in Inv.
    unfold bind.
    destruct (update_visa_status_cases visa_id o s1)
      as [[e ->] | (v & v' & Hget & -> & Hi & _)]; simpl; [assumption|].
    destruct Inv as (I1 & I2 & I3 & I4). repeat split; simpl; auto.
    apply keyed_by_id_set; [assumption|].
    rewrite Hi. apply I4. now apply dict_get_In.
Qed.

(** ** The order of the keys *)

Lemma dict_set_keys_grow {V} k v (d : Dict V) :
  grows (dict_keys d) (dict_keys (dict_set k v d)).
Proof.
  destruct (dict_mem k d) eqn:E.
  - exists []. rewrite dict_set_keys_old by assumption. now rewrite app_nil_r.
  - exists [k]. rewrite dict_set_new by assumption.
    unfold dict_keys. now rewrite map_app.
Qed.

Lemma grows_refl {A} (l : list A) : grows l l.
Proof. exists []. now rewrite app_nil_r. Qed.

Lemma key_order_grows_dicts s s' : dicts s' = dicts s -> key_order_grows s s'.
Proof.
  unfold dicts, key_order_grows. intros [= -> -> -> ->].
  repeat split; apply grows_refl.
Qed.

Lemma key_order_dicts s s' : dicts s' = dicts s -> key_order s' = key_order s.
Proof. unfold dicts, key_order. now intros [= -> -> -> ->]. Qed.

Lemma handle_key_order r s :
  key_order_grows s (snd (handle r s)) /\
  (is_create r = false -> key_order (snd (handle r s)) = key_order s).
Proof.
  destruct r; simpl is_create.
  - (* POST /addresses *)
    split; [|discriminate].
    validated H (reads_only_AddressBase_init body s);
      [|exact (key_order_grows_dicts H)].
    unfold bind. rewrite create_address_eq.
    destruct (dict_mem (AddressCreate.id o) (db_addresses s1)); simpl;
      [exact (key_order_grows_dicts H)|].
    injection H as -> -> -> ->.
    repeat split; simpl; auto using grows_refl, dict_set_keys_grow.
  - unfold handle, bind. rewrite list_addresses_eq. simpl.
    split; auto using key_order_grows_dicts.
  - unfold handle, bind. rewrite get_address_eq.
    destruct (dict_get address_id (db_addresses s)); simpl;
      split; auto using key_order_grows_dicts.
  - (* PATCH /addresses/{address_id} *)
    validated H (reads_only_AddressUpdate_init body s);
      [|split; auto using key_order_grows_dicts, key_order_dicts].
    unfold bind.
    destruct (update_address_cases address_id o s1)
      as [[e ->] | (a & a' & Hget & -> & _)]; simpl;
      [split; auto using key_order_grows_dicts, key_order_dicts|].
    apply dict_get_mem in Hget. injection H as H1 H2 H3 H4.
    unfold key_order_grows, key_order. simpl.
    rewrite dict_set_keys_old by exact Hget. rewrite H1, H2, H3, H4.
    repeat split; auto using grows_refl.
  - (* POST /persons *)
    split; [|discriminate].
    validated H (reads_only_PersonBase_init body s);
      [|exact (key_order_grows_dicts H)].
    unfold bind.
    destruct (create_person_cases o s1)
      as [(e & s2 & -> & Hd) | (p & s2 & Hd & ->)]; simpl;
      [apply key_order_grows_dicts; congruence|].
    injection H as H1 H2 H3 H4. injection Hd as D1 D2 D3 D4.
    unfold key_order_grows. simpl. rewrite D1, D2, D3, D4, H1, H2, H3, H4.
    repeat split; auto using grows_refl, dict_set_keys_grow.
  - unfold handle, bind. rewrite list_persons_eq. simpl.
    split; auto using key_order_grows_dicts.
  - unfold handle, bind. rewrite get_person_eq.
    destruct (dict_get person_id (db_persons s)); simpl;
      split; auto using key_order_grows_dicts.
  - (* PATCH /persons/{person_id} *)
    validated H (reads_only_PersonUpdate_init body s);
      [|split; auto using key_order_grows_dicts, key_order_dicts].
    unfold bind.
    destruct (update_person_cases person_id o s1)
      as [(e & s2 & -> & Hd) | (p & p' & s2 & Hget & Hd & -> & _)]; simpl;
      [rewrite H in Hd; split; auto using key_order_grows_dicts, key_order_dicts|].
    apply dict_get_mem in Hget. injection H as H1 H2 H3 H4.
    injection Hd as D1 D2 D3 D4.
    unfold key_order_grows, key_order. simpl. rewrite D1, D2, D3, D4.
    rewrite dict_set_keys_old by exact Hget. rewrite H1, H2, H3, H4.
    repeat split; auto using grows_refl.
  - (* POST /fee_details *)
    split; [|discriminate].
    validated H (reads_only_FeeDetailsCreate_init body s);
      [|exact (key_order_grows_dicts H)].
    unfold bind. rewrite create_fee_details_eq. simpl.
    injection H as -> -> -> ->.
    repeat split; simpl; auto using grows_refl, dict_set_keys_grow.
  - unfold handle, bind. rewrite list_fee_details_eq. simpl.
    split; auto using key_order_grows_dicts.
  - unfold handle, bind. rewrite get_fee_details_eq.
    destruct (dict_get fee_id (db_fee_details s)); simpl;
      split; auto using key_order_grows_dicts.
  - (* PATCH /fee_details/{fee_id} *)
    validated H (reads_only_FeeDetailsUpdate_init body s);
      [|split; auto using key_order_grows_dicts, key_order_dicts].
    unfold bind.
    destruct (update_fee_details_cases fee_id o s1)
      as [[e ->] | (f & f' & Hget & -> & _)]; simpl;
      [split; auto using key_order_grows_dicts, key_order_dicts|].
    apply dict_get_mem in Hget. injection H as H1 H2 H3 H4.
    unfold key_order_grows, key_order. simpl.
    rewrite dict_set_keys_old by exact Hget. rewrite H1, H2, H3, H4.
    repeat split; auto using grows_refl.
  - (* POST /visa_status *)
    split; [|discriminate].
    validated H (reads_only_VisaStatusCreate_init body s);
      [|exact (key_order_grows_dicts H)].
    unfold bind. rewrite create_visa_status_eq. simpl.
    injection H as -> -> -> ->.
    repeat split; simpl; auto using grows_refl, dict_set_keys_grow.
  - unfold handle, bind. rewrite list_visa_statuses_eq. simpl.
    split; auto using key_order_grows_dicts.
  - unfold handle, bind. rewrite get_visa_status_eq.
    destruct (dict_get visa_id (db_visa_statuses s)); simpl;
      split; auto using key_order_grows_dicts.
  - (* PATCH /visa_status/{visa_id} *)
    validated H (reads_only_VisaStatusUpdate_init body s);
      [|split; auto using key_order_grows_dicts, key_order_dicts].
    unfold bind.
    destruct (update_visa_status_cases visa_id o s1)
      as [[e ->] | (v & v' & Hget & -> & _)]; simpl;
      [split; auto using key_order_grows_dicts, key_order_dicts|].
    apply dict_get_mem in Hget. injection H as H1 H2 H3 H4.
    unfold key_order_grows, key_order. simpl.
    rewrite dict_set_keys_old by exact Hget. rewrite H1, H2, H3, H4.
    repeat split; auto using grows_refl.
Qed.

(** A request that is neither a create nor an update leaves the whole
    state as it is. *)
Lemma handle_read r s :
  is_create r = false -> is_update r = false -> snd (handle r s) = s.
Proof.
  destruct r; simpl is_create; simpl is_update; try discriminate; intros _ _;
    unfold handle, bind.
  - now rewrite list_addresses_eq.
  - rewrite get_address_eq. now destruct (dict_get address_id (db_addresses s)).
  - now rewrite list_persons_eq.
  - rewrite get_person_eq. now destruct (dict_get person_id (db_persons s)).
  - now rewrite list_fee_details_eq.
  - rewrite get_fee_details_eq. now destruct (dict_get fee_id (db_fee_details s)).
  - now rewrite list_visa_statuses_eq.
  - rewrite get_visa_status_eq. now destruct (dict_get visa_id (db_visa_statuses s)).
Qed.

(** ** The claims *)

(** C10. In every state the server reaches from its start by any sequence of
    requests (creates, updates and reads, accepted or refused), each record
    of each of the four dictionaries is stored under its own [id]. *)
Theorem key_record_agreement_reachable (w : World) (rs : list request) :
  key_record_agreement (serve rs (boot w)).
Proof.
  assert (Hboot : key_record_agreement (boot w)).
  { repeat split; intros k v []. }
  revert Hboot. generalize (boot w).
  induction rs as [|r rs IH]; intros s Hs; simpl; [assumption|].
  apply IH. now apply handle_key_record_agreement.
Qed.

(** C6. For each of the four entities, [get] returns the record stored
    under the identifier when there is one and raises the 404 error when
    there is none, and never changes the state; [update] with an identifier
    that is not a key raises the 404 error and leaves the state as it was. *)
Theorem get_and_update_not_found (k : UUID) (s : Server) :
  (get_address k s =
     match dict_get k (db_addresses s) with
     | Some a => (Returns a, s)
     | None => (Raises (HTTPException 404 "Address not found"), s)
     end
   /\ get_person k s =
     match dict_get k (db_persons s) with
     | Some p => (Returns p, s)
     | None => (Raises (HTTPException 404 "Person not found"), s)
     end
   /\ get_fee_details k s =
     match dict_get k (db_fee_details s) with
     | Some f => (Returns f, s)
     | None => (Raises (HTTPException 404 "FeeDetails not found"), s)
     end
   /\ get_visa_status k s =
     match dict_get k (db_visa_statuses s) with
     | Some v => (Returns v, s)
     | None => (Raises (HTTPException 404 "VisaStatus not found"), s)
     end)
  /\
  ((dict_mem k (db_addresses s) = false ->
    forall update,
      update_address k update s
      = (Raises (HTTPException 404 "Address not found"), s))
   /\ (dict_mem k (db_persons s) = false ->
    forall update,
      update_person k update s
      = (Raises (HTTPException 404 "Person not found"), s))
   /\ (dict_mem k (db_fee_details s) = false ->
    forall update,
      update_fee_details k update s
      = (Raises (HTTPException 404 "FeeDetails not found"), s))
   /\ (dict_mem k (db_visa_statuses s) = false ->
    forall update,
      update_visa_status k update s
      = (Raises (HTTPException 404 "VisaStatus not found"), s))).
Proof.
  split.
  - auto using get_address_eq, get_person_eq, get_fee_details_eq,
      get_visa_status_eq.
  - repeat split; intros H update; apply dict_mem_false_get in H.
    + now apply update_address_absent.
    + now apply update_person_absent.
    + now apply update_fee_details_absent.
    + now apply update_visa_status_absent.
Qed.

(** C5. [create_address] raises the 400 error exactly when the identifier
    of the payload is a key of [addresses], and then changes nothing; when
    it is not a key, the record built from the payload is appended to
    [addresses] under that identifier and returned, and the other
    dictionaries stay as they were. *)
Theorem create_address_duplicate (address : AddressCreate.t) (s : Server) :
  let k := AddressCreate.id address in
  let result := create_address address s in
  (fst result = Raises (HTTPException 400 "Address with this ID already exists")
   <-> dict_mem k (db_addresses s) = true)
  /\ (dict_mem k (db_addresses s) = true -> snd result = s)
  /\ (dict_mem k (db_addresses s) = false ->
      exists a,
        fst result = Returns a
        /\ AddressRead.id a = k
        /\ AddressRead.street a = AddressCreate.street address
        /\ AddressRead.city a = AddressCreate.city address
        /\ AddressRead.state a = AddressCreate.state address
        /\ AddressRead.postal_code a = AddressCreate.postal_code address
        /\ AddressRead.country a = AddressCreate.country address
        /\ db_addresses (snd result) = db_addresses s ++ [(k, a)]
        /\ dict_get k (db_addresses (snd result)) = Some a
        /\ db_persons (snd result) = db_persons s
        /\ db_fee_details (snd result) = db_fee_details s
        /\ db_visa_statuses (snd result) = db_visa_statuses s).
Proof.
  intros k result. subst result k. rewrite create_address_eq.
  destruct (dict_mem (AddressCreate.id address) (db_addresses s)) eqn:E; simpl.
  - repeat split; auto; discriminate.
  - split; [split; discriminate|]. split; [discriminate|]. intros _.
    eexists. split; [reflexivity|]. simpl. repeat split.
    + now apply dict_set_new.
    + apply dict_get_set_same.
Qed.


(** C7, as amended.  A create of a Person, a FeeDetails or a VisaStatus
    returns a record whose [id] is the next value of the generator; a
    create of an Address returns a record with the identifier of the
    payload, which the validation of the body took from the body when the
    body has one and from the generator otherwise.  In each case
    [created_at] is the next reading of the clock and [updated_at] the
    reading after it: they are equal when the clock did not advance between
    the two readings, and [created_at <= updated_at] when the clock does
    not run backwards. *)
Theorem create_assigns_id_and_timestamps (s : Server) :
  let w := world s in
  (forall fee, exists r s',
      create_fee_details fee s = (Returns r, s')
      /\ FeeDetailsRead.id r = rand w (drawn w)
      /\ FeeDetailsRead.created_at r = clock w (ticks w)
      /\ FeeDetailsRead.updated_at r = clock w (S (ticks w))
      /\ (clock w (S (ticks w)) = clock w (ticks w) ->
          FeeDetailsRead.created_at r = FeeDetailsRead.updated_at r)
      /\ (monotone w ->
          (FeeDetailsRead.created_at r <= FeeDetailsRead.updated_at r)%Z))
  /\ (forall visa, exists r s',
      create_visa_status visa s = (Returns r, s')
      /\ VisaStatusRead.id r = rand w (drawn w)
      /\ VisaStatusRead.created_at r = clock w (ticks w)
      /\ VisaStatusRead.updated_at r = clock w (S (ticks w))
      /\ (clock w (S (ticks w)) = clock w (ticks w) ->
          VisaStatusRead.created_at r = VisaStatusRead.updated_at r)
      /\ (monotone w ->
          (VisaStatusRead.created_at r <= VisaStatusRead.updated_at r)%Z))
  /\ (forall person,
      validated_uni (PersonCreate.uni person) ->
      validated_email (PersonCreate.email person) ->
      exists r s',
        create_person person s = (Returns r, s')
        /\ PersonRead.id r = rand w (drawn w)
        /\ PersonRead.created_at r = clock w (ticks w)
        /\ PersonRead.updated_at r = clock w (S (ticks w))
        /\ (clock w (S (ticks w)) = clock w (ticks w) ->
            PersonRead.created_at r = PersonRead.updated_at r)
        /\ (monotone w ->
            (PersonRead.created_at r <= PersonRead.updated_at r)%Z))
  /\ (forall address,
      dict_mem (AddressCreate.id address) (db_addresses s) = false ->
      exists r s',
        create_address address s = (Returns r, s')
        /\ AddressRead.id r = AddressCreate.id address
        /\ AddressRead.created_at r = clock w (ticks w)
        /\ AddressRead.updated_at r = clock w (S (ticks w))
        /\ (clock w (S (ticks w)) = clock w (ticks w) ->
            AddressRead.created_at r = AddressRead.updated_at r)
        /\ (monotone w ->
            (AddressRead.created_at r <= AddressRead.updated_at r)%Z))
  /\ (forall body address s',
      AddressCreate_init body s = (Returns address, s') ->
      AddressCreate.id address =
        match AddressDict.id body with
        | Val k => k
        | _ => rand w (drawn w)
        end).
Proof.
  intros w.
  assert (Hmono : monotone w -> (clock w (ticks w) <= clock w (S (ticks w)))%Z).
  { intros H. apply H. lia. }
  split; [|split; [|split; [|split]]].
  - intros fee. do 2 eexists. rewrite create_fee_details_eq. simpl.
    repeat split; auto.
  - intros visa. do 2 eexists. rewrite create_visa_status_eq. simpl.
    repeat split; auto.
  - intros person Hu He. do 2 eexists.
    rewrite create_person_eq by assumption. simpl. repeat split; auto.
  - intros address Hnew. do 2 eexists.
    rewrite create_address_eq, Hnew. simpl. repeat split; auto.
  - intros body address s' H. unfold AddressCreate_init, AddressBase_init in H.
    apply ap_inv in H as (g6 & f5 & s6 & H & _ & ->).
    apply ap_inv in H as (g5 & f4 & s5 & H & _ & ->).
    apply ap_inv in H as (g4 & f3 & s4 & H & _ & ->).
    apply ap_inv in H as (g3 & f2 & s3 & H & _ & ->).
    apply ap_inv in H as (g2 & f1 & s2 & H & _ & ->).
    apply ap_inv in H as (g1 & i & s1 & H & Hi & ->).
    injection H as <- <-. simpl.
    destruct (AddressDict.id body); simpl in Hi; try discriminate;
      now injection Hi as <- _.
Qed.

(** C2, as amended.  For each of the four entities: when the identifier is
    a key and the payload gives [null] to none of the attributes that are
    not [Optional] in the Read class (and, for a Person, the stored and the
    given [uni] and [email] are as the validation leaves them), the update
    returns and stores, under the same key, the record in which each
    attribute has the value of the payload when the payload has the key
    (for [phone] and [birth_date] also when that value is [null]) and the
    stored value otherwise.  The [addresses] of a payload are stored as
    they came, except that an address that came without an identifier is
    stored with the next identifier of the generator.  [id], [created_at]
    and [updated_at] are the stored ones and the other dictionaries are not
    written. *)
Theorem partial_update_isolation :
  (forall fee_id update s f,
     dict_get fee_id (db_fee_details s) = Some f ->
     FeeDetailsUpdate.university_name update <> Null ->
     FeeDetailsUpdate.number_of_credits update <> Null ->
     FeeDetailsUpdate.fee_paid update <> Null ->
     let f' :=
       {| FeeDetailsRead.university_name :=
            pick (FeeDetailsRead.university_name f)
              (FeeDetailsUpdate.university_name update);
          FeeDetailsRead.number_of_credits :=
            pick (FeeDetailsRead.number_of_credits f)
              (FeeDetailsUpdate.number_of_credits update);
          FeeDetailsRead.fee_paid :=
            pick (FeeDetailsRead.fee_paid f) (FeeDetailsUpdate.fee_paid update);
          FeeDetailsRead.id := FeeDetailsRead.id f;
          FeeDetailsRead.created_at := FeeDetailsRead.created_at f;
          FeeDetailsRead.updated_at := FeeDetailsRead.updated_at f |} in
     update_fee_details fee_id update s
     = (Returns f', store fee_details (dict_set fee_id f' (db_fee_details s)) s))
  /\ (forall visa_id update s v,
     dict_get visa_id (db_visa_statuses s) = Some v ->
     VisaStatusUpdate.visa_status update <> Null ->
     let v' :=
       {| VisaStatusRead.visa_status :=
            pick (VisaStatusRead.visa_status v) (VisaStatusUpdate.visa_status update);
          VisaStatusRead.id := VisaStatusRead.id v;
          VisaStatusRead.created_at := VisaStatusRead.created_at v;
          VisaStatusRead.updated_at := VisaStatusRead.updated_at v |} in
     update_visa_status visa_id update s
     = (Returns v',
        store visa_statuses (dict_set visa_id v' (db_visa_statuses s)) s))
  /\ (forall address_id update s a,
     dict_get address_id (db_addresses s) = Some a ->
     AddressUpdate.street update <> Null ->
     AddressUpdate.city update <> Null ->
     AddressUpdate.state update <> Null ->
     AddressUpdate.postal_code update <> Null ->
     AddressUpdate.country update <> Null ->
     let a' :=
       {| AddressRead.id := AddressRead.id a;
          AddressRead.street :=
            pick (AddressRead.street a) (AddressUpdate.street update);
          AddressRead.city := pick (AddressRead.city a) (AddressUpdate.city update);
          AddressRead.state :=
            pick (AddressRead.state a) (AddressUpdate.state update);
          AddressRead.postal_code :=
            pick (AddressRead.postal_code a) (AddressUpdate.postal_code update);
          AddressRead.country :=
            pick (AddressRead.country a) (AddressUpdate.country update);
          AddressRead.created_at := AddressRead.created_at a;
          AddressRead.updated_at := AddressRead.updated_at a |} in
     update_address address_id update s
     = (Returns a', store addresses (dict_set address_id a' (db_addresses s)) s))
  /\ (forall person_id update s p,
     dict_get person_id (db_persons s) = Some p ->
     validated_uni (PersonRead.uni p) -> validated_email (PersonRead.email p) ->
     (forall u, PersonUpdate.uni update = Val u -> validated_uni u) ->
     (forall e, PersonUpdate.email update = Val e -> validated_email e) ->
     PersonUpdate.uni update <> Null ->
     PersonUpdate.first_name update <> Null ->
     PersonUpdate.last_name update <> Null ->
     PersonUpdate.email update <> Null ->
     PersonUpdate.addresses update <> Null ->
     let w := world s in
     let p' :=
       {| PersonRead.uni := pick (PersonRead.uni p) (PersonUpdate.uni update);
          PersonRead.first_name :=
            pick (PersonRead.first_name p) (PersonUpdate.first_name update);
          PersonRead.last_name :=
            pick (PersonRead.last_name p) (PersonUpdate.last_name update);
          PersonRead.email := pick (PersonRead.email p) (PersonUpdate.email update);
          PersonRead.phone :=
            pick_optional (PersonRead.phone p) (PersonUpdate.phone update);
          PersonRead.birth_date :=
            pick_optional (PersonRead.birth_date p) (PersonUpdate.birth_date update);
          PersonRead.addresses :=
            addresses_after w (PersonRead.addresses p)
              (PersonUpdate.addresses update);
          PersonRead.id := PersonRead.id p;
          PersonRead.created_at := PersonRead.created_at p;
          PersonRead.updated_at := PersonRead.updated_at p |} in
     update_person person_id update s
     = (Returns p',
        store persons (dict_set person_id p' (db_persons s))
          (set_world
             (later (ids_generated (PersonUpdate.addresses update)) 0 w) s))
     /\ ((forall l, PersonUpdate.addresses update = Val l -> ids_given l) ->
         PersonRead.addresses p'
         = pick (PersonRead.addresses p) (PersonUpdate.addresses_given update)
         /\ update_person person_id update s
            = (Returns p', store persons (dict_set person_id p' (db_persons s)) s))).
Proof.
  split; [|split; [|split]]; intros.
  - now apply update_fee_details_present.
  - now apply update_visa_status_present.
  - now apply update_address_present.
  - pose proof (@update_person_present person_id update s p) as Hup.
    cbv zeta in Hup. split; [now apply Hup|]. intros Hids.
    assert (Hg : PersonRead.addresses p'
                 = pick (PersonRead.addresses p)
                     (PersonUpdate.addresses_given update)
                 /\ ids_generated (PersonUpdate.addresses update) = 0).
    { subst p' w. unfold PersonUpdate.addresses_given. simpl.
      destruct (PersonUpdate.addresses update) as [| |l]; simpl; auto.
      now apply regenerated_ids_given, Hids. }
    destruct Hg as [Ha Hg]. split; [exact Ha|].
    rewrite Hup by assumption. fold w. rewrite Hg. subst w.
    now rewrite set_world_same.
Qed.

(** C8, as amended.  When the person is stored, the payload gives
    [addresses] a sequence and gives [null] to none of [uni], [first_name],
    [last_name] and [email] (the stored and the given [uni] and [email]
    being as the validation leaves them), [update_person] returns and
    stores a record whose [addresses] are those of the payload, one for
    one and in their order, whatever addresses were stored: an address
    that came with its identifier is stored as it came, and an address
    that came without one is stored with its text fields and the next
    identifier of the generator, the identifiers being taken in the order
    of the sequence.  They are the very sequence of the payload when each
    of its addresses has its identifier.  With the empty sequence the
    person has no address left. *)
Theorem update_person_replaces_addresses person_id update s p l :
  dict_get person_id (db_persons s) = Some p ->
  validated_uni (PersonRead.uni p) -> validated_email (PersonRead.email p) ->
  (forall u, PersonUpdate.uni update = Val u -> validated_uni u) ->
  (forall e, PersonUpdate.email update = Val e -> validated_email e) ->
  PersonUpdate.uni update <> Null ->
  PersonUpdate.first_name update <> Null ->
  PersonUpdate.last_name update <> Null ->
  PersonUpdate.email update <> Null ->
  PersonUpdate.addresses update = Val l ->
  let w := world s in
  exists p' s',
    update_person person_id update s = (Returns p', s')
    /\ dict_get person_id (db_persons s') = Some p'
    /\ List.length (PersonRead.addresses p') = List.length l
    /\ (forall i a,
          nth_error l i = Some a -> AddressBase.id_given a = true ->
          nth_error (PersonRead.addresses p') i = Some (AddressBase.value a))
    /\ (forall i a,
          nth_error l i = Some a -> AddressBase.id_given a = false ->
          nth_error (PersonRead.addresses p') i
          = Some (with_id (rand w (drawn w + generated (firstn i l)))
                    (AddressBase.value a)))
    /\ drawn (world s') = drawn w + generated l
    /\ Forall2 same_address l (PersonRead.addresses p')
    /\ (ids_given l -> PersonRead.addresses p' = map AddressBase.value l)
    /\ (l = [] -> PersonRead.addresses p' = []).
Proof.
  intros Hget Hu He HUu HUe N1 N2 N3 N4 Hl w.
  assert (N5 : PersonUpdate.addresses update <> Null)
    by (rewrite Hl; discriminate).
  pose proof (update_person_present person_id update s
                Hget Hu He HUu HUe N1 N2 N3 N4 N5) as Hup.
  cbv zeta in Hup. rewrite Hl in Hup. simpl in Hup. fold w in Hup.
  do 2 eexists. split; [exact Hup|].
  simpl. rewrite dict_get_set_same.
  split; [reflexivity|]. split; [apply regenerated_length|].
  split; [|split; [|split; [|split; [|split]]]].
  - intros i a Hi Ha. rewrite (regenerated_nth _ _ _ _ Hi). now rewrite Ha.
  - intros i a Hi Ha. rewrite (regenerated_nth _ _ _ _ Hi). now rewrite Ha.
  - apply Nat.add_comm.
  - apply regenerated_same_address.
  - intros H. now apply regenerated_ids_given.
  - now intros ->.
Qed.

(** C9, as amended.  Each list handler returns the values of its
    dictionary, in the order of the dictionary, without those that a filter
    rejects, and does not change the state.  A request only ever adds keys
    after the keys that are there, so that the order of a dictionary is the
    order in which its keys were first inserted; a request that is not a
    create (an update in particular, accepted or refused) leaves the keys
    and their order as they were.  Between two lists with no create and no
    update in between the state is the same, and so are the two results. *)
Theorem list_order_stable :
  (forall street city state postal_code country, exists keep, forall s,
      list_addresses street city state postal_code country s
      = (Returns (filter keep (dict_values (db_addresses s))), s))
  /\ (forall uni first_name last_name email phone birth_date city country,
      exists keep, forall s,
      list_persons uni first_name last_name email phone birth_date city country s
      = (Returns (filter keep (dict_values (db_persons s))), s))
  /\ (forall university_name fee_paid, exists keep, forall s,
      list_fee_details university_name fee_paid s
      = (Returns (filter keep (dict_values (db_fee_details s))), s))
  /\ (forall visa_status, exists keep, forall s,
      list_visa_statuses visa_status s
      = (Returns (filter keep (dict_values (db_visa_statuses s))), s))
  /\ (forall r s, key_order_grows s (snd (handle r s)))
  /\ (forall r s, is_create r = false -> key_order (snd (handle r s)) = key_order s)
  /\ (forall rs s,
      forallb (fun r => negb (is_create r) && negb (is_update r)) rs = true ->
      serve rs s = s).
Proof.
  repeat split.
  - intros. eexists. intros s. apply list_addresses_eq.
  - intros. eexists. intros s. apply list_persons_eq.
  - intros. eexists. intros s. apply list_fee_details_eq.
  - intros. eexists. intros s. apply list_visa_statuses_eq.
  - apply handle_key_order.
  - apply handle_key_order.
  - apply handle_key_order.
  - apply handle_key_order.
  - intros r s. apply handle_key_order.
  - intros rs. induction rs as [|r rs IH]; intros s H; simpl in *; [reflexivity|].
    apply andb_true_iff in H as [Hr Hrs].
    apply andb_true_iff in Hr as [Hc Hu].
    rewrite handle_read; [auto | now destruct (is_create r) | now destruct (is_update r)].
Qed.

(** * Further properties of the handlers *)

(** ** What the lists return *)

Lemma holds_when_given {V T} (f : option T) (test : V -> T -> bool)
  (P : V -> T -> Prop) (a : V) :
  (forall x, test a x = true <-> P a x) ->
  (holds f test a = true <-> when_given f (P a)).
Proof.
  intros H. unfold holds, when_given. destruct f as [x|].
  - rewrite H. split; [now intros Hp v [= <-] | auto].
  - split; [intros _ v; discriminate | reflexivity].
Qed.

Lemma optional_str_eqb_eq a b : optional_str_eqb a b = true <-> a = Some b.
Proof.
  destruct a as [s|]; simpl.
  - rewrite str_eqb_eq. split; congruence.
  - split; discriminate.
Qed.

Lemma existsb_str_eqb {A} (proj : A -> str) l x :
  existsb (fun a => str_eqb (proj a) x) l = true
  <-> exists a, In a l /\ proj a = x.
Proof.
  rewrite existsb_exists. split; intros (a & Hin & H); exists a;
    (split; [assumption|]); now apply str_eqb_eq.
Qed.

(** X1. [list_addresses] returns, without changing the state, the stored
    addresses that agree with every filter that was given, and only those:
    an address is in the result exactly when it is a value of [addresses]
    and its [street], [city], [state], [postal_code] and [country] each
    equal the filter of that name, if there is one. *)
Theorem list_addresses_In street city state postal_code country s a :
  snd (list_addresses street city state postal_code country s) = s
  /\ exists l,
       fst (list_addresses street city state postal_code country s) = Returns l
       /\ (In a l <->
           In a (dict_values (db_addresses s))
           /\ when_given street (fun x => AddressRead.street a = x)
           /\ when_given city (fun x => AddressRead.city a = x)
           /\ when_given state (fun x => AddressRead.state a = x)
           /\ when_given postal_code (fun x => AddressRead.postal_code a = x)
           /\ when_given country (fun x => AddressRead.country a = x)).
Proof.
  rewrite list_addresses_eq. simpl. split; [reflexivity|].
  eexists. split; [reflexivity|].
  rewrite filter_In, !andb_true_iff.
  rewrite !(holds_when_given _ _ (fun a x => _ a = x))
    by (intros; apply str_eqb_eq).
  tauto.
Qed.

(** X2. [list_persons] returns, without changing the state, exactly the
    stored persons for which every filter that was given holds: [uni],
    [first_name], [last_name] and [email] equal the filter; the person has
    a [phone] and it equals the filter; the string of [birth_date] (the
    text [None] when there is no date) equals the filter; some embedded
    address has the [city], respectively the [country], of the filter, so
    that a person without addresses passes neither of these two. *)
Theorem list_persons_In
  uni first_name last_name email phone birth_date city country s p :
  snd (list_persons uni first_name last_name email phone birth_date city country s)
  = s
  /\ exists l,
       fst (list_persons uni first_name last_name email phone birth_date
              city country s) = Returns l
       /\ (In p l <->
           In p (dict_values (db_persons s))
           /\ when_given uni (fun x => PersonRead.uni p = x)
           /\ when_given first_name (fun x => PersonRead.first_name p = x)
           /\ when_given last_name (fun x => PersonRead.last_name p = x)
           /\ when_given email (fun x => PersonRead.email p = x)
           /\ when_given phone (fun x => PersonRead.phone p = Some x)
           /\ when_given birth_date
                (fun x => str_of_birth_date (PersonRead.birth_date p) = x)
           /\ when_given city
                (fun x => exists addr, In addr (PersonRead.addresses p)
                                       /\ AddressBase.city addr = x)
           /\ when_given country
                (fun x => exists addr, In addr (PersonRead.addresses p)
                                       /\ AddressBase.country addr = x)).
Proof.
  rewrite list_persons_eq. simpl. split; [reflexivity|].
  eexists. split; [reflexivity|].
  rewrite filter_In, !andb_true_iff.
  rewrite (holds_when_given uni _ (fun p x => PersonRead.uni p = x))
    by (intros; apply str_eqb_eq).
  rewrite (holds_when_given first_name _ (fun p x => PersonRead.first_name p = x))
    by (intros; apply str_eqb_eq).
  rewrite (holds_when_given last_name _ (fun p x => PersonRead.last_name p = x))
    by (intros; apply str_eqb_eq).
  rewrite (holds_when_given email _ (fun p x => PersonRead.email p = x))
    by (intros; apply str_eqb_eq).
  rewrite (holds_when_given phone _ (fun p x => PersonRead.phone p = Some x))
    by (intros; apply optional_str_eqb_eq).
  rewrite (holds_when_given birth_date _
             (fun p x => str_of_birth_date (PersonRead.birth_date p) = x))
    by (intros; apply str_eqb_eq).
  rewrite (holds_when_given city _
             (fun p x => exists addr, In addr (PersonRead.addresses p)
                                      /\ AddressBase.city addr = x))
    by (intros; apply existsb_str_eqb).
  rewrite (holds_when_given country _
             (fun p x => exists addr, In addr (PersonRead.addresses p)
                                      /\ AddressBase.country addr = x))
    by (intros; apply existsb_str_eqb).
  tauto.
Qed.

(** X3. [list_fee_details] returns exactly the stored fee details whose
    [university_name] and [fee_paid] equal the filters that were given, and
    [list_visa_statuses] exactly the stored visa statuses whose
    [visa_status] equals the filter, if given; neither changes the state,
    and [number_of_credits] is no filter. *)
Theorem list_fee_details_and_visa_statuses_In
  university_name fee_paid visa_status s f v :
  (snd (list_fee_details university_name fee_paid s) = s
   /\ exists l,
        fst (list_fee_details university_name fee_paid s) = Returns l
        /\ (In f l <->
            In f (dict_values (db_fee_details s))
            /\ when_given university_name
                 (fun x => FeeDetailsRead.university_name f = x)
            /\ when_given fee_paid (fun x => FeeDetailsRead.fee_paid f = x)))
  /\ (snd (list_visa_statuses visa_status s) = s
      /\ exists l,
           fst (list_visa_statuses visa_status s) = Returns l
           /\ (In v l <->
               In v (dict_values (db_visa_statuses s))
               /\ when_given visa_status
                    (fun x => VisaStatusRead.visa_status v = x))).
Proof.
  rewrite list_fee_details_eq, list_visa_statuses_eq. simpl.
  split; (split; [reflexivity|]); eexists; (split; [reflexivity|]);
    rewrite filter_In.
  - rewrite !andb_true_iff.
    rewrite (holds_when_given university_name _
               (fun f x => FeeDetailsRead.university_name f = x))
      by (intros; apply str_eqb_eq).
    rewrite (holds_when_given fee_paid _
               (fun f x => FeeDetailsRead.fee_paid f = x))
      by (intros; apply Bool.eqb_true_iff).
    tauto.
  - rewrite (holds_when_given visa_status _
               (fun v x => VisaStatusRead.visa_status v = x))
      by (intros; apply str_eqb_eq).
    tauto.
Qed.


(** ** Creates, updates and reads, one after the other *)

Lemma dict_values_app {V} (d1 d2 : Dict V) :
  dict_values (d1 ++ d2) = dict_values d1 ++ dict_values d2.
Proof. apply map_app. Qed.

Lemma dict_set_set {V} k (v v' : V) d :
  dict_set k v (dict_set k v' d) = dict_set k v d.
Proof.
  induction d as [|[k0 v0] d IH]; simpl.
  - now rewrite N.eqb_refl.
  - destruct (N.eqb k k0) eqn:E; simpl; rewrite E; [reflexivity|].
    now rewrite IH.
Qed.

Lemma dict_set_same_value {V} k (v : V) d :
  dict_get k d = Some v -> dict_set k v d = d.
Proof.
  induction d as [|[k0 v0] d IH]; simpl; [discriminate|].
  destruct (N.eqb k k0).
  - now intros [= ->].
  - intros H. now rewrite IH.
Qed.

(** X4. A record created under an identifier that is not yet a key is the
    last of the list without filters, after the records that were there, in
    their order.  So for the four entities; the person is one that
    [PersonRead] accepts and the address one whose identifier is new, as
    [create_address] requires. *)
Theorem created_is_listed_last s :
  let w := world s in
  (forall fee,
     dict_mem (rand w (drawn w)) (db_fee_details s) = false ->
     exists r,
       fst (create_fee_details fee s) = Returns r
       /\ fst (list_fee_details None None (snd (create_fee_details fee s)))
          = Returns (dict_values (db_fee_details s) ++ [r]))
  /\ (forall visa,
     dict_mem (rand w (drawn w)) (db_visa_statuses s) = false ->
     exists r,
       fst (create_visa_status visa s) = Returns r
       /\ fst (list_visa_statuses None (snd (create_visa_status visa s)))
          = Returns (dict_values (db_visa_statuses s) ++ [r]))
  /\ (forall person,
     validated_uni (PersonCreate.uni person) ->
     validated_email (PersonCreate.email person) ->
     dict_mem (rand w (drawn w)) (db_persons s) = false ->
     exists r,
       fst (create_person person s) = Returns r
       /\ fst (list_persons None None None None None None None None
                 (snd (create_person person s)))
          = Returns (dict_values (db_persons s) ++ [r]))
  /\ (forall address,
     dict_mem (AddressCreate.id address) (db_addresses s) = false ->
     exists r,
       fst (create_address address s) = Returns r
       /\ fst (list_addresses None None None None None
                 (snd (create_address address s)))
          = Returns (dict_values (db_addresses s) ++ [r])).
Proof.
  intros w. repeat split.
  - intros fee Hnew. eexists. rewrite create_fee_details_eq. simpl.
    split; [reflexivity|].
    unfold list_fee_details, bind. simpl. fold w.
    now rewrite dict_set_new, dict_values_app.
  - intros visa Hnew. eexists. rewrite create_visa_status_eq. simpl.
    split; [reflexivity|].
    unfold list_visa_statuses, bind. simpl. fold w.
    now rewrite dict_set_new, dict_values_app.
  - intros person Hu He Hnew. eexists.
    rewrite create_person_eq by assumption. simpl.
    split; [reflexivity|].
    unfold list_persons, bind. simpl. fold w.
    now rewrite dict_set_new, dict_values_app.
  - intros address Hnew. eexists. rewrite create_address_eq, Hnew. simpl.
    split; [reflexivity|].
    unfold list_addresses, bind. simpl.
    now rewrite dict_set_new, dict_values_app.
Qed.

(** X5. What a create returns is what a [get] of its identifier returns
    right after it, and the [get] changes nothing.  So for the four
    entities; the person is one that [PersonRead] accepts and the address
    one whose identifier is new. *)
Theorem create_then_get s :
  (forall fee, exists r,
     fst (create_fee_details fee s) = Returns r
     /\ get_fee_details (FeeDetailsRead.id r) (snd (create_fee_details fee s))
        = (Returns r, snd (create_fee_details fee s)))
  /\ (forall visa, exists r,
     fst (create_visa_status visa s) = Returns r
     /\ get_visa_status (VisaStatusRead.id r) (snd (create_visa_status visa s))
        = (Returns r, snd (create_visa_status visa s)))
  /\ (forall person,
     validated_uni (PersonCreate.uni person) ->
     validated_email (PersonCreate.email person) ->
     exists r,
       fst (create_person person s) = Returns r
       /\ get_person (PersonRead.id r) (snd (create_person person s))
          = (Returns r, snd (create_person person s)))
  /\ (forall address,
     dict_mem (AddressCreate.id address) (db_addresses s) = false ->
     exists r,
       fst (create_address address s) = Returns r
       /\ get_address (AddressRead.id r) (snd (create_address address s))
          = (Returns r, snd (create_address address s))).
Proof.
  repeat split.
  - intros fee. eexists. rewrite create_fee_details_eq. simpl.
    split; [reflexivity|]. rewrite get_fee_details_eq. simpl.
    now rewrite dict_get_set_same.
  - intros visa. eexists. rewrite create_visa_status_eq. simpl.
    split; [reflexivity|]. rewrite get_visa_status_eq. simpl.
    now rewrite dict_get_set_same.
  - intros person Hu He. eexists. rewrite create_person_eq by assumption.
    simpl. split; [reflexivity|]. rewrite get_person_eq. simpl.
    now rewrite dict_get_set_same.
  - intros address Hnew. eexists. rewrite create_address_eq, Hnew. simpl.
    split; [reflexivity|]. rewrite get_address_eq. simpl.
    now rewrite dict_get_set_same.
Qed.

(** X6. When an update returns a record, the identifier was a key before
    it, and a [get] of the identifier right after it returns that record.
    So for the four entities. *)
Theorem update_then_get k s :
  (forall update r s',
     update_fee_details k update s = (Returns r, s') ->
     dict_mem k (db_fee_details s) = true
     /\ get_fee_details k s' = (Returns r, s'))
  /\ (forall update r s',
     update_visa_status k update s = (Returns r, s') ->
     dict_mem k (db_visa_statuses s) = true
     /\ get_visa_status k s' = (Returns r, s'))
  /\ (forall update r s',
     update_address k update s = (Returns r, s') ->
     dict_mem k (db_addresses s) = true
     /\ get_address k s' = (Returns r, s'))
  /\ (forall update r s',
     update_person k update s = (Returns r, s') ->
     dict_mem k (db_persons s) = true
     /\ get_person k s' = (Returns r, s')).
Proof.
  repeat split.
  - destruct (update_fee_details_cases k update s)
      as [[e He] | (f & f' & Hget & Hup & _)]; [congruence|].
    eapply dict_get_mem; eauto.
  - destruct (update_fee_details_cases k update s)
      as [[e He] | (f & f' & Hget & Hup & _)]; [congruence|].
    rewrite Hup in H. injection H as <- <-.
    rewrite get_fee_details_eq. simpl. now rewrite dict_get_set_same.
  - destruct (update_visa_status_cases k update s)
      as [[e He] | (f & f' & Hget & Hup & _)]; [congruence|].
    eapply dict_get_mem; eauto.
  - destruct (update_visa_status_cases k update s)
      as [[e He] | (f & f' & Hget & Hup & _)]; [congruence|].
    rewrite Hup in H. injection H as <- <-.
    rewrite get_visa_status_eq. simpl. now rewrite dict_get_set_same.
  - destruct (update_address_cases k update s)
      as [[e He] | (f & f' & Hget & Hup & _)]; [congruence|].
    eapply dict_get_mem; eauto.
  - destruct (update_address_cases k update s)
      as [[e He] | (f & f' & Hget & Hup & _)]; [congruence|].
    rewrite Hup in H. injection H as <- <-.
    rewrite get_address_eq. simpl. now rewrite dict_get_set_same.
  - destruct (update_person_cases k update s)
      as [(e & s1 & He & _) | (f & f' & s1 & Hget & _ & Hup & _)]; [congruence|].
    eapply dict_get_mem; eauto.
  - destruct (update_person_cases k update s)
      as [(e & s1 & He & _) | (f & f' & s1 & Hget & _ & Hup & _)]; [congruence|].
    rewrite Hup in H. injection H as <- <-.
    rewrite get_person_eq. simpl. now rewrite dict_get_set_same.
Qed.


(** X8. An update writes to one key of one dictionary at most: the records
    under the other keys of that dictionary are as they were, the keys are
    the same (an update never adds one), and the other three dictionaries
    are as they were.  So for the four entities, whether the update returns
    or raises. *)
Theorem update_frame k update_a update_p update_f update_v s :
  (let s' := snd (update_address k update_a s) in
   (forall k', k' <> k ->
      dict_get k' (db_addresses s') = dict_get k' (db_addresses s))
   /\ dict_keys (db_addresses s') = dict_keys (db_addresses s)
   /\ db_persons s' = db_persons s
   /\ db_fee_details s' = db_fee_details s
   /\ db_visa_statuses s' = db_visa_statuses s)
  /\ (let s' := snd (update_person k update_p s) in
   (forall k', k' <> k ->
      dict_get k' (db_persons s') = dict_get k' (db_persons s))
   /\ dict_keys (db_persons s') = dict_keys (db_persons s)
   /\ db_addresses s' = db_addresses s
   /\ db_fee_details s' = db_fee_details s
   /\ db_visa_statuses s' = db_visa_statuses s)
  /\ (let s' := snd (update_fee_details k update_f s) in
   (forall k', k' <> k ->
      dict_get k' (db_fee_details s') = dict_get k' (db_fee_details s))
   /\ dict_keys (db_fee_details s') = dict_keys (db_fee_details s)
   /\ db_persons s' = db_persons s
   /\ db_addresses s' = db_addresses s
   /\ db_visa_statuses s' = db_visa_statuses s)
  /\ (let s' := snd (update_visa_status k update_v s) in
   (forall k', k' <> k ->
      dict_get k' (db_visa_statuses s') = dict_get k' (db_visa_statuses s))
   /\ dict_keys (db_visa_statuses s') = dict_keys (db_visa_statuses s)
   /\ db_persons s' = db_persons s
   /\ db_addresses s' = db_addresses s
   /\ db_fee_details s' = db_fee_details s).
Proof.
  split; [|split; [|split]]; cbv zeta.
  - destruct (update_address_cases k update_a s)
      as [[e ->] | (f & f' & Hget & -> & _)]; simpl; [auto 6|].
    apply dict_get_mem in Hget. repeat split.
    + intros k' Hk. now apply dict_get_set_other.
    + now apply dict_set_keys_old.
  - destruct (update_person_cases k update_p s)
      as [(e & s1 & -> & Hd) | (f & f' & s1 & Hget & Hd & -> & _)]; simpl;
      [injection Hd as -> -> -> ->; auto 6|].
    apply dict_get_mem in Hget. injection Hd as -> -> -> ->. repeat split.
    + intros k' Hk. now apply dict_get_set_other.
    + now apply dict_set_keys_old.
  - destruct (update_fee_details_cases k update_f s)
      as [[e ->] | (f & f' & Hget & -> & _)]; simpl; [auto 6|].
    apply dict_get_mem in Hget. repeat split.
    + intros k' Hk. now apply dict_get_set_other.
    + now apply dict_set_keys_old.
  - destruct (update_visa_status_cases k update_v s)
      as [[e ->] | (f & f' & Hget & -> & _)]; simpl; [auto 6|].
    apply dict_get_mem in Hget. repeat split.
    + intros k' Hk. now apply dict_get_set_other.
    + now apply dict_set_keys_old.
Qed.

(** X9. The creates of a Person, a FeeDetails and a VisaStatus do not look
    whether the generated identifier is a key already: when it is, the
    create returns all the same and its record takes the place of the one
    that was stored under that identifier, the keys and their order being
    as they were. *)
Theorem create_overwrites_on_collision s :
  let w := world s in
  (forall fee,
     dict_mem (rand w (drawn w)) (db_fee_details s) = true ->
     exists r,
       fst (create_fee_details fee s) = Returns r
       /\ dict_get (rand w (drawn w))
            (db_fee_details (snd (create_fee_details fee s))) = Some r
       /\ dict_keys (db_fee_details (snd (create_fee_details fee s)))
          = dict_keys (db_fee_details s))
  /\ (forall visa,
     dict_mem (rand w (drawn w)) (db_visa_statuses s) = true ->
     exists r,
       fst (create_visa_status visa s) = Returns r
       /\ dict_get (rand w (drawn w))
            (db_visa_statuses (snd (create_visa_status visa s))) = Some r
       /\ dict_keys (db_visa_statuses (snd (create_visa_status visa s)))
          = dict_keys (db_visa_statuses s))
  /\ (forall person,
     validated_uni (PersonCreate.uni person) ->
     validated_email (PersonCreate.email person) ->
     dict_mem (rand w (drawn w)) (db_persons s) = true ->
     exists r,
       fst (create_person person s) = Returns r
       /\ dict_get (rand w (drawn w))
            (db_persons (snd (create_person person s))) = Some r
       /\ dict_keys (db_persons (snd (create_person person s)))
          = dict_keys (db_persons s)).
Proof.
  intros w. repeat split.
  - intros fee Hold. eexists. rewrite create_fee_details_eq. simpl. fold w.
    split; [reflexivity|].
    split; [apply dict_get_set_same | now apply dict_set_keys_old].
  - intros visa Hold. eexists. rewrite create_visa_status_eq. simpl. fold w.
    split; [reflexivity|].
    split; [apply dict_get_set_same | now apply dict_set_keys_old].
  - intros person Hu He Hold. eexists.
    rewrite create_person_eq by assumption. simpl. fold w.
    split; [reflexivity|].
    split; [apply dict_get_set_same | now apply dict_set_keys_old].
Qed.


(** ** What a request writes *)

Lemma create_person_accepted person s p s' :
  create_person person s = (Returns p, s') -> accepted_person p.
Proof.
  unfold create_person, bind.
  destruct (PersonRead_init (PersonCreate.model_dump person) s)
    as [[p0|e] s0] eqn:E; simpl; [|discriminate].
  intros [= <- _]. apply PersonRead_init_validated in E as [Hu He].
  split; [now apply UNI_pattern_spec | assumption].
Qed.

Lemma update_person_accepted person_id update s p s' :
  update_person person_id update s = (Returns p, s') -> accepted_person p.
Proof.
  unfold update_person, bind, contains, getitem, setitem. simpl.
  destruct (dict_mem person_id (db_persons s)); simpl; [|discriminate].
  destruct (dict_get person_id (db_persons s)) as [p0|]; [|discriminate].
  destruct (PersonRead_init
              (PersonDict.update (PersonRead.model_dump p0)
                 (PersonUpdate.model_dump_exclude_unset update)) s)
    as [[p1|e] s1] eqn:E; simpl; [|discriminate].
  rewrite dict_get_set_same. intros [= <- _].
  apply PersonRead_init_validated in E as [Hu He].
  split; [now apply UNI_pattern_spec | assumption].
Qed.

Lemma effect_dicts create s s' :
  dicts s' = dicts s ->
  write_of stamp_of_person accepted_person create (db_persons s) (db_persons s')
  /\ write_of stamp_of_address (fun _ => True) create
       (db_addresses s) (db_addresses s')
  /\ write_of stamp_of_fee_details (fun _ => True) create
       (db_fee_details s) (db_fee_details s')
  /\ write_of stamp_of_visa_status (fun _ => True) create
       (db_visa_statuses s) (db_visa_statuses s').
Proof.
  unfold dicts. intros [= -> -> -> ->]. repeat split; now left.
Qed.

Ltac untouched := try (left; simpl; congruence).

(** One request is at most one assignment in one dictionary; the record
    assigned to [persons] is one that [PersonRead] accepts, and an update
    assigns under a key that is there a record with the stamp of the one it
    replaces. *)
Lemma handle_effect r s :
  write_of stamp_of_person accepted_person (is_create r)
    (db_persons s) (db_persons (snd (handle r s)))
  /\ write_of stamp_of_address (fun _ => True) (is_create r)
       (db_addresses s) (db_addresses (snd (handle r s)))
  /\ write_of stamp_of_fee_details (fun _ => True) (is_create r)
       (db_fee_details s) (db_fee_details (snd (handle r s)))
  /\ write_of stamp_of_visa_status (fun _ => True) (is_create r)
       (db_visa_statuses s) (db_visa_statuses (snd (handle r s))).
Proof.
  destruct r; simpl is_create.
  - (* POST /addresses *)
    validated H (reads_only_AddressBase_init body s);
      [|now apply effect_dicts].
    unfold bind. rewrite create_address_eq.
    destruct (dict_mem (AddressCreate.id o) (db_addresses s1)); simpl;
      [now apply effect_dicts|].
    injection H as H1 H2 H3 H4. repeat split; untouched.
    right. do 2 eexists. rewrite H2. repeat split. discriminate.
  - unfold handle, bind. rewrite list_addresses_eq. now apply effect_dicts.
  - unfold handle, bind. rewrite get_address_eq.
    destruct (dict_get address_id (db_addresses s)); now apply effect_dicts.
  - (* PATCH /addresses/{address_id} *)
    validated H (reads_only_AddressUpdate_init body s);
      [|now apply effect_dicts].
    unfold bind.
    destruct (update_address_cases address_id o s1)
      as [[e ->] | (f & f' & Hget & -> & Hi & Hc & Hu)]; simpl;
      [now apply effect_dicts|].
    injection H as H1 H2 H3 H4. repeat split; untouched.
    right. exists address_id, f'. rewrite H2 in *. repeat split.
    intros _. exists f. split; [assumption|].
    unfold stamp_of_address. congruence.
  - (* POST /persons *)
    validated H (reads_only_PersonBase_init body s);
      [|now apply effect_dicts].
    unfold bind.
    pose proof (create_person_accepted o s1) as Hacc.
    destruct (create_person_cases o s1)
      as [(e & s2 & -> & Hd) | (p & s2 & Hd & Hc)]; simpl;
      [apply effect_dicts; congruence|].
    rewrite Hc in *. simpl.
    injection H as H1 H2 H3 H4. injection Hd as D1 D2 D3 D4.
    repeat split; untouched.
    right. do 2 eexists. rewrite D1, H1. split; [reflexivity|].
    split; [eapply Hacc; reflexivity | discriminate].
  - unfold handle, bind. rewrite list_persons_eq. now apply effect_dicts.
  - unfold handle, bind. rewrite get_person_eq.
    destruct (dict_get person_id (db_persons s)); now apply effect_dicts.
  - (* PATCH /persons/{person_id} *)
    validated H (reads_only_PersonUpdate_init body s);
      [|now apply effect_dicts].
    unfold bind.
    pose proof (update_person_accepted person_id o s1) as Hacc.
    destruct (update_person_cases person_id o s1)
      as [(e & s2 & -> & Hd) | (f & f' & s2 & Hget & Hd & Hup & Hi & Hc & Hu)];
      simpl; [apply effect_dicts; congruence|].
    rewrite Hup in *. simpl.
    injection H as H1 H2 H3 H4. injection Hd as D1 D2 D3 D4.
    repeat split; untouched.
    right. exists person_id, f'. rewrite D1, H1 in *. split; [reflexivity|].
    split; [eapply Hacc; reflexivity|].
    intros _. exists f. split; [assumption|].
    unfold stamp_of_person. congruence.
  - (* POST /fee_details *)
    validated H (reads_only_FeeDetailsCreate_init body s);
      [|now apply effect_dicts].
    unfold bind. rewrite create_fee_details_eq. simpl.
    injection H as H1 H2 H3 H4. repeat split; untouched.
    right. do 2 eexists. rewrite H3. repeat split. discriminate.
  - unfold handle, bind. rewrite list_fee_details_eq. now apply effect_dicts.
  - unfold handle, bind. rewrite get_fee_details_eq.
    destruct (dict_get fee_id (db_fee_details s)); now apply effect_dicts.
  - (* PATCH /fee_details/{fee_id} *)
    validated H (reads_only_FeeDetailsUpdate_init body s);
      [|now apply effect_dicts].
    unfold bind.
    destruct (update_fee_details_cases fee_id o s1)
      as [[e ->] | (f & f' & Hget & -> & Hi & Hc & Hu)]; simpl;
      [now apply effect_dicts|].
    injection H as H1 H2 H3 H4. repeat split; untouched.
    right. exists fee_id, f'. rewrite H3 in *. repeat split.
    intros _. exists f. split; [assumption|].
    unfold stamp_of_fee_details. congruence.
  - (* POST /visa_status *)
    validated H (reads_only_VisaStatusCreate_init body s);
      [|now apply effect_dicts].
    unfold bind. rewrite create_visa_status_eq. simpl.
    injection H as H1 H2 H3 H4. repeat split; untouched.
    right. do 2 eexists. rewrite H4. repeat split. discriminate.
  - unfold handle, bind. rewrite list_visa_statuses_eq. now apply effect_dicts.
  - unfold handle, bind. rewrite get_visa_status_eq.
    destruct (dict_get visa_id (db_visa_statuses s)); now apply effect_dicts.
  - (* PATCH /visa_status/{visa_id} *)
    validated H (reads_only_VisaStatusUpdate_init body s);
      [|now apply effect_dicts].
    unfold bind.
    destruct (update_visa_status_cases visa_id o s1)
      as [[e ->] | (f & f' & Hget & -> & Hi & Hc & Hu)]; simpl;
      [now apply effect_dicts|].
    injection H as H1 H2 H3 H4. repeat split; untouched.
    right. exists visa_id, f'. rewrite H4 in *. repeat split.
    intros _. exists f. split; [assumption|].
    unfold stamp_of_visa_status. congruence.
Qed.


(** ** What every sequence of requests keeps *)

Lemma grows_trans {A} (l1 l2 l3 : list A) :
  grows l1 l2 -> grows l2 l3 -> grows l1 l3.
Proof.
  intros [n1 ->] [n2 ->]. exists (n1 ++ n2). now rewrite app_assoc.
Qed.

(** X10. No sequence of requests removes a key or moves it: after the
    requests the keys of each of the four dictionaries are the keys of
    before, in their order, followed by the keys that were added.  There is
    no way to delete a record. *)
Theorem keys_are_kept rs s : key_order_grows s (serve rs s).
Proof.
  revert s. induction rs as [|r rs IH]; intros s; simpl.
  - repeat split; apply grows_refl.
  - destruct (proj1 (handle_key_order r s)) as (G1 & G2 & G3 & G4).
    destruct (IH (snd (handle r s))) as (I1 & I2 & I3 & I4).
    repeat split; eapply grows_trans; eassumption.
Qed.

Lemma write_of_NoDup {V S} (stamp : V -> S) ok create (d d' : Dict V) :
  write_of stamp ok create d d' -> NoDup (dict_keys d) -> NoDup (dict_keys d').
Proof.
  intros [-> | (k & v & -> & _)] H; [assumption | now apply dict_set_NoDup].
Qed.

Lemma keyed_by_id_values {V} (id_of : V -> UUID) (d : Dict V) :
  keyed_by_id id_of d -> map id_of (dict_values d) = dict_keys d.
Proof.
  induction d as [|[k v] d IH]; intros H; simpl; [reflexivity|].
  rewrite (H k v) by now left. rewrite IH; [reflexivity|].
  intros k' v' Hin. apply H. now right.
Qed.

(** X11. In every state that the server reaches from its start, the
    records of a dictionary have pairwise distinct [id]s: a list without
    filters never shows two records with the same identifier. *)
Theorem listed_ids_are_distinct (w : World) (rs : list request) :
  let s := serve rs (boot w) in
  NoDup (map PersonRead.id (dict_values (db_persons s)))
  /\ NoDup (map AddressRead.id (dict_values (db_addresses s)))
  /\ NoDup (map FeeDetailsRead.id (dict_values (db_fee_details s)))
  /\ NoDup (map VisaStatusRead.id (dict_values (db_visa_statuses s))).
Proof.
  assert (H : forall s,
    key_record_agreement s ->
    NoDup (dict_keys (db_persons s)) /\ NoDup (dict_keys (db_addresses s))
    /\ NoDup (dict_keys (db_fee_details s))
    /\ NoDup (dict_keys (db_visa_statuses s)) ->
    key_record_agreement (serve rs s)
    /\ NoDup (dict_keys (db_persons (serve rs s)))
    /\ NoDup (dict_keys (db_addresses (serve rs s)))
    /\ NoDup (dict_keys (db_fee_details (serve rs s)))
    /\ NoDup (dict_keys (db_visa_statuses (serve rs s)))).
  { induction rs as [|r rs IH]; intros s Hk Hn; simpl; [tauto|].
    apply IH; [now apply handle_key_record_agreement|].
    destruct Hn as (N1 & N2 & N3 & N4).
    destruct (handle_effect r s) as (E1 & E2 & E3 & E4).
    repeat split; eapply write_of_NoDup; eassumption. }
  destruct (H (boot w)) as ((K1 & K2 & K3 & K4) & N1 & N2 & N3 & N4).
  - repeat split; intros k v [].
  - repeat split; constructor.
  - cbv zeta. now rewrite !keyed_by_id_values.
Qed.

Lemma write_of_stamp {V S} (stamp : V -> S) ok (d d' : Dict V) :
  write_of stamp ok false d d' ->
  forall k v', dict_get k d' = Some v' ->
  exists v, dict_get k d = Some v /\ stamp v' = stamp v.
Proof.
  intros [-> | (k0 & v0 & -> & _ & Hold)] k v' Hget; [eauto|].
  destruct (Hold eq_refl) as (v00 & Hget0 & Hs).
  destruct (N.eq_dec k k0) as [->|Hne].
  - rewrite dict_get_set_same in Hget. injection Hget as <-. eauto.
  - rewrite dict_get_set_other in Hget by assumption. eauto.
Qed.

(** X12. Through any sequence of requests without a create, every record
    that is stored afterwards was stored before under the same key, with
    the same [id], the same [created_at] and the same [updated_at]: reads
    and updates, accepted or refused, change none of the three. *)
Theorem stamps_are_kept rs s :
  forallb (fun r => negb (is_create r)) rs = true ->
  (forall k p', dict_get k (db_persons (serve rs s)) = Some p' ->
     exists p, dict_get k (db_persons s) = Some p
               /\ stamp_of_person p' = stamp_of_person p)
  /\ (forall k a', dict_get k (db_addresses (serve rs s)) = Some a' ->
     exists a, dict_get k (db_addresses s) = Some a
               /\ stamp_of_address a' = stamp_of_address a)
  /\ (forall k f', dict_get k (db_fee_details (serve rs s)) = Some f' ->
     exists f, dict_get k (db_fee_details s) = Some f
               /\ stamp_of_fee_details f' = stamp_of_fee_details f)
  /\ (forall k v', dict_get k (db_visa_statuses (serve rs s)) = Some v' ->
     exists v, dict_get k (db_visa_statuses s) = Some v
               /\ stamp_of_visa_status v' = stamp_of_visa_status v).
Proof.
  revert s. induction rs as [|r rs IH]; intros s Hrs; simpl in *.
  - repeat split; eauto.
  - apply andb_true_iff in Hrs as [Hr Hrs].
    assert (Hc : is_create r = false) by now destruct (is_create r).
    destruct (IH (snd (handle r s)) Hrs) as (I1 & I2 & I3 & I4).
    destruct (handle_effect r s) as (E1 & E2 & E3 & E4). rewrite Hc in *.
    repeat split; intros k x' Hget.
    + destruct (I1 k x' Hget) as (x1 & Hget1 & Hs1).
      destruct (write_of_stamp E1 k Hget1) as (x & Hx & Hs). exists x.
      split; congruence.
    + destruct (I2 k x' Hget) as (x1 & Hget1 & Hs1).
      destruct (write_of_stamp E2 k Hget1) as (x & Hx & Hs). exists x.
      split; congruence.
    + destruct (I3 k x' Hget) as (x1 & Hget1 & Hs1).
      destruct (write_of_stamp E3 k Hget1) as (x & Hx & Hs). exists x.
      split; congruence.
    + destruct (I4 k x' Hget) as (x1 & Hget1 & Hs1).
      destruct (write_of_stamp E4 k Hget1) as (x & Hx & Hs). exists x.
      split; congruence.
Qed.

Lemma write_of_ok {V S} (stamp : V -> S) (ok : V -> Prop) create (d d' : Dict V) :
  write_of stamp ok create d d' ->
  Forall (fun kv => ok (snd kv)) d -> Forall (fun kv => ok (snd kv)) d'.
Proof.
  intros [-> | (k & v & -> & Hv & _)] H; [assumption|].
  apply Forall_forall. intros [k' v'] Hin.
  apply In_dict_set in Hin as [[= -> ->] | Hin]; [assumption|].
  rewrite Forall_forall in H. now apply (H (k', v')).
Qed.

Lemma is_uni_ascii_alnum u : is_uni u -> ascii_alnum u.
Proof.
  intros (l & d & -> & _ & Hl & _ & Hd). apply Forall_app. split.
  - eapply Forall_impl; [|exact Hl]. simpl. auto.
  - eapply Forall_impl; [|exact Hd]. simpl. intros c Hc Hlt.
    right. now apply unicode_Nd_ascii.
Qed.

(** X13. In every state that the server reaches from its start, every
    stored person has a [uni] of 2 to 3 lowercase ASCII letters followed by
    1 to 4 digits (decimal digits of Unicode, the class [\d]), so that its
    ASCII code points are lowercase letters or digits [0] to [9], and an
    [email] that the validator of emails returned: neither a create nor an
    update can store a person that [PersonRead] would refuse. *)
Theorem stored_persons_are_accepted (w : World) (rs : list request) :
  Forall (fun kp => accepted_person (snd kp)
                    /\ ascii_alnum (PersonRead.uni (snd kp)))
    (db_persons (serve rs (boot w))).
Proof.
  assert (H : Forall (fun kp => accepted_person (snd kp)) (db_persons (boot w)))
    by constructor.
  assert (H' : forall s,
    Forall (fun kp => accepted_person (snd kp)) (db_persons s) ->
    Forall (fun kp => accepted_person (snd kp)) (db_persons (serve rs s))).
  { induction rs as [|r rs IH]; intros s Hs; simpl; [assumption|].
    apply IH. exact (write_of_ok (proj1 (handle_effect r s)) Hs). }
  eapply Forall_impl; [|exact (H' _ H)].
  intros kp Hkp. split; [exact Hkp|]. now apply is_uni_ascii_alnum, Hkp.
Qed.


(** ** Updates with [null], twice, and with nothing *)

Lemma null_or_not {T} (f : field T) : f = Null \/ f <> Null.
Proof. destruct f; [right | left | right]; congruence. Qed.

Lemma pick_pick {T} (old : T) (f : field T) : pick (pick old f) f = pick old f.
Proof. now destruct f. Qed.

Lemma update_fee_details_null fee_id update s f :
  dict_get fee_id (db_fee_details s) = Some f ->
  FeeDetailsUpdate.university_name update = Null
  \/ FeeDetailsUpdate.number_of_credits update = Null
  \/ FeeDetailsUpdate.fee_paid update = Null ->
  update_fee_details fee_id update s = (Raises ValidationError, s).
Proof.
  intros Hget H.
  unfold update_fee_details, bind, contains, getitem. simpl.
  rewrite (dict_get_mem _ _ Hget). simpl. rewrite Hget.
  unfold FeeDetailsRead_init, bind. destruct update as [f1 f2 f3]. simpl in *.
  destruct f1, f2, f3; simpl; try reflexivity;
    exfalso; decompose [or] H; discriminate.
Qed.

Lemma update_visa_status_null visa_id update s v :
  dict_get visa_id (db_visa_statuses s) = Some v ->
  VisaStatusUpdate.visa_status update = Null ->
  update_visa_status visa_id update s = (Raises ValidationError, s).
Proof.
  intros Hget H.
  unfold update_visa_status, bind, contains, getitem. simpl.
  rewrite (dict_get_mem _ _ Hget). simpl. rewrite Hget.
  unfold VisaStatusRead_init, bind. destruct update as [f1]. simpl in *.
  now subst f1.
Qed.

Lemma update_address_null address_id update s a :
  dict_get address_id (db_addresses s) = Some a ->
  AddressUpdate.street update = Null
  \/ AddressUpdate.city update = Null
  \/ AddressUpdate.state update = Null
  \/ AddressUpdate.postal_code update = Null
  \/ AddressUpdate.country update = Null ->
  update_address address_id update s = (Raises ValidationError, s).
Proof.
  intros Hget H.
  unfold update_address, bind, contains, getitem. simpl.
  rewrite (dict_get_mem _ _ Hget). simpl. rewrite Hget.
  unfold AddressRead_init, bind. destruct update as [f1 f2 f3 f4 f5]. simpl in *.
  destruct f1; simpl; try reflexivity;
    (destruct f2; simpl; try reflexivity);
    (destruct f3; simpl; try reflexivity);
    (destruct f4; simpl; try reflexivity);
    (destruct f5; simpl; try reflexivity);
    exfalso; decompose [or] H; discriminate.
Qed.

(** [PersonRead] raises a validation error when one of its required fields
    is given [None]; the other fields are validated all the same. *)
Lemma PersonRead_init_null kw s :
  PersonDict.uni kw = Null
  \/ PersonDict.first_name kw = Null
  \/ PersonDict.last_name kw = Null
  \/ PersonDict.email kw = Null
  \/ PersonDict.addresses kw = Null ->
  fst (PersonRead_init kw s) = Raises ValidationError.
Proof.
  intros H. unfold PersonRead_init.
  destruct H as [H | [H | [H | [H | H]]]]; rewrite H.
  - do 9 apply ap_raises_l. apply ap_raises_r; [validation | reflexivity].
  - do 8 apply ap_raises_l. apply ap_raises_r; [validation | reflexivity].
  - do 7 apply ap_raises_l. apply ap_raises_r; [validation | reflexivity].
  - do 6 apply ap_raises_l. apply ap_raises_r; [validation | reflexivity].
  - do 3 apply ap_raises_l. apply ap_raises_r; [validation | reflexivity].
Qed.

Lemma update_person_null person_id update s p :
  dict_get person_id (db_persons s) = Some p ->
  PersonUpdate.uni update = Null
  \/ PersonUpdate.first_name update = Null
  \/ PersonUpdate.last_name update = Null
  \/ PersonUpdate.email update = Null
  \/ PersonUpdate.addresses update = Null ->
  fst (update_person person_id update s) = Raises ValidationError
  /\ dicts (snd (update_person person_id update s)) = dicts s.
Proof.
  intros Hget H.
  unfold update_person, bind, contains, getitem. simpl.
  rewrite (dict_get_mem _ _ Hget). simpl. rewrite Hget.
  pose proof (PersonRead_init_null
                (PersonDict.update (PersonRead.model_dump p)
                   (PersonUpdate.model_dump_exclude_unset update)) s) as Hr.
  pose proof (reads_only_PersonRead_init
                (PersonDict.update (PersonRead.model_dump p)
                   (PersonUpdate.model_dump_exclude_unset update)) s) as Hd.
  destruct (PersonRead_init
              (PersonDict.update (PersonRead.model_dump p)
                 (PersonUpdate.model_dump_exclude_unset update)) s)
    as [[p'|e] s1]; simpl in *.
  - assert (Hnull : @Returns PersonRead.t p' = Raises ValidationError);
      [|discriminate Hnull].
    apply Hr. destruct update as [f1 f2 f3 f4 f5 f6 fa]. simpl in *.
    decompose [or] H; subst; simpl; tauto.
  - split; [|assumption]. apply Hr.
    destruct update as [f1 f2 f3 f4 f5 f6 fa]. simpl in *.
    decompose [or] H; subst; simpl; tauto.
Qed.

(** X14. An update whose payload gives [null] to an attribute that the
    Read class requires raises a validation error and leaves the four
    dictionaries as they were, also when the payload has other attributes
    that could be written.  So for a stored FeeDetails, VisaStatus and
    Address with any of their attributes, where the whole state is as it
    was, and for a stored Person with [uni], [first_name], [last_name],
    [email] or [addresses], where the generator may have been read for the
    addresses of the payload. *)
Theorem update_with_null_is_refused k s :
  (forall update f,
     dict_get k (db_fee_details s) = Some f ->
     FeeDetailsUpdate.university_name update = Null
     \/ FeeDetailsUpdate.number_of_credits update = Null
     \/ FeeDetailsUpdate.fee_paid update = Null ->
     update_fee_details k update s = (Raises ValidationError, s))
  /\ (forall update v,
     dict_get k (db_visa_statuses s) = Some v ->
     VisaStatusUpdate.visa_status update = Null ->
     update_visa_status k update s = (Raises ValidationError, s))
  /\ (forall update a,
     dict_get k (db_addresses s) = Some a ->
     AddressUpdate.street update = Null
     \/ AddressUpdate.city update = Null
     \/ AddressUpdate.state update = Null
     \/ AddressUpdate.postal_code update = Null
     \/ AddressUpdate.country update = Null ->
     update_address k update s = (Raises ValidationError, s))
  /\ (forall update p,
     dict_get k (db_persons s) = Some p ->
     PersonUpdate.uni update = Null
     \/ PersonUpdate.first_name update = Null
     \/ PersonUpdate.last_name update = Null
     \/ PersonUpdate.email update = Null
     \/ PersonUpdate.addresses update = Null ->
     fst (update_person k update s) = Raises ValidationError
     /\ dicts (snd (update_person k update s)) = dicts s).
Proof.
  split; [|split; [|split]]; intros.
  - eapply update_fee_details_null; eassumption.
  - eapply update_visa_status_null; eassumption.
  - eapply update_address_null; eassumption.
  - eapply update_person_null; eassumption.
Qed.

(** An update that raised and changed nothing does so again. *)
Ltac refused_twice E := rewrite E; simpl snd; exact E.

(** X15. The same update twice is the same as once: the second call has
    the outcome of the first and leaves the state that the first left.  So
    for FeeDetails, VisaStatus and Address, with any identifier and any
    payload; no update refreshes a timestamp. *)
Theorem update_twice k update_f update_v update_a s :
  update_fee_details k update_f (snd (update_fee_details k update_f s))
  = update_fee_details k update_f s
  /\ update_visa_status k update_v (snd (update_visa_status k update_v s))
     = update_visa_status k update_v s
  /\ update_address k update_a (snd (update_address k update_a s))
     = update_address k update_a s.
Proof.
  split; [|split].
  - destruct (dict_get k (db_fee_details s)) as [f|] eqn:Hget;
      [|refused_twice (update_fee_details_absent k update_f s Hget)].
    destruct (null_or_not (FeeDetailsUpdate.university_name update_f)) as [N1|N1];
      [refused_twice (update_fee_details_null k update_f s Hget (or_introl N1))|].
    destruct (null_or_not (FeeDetailsUpdate.number_of_credits update_f)) as [N2|N2];
      [refused_twice (update_fee_details_null k update_f s Hget
                        (or_intror (or_introl N2)))|].
    destruct (null_or_not (FeeDetailsUpdate.fee_paid update_f)) as [N3|N3];
      [refused_twice (update_fee_details_null k update_f s Hget
                        (or_intror (or_intror N3)))|].
    pose proof (update_fee_details_present k update_f s Hget N1 N2 N3) as H1.
    cbv zeta in H1. rewrite H1. simpl snd.
    erewrite update_fee_details_present;
      [|simpl; apply dict_get_set_same|assumption..].
    simpl. now rewrite !pick_pick, dict_set_set.
  - destruct (dict_get k (db_visa_statuses s)) as [v|] eqn:Hget;
      [|refused_twice (update_visa_status_absent k update_v s Hget)].
    destruct (null_or_not (VisaStatusUpdate.visa_status update_v)) as [N1|N1];
      [refused_twice (update_visa_status_null k update_v s Hget N1)|].
    pose proof (update_visa_status_present k update_v s Hget N1) as H1.
    cbv zeta in H1. rewrite H1. simpl snd.
    erewrite update_visa_status_present;
      [|simpl; apply dict_get_set_same|assumption..].
    simpl. now rewrite !pick_pick, dict_set_set.
  - destruct (dict_get k (db_addresses s)) as [a|] eqn:Hget;
      [|refused_twice (update_address_absent k update_a s Hget)].
    destruct (null_or_not (AddressUpdate.street update_a)) as [N1|N1];
      [refused_twice (update_address_null k update_a s Hget (or_introl N1))|].
    destruct (null_or_not (AddressUpdate.city update_a)) as [N2|N2];
      [refused_twice (update_address_null k update_a s Hget
                        (or_intror (or_introl N2)))|].
    destruct (null_or_not (AddressUpdate.state update_a)) as [N3|N3];
      [refused_twice (update_address_null k update_a s Hget
                        (or_intror (or_intror (or_introl N3))))|].
    destruct (null_or_not (AddressUpdate.postal_code update_a)) as [N4|N4];
      [refused_twice (update_address_null k update_a s Hget
                        (or_intror (or_intror (or_intror (or_introl N4)))))|].
    destruct (null_or_not (AddressUpdate.country update_a)) as [N5|N5];
      [refused_twice (update_address_null k update_a s Hget
                        (or_intror (or_intror (or_intror (or_intror N5)))))|].
    pose proof (update_address_present k update_a s Hget N1 N2 N3 N4 N5) as H1.
    cbv zeta in H1. rewrite H1. simpl snd.
    erewrite update_address_present;
      [|simpl; apply dict_get_set_same|assumption..].
    simpl. now rewrite !pick_pick, dict_set_set.
Qed.


(** X16. An update with an empty payload is a read: it returns the stored
    record and the state is as it was.  So for a stored FeeDetails,
    VisaStatus and Address, and for a stored Person whose [uni] and [email]
    are as the validation leaves them (they are validated again). *)
Theorem empty_update_is_a_read k s :
  (forall f,
     dict_get k (db_fee_details s) = Some f ->
     update_fee_details k (FeeDetailsUpdate.Make Unset Unset Unset) s
     = (Returns f, s))
  /\ (forall v,
     dict_get k (db_visa_statuses s) = Some v ->
     update_visa_status k (VisaStatusUpdate.Make Unset) s = (Returns v, s))
  /\ (forall a,
     dict_get k (db_addresses s) = Some a ->
     update_address k (AddressUpdate.Make Unset Unset Unset Unset Unset) s
     = (Returns a, s))
  /\ (forall p,
     dict_get k (db_persons s) = Some p ->
     validated_uni (PersonRead.uni p) -> validated_email (PersonRead.email p) ->
     update_person k
       (PersonUpdate.Make Unset Unset Unset Unset Unset Unset Unset) s
     = (Returns p, s)).
Proof.
  repeat split.
  - intros f Hget.
    pose proof (update_fee_details_present k
                  (FeeDetailsUpdate.Make Unset Unset Unset) s Hget) as H.
    simpl in H. rewrite H by discriminate. clear H.
    destruct f, s; simpl in *. now rewrite dict_set_same_value.
  - intros v Hget.
    pose proof (update_visa_status_present k
                  (VisaStatusUpdate.Make Unset) s Hget) as H.
    simpl in H. rewrite H by discriminate. clear H.
    destruct v, s; simpl in *. now rewrite dict_set_same_value.
  - intros a Hget.
    pose proof (update_address_present k
                  (AddressUpdate.Make Unset Unset Unset Unset Unset) s Hget) as H.
    simpl in H. rewrite H by discriminate. clear H.
    destruct a, s; simpl in *. now rewrite dict_set_same_value.
  - intros p Hget Hu He.
    pose proof (update_person_present k
                  (PersonUpdate.Make Unset Unset Unset Unset Unset Unset Unset)
                  s Hget Hu He) as H.
    simpl in H. rewrite H by discriminate. clear H.
    destruct p, s as [? ? ? ? []]; simpl in *. now rewrite dict_set_same_value.
Qed.

(** ** The bodies of the creates *)

(** X17. Of the bodies whose values have the JSON types of the attributes
    (a string for [university_name] and [visa_status], an integer for
    [number_of_credits], a boolean for [fee_paid]), [POST /fee_details] and
    [POST /visa_status] accept exactly those that have a value for each
    attribute of the Create class; with a key missing or [null] they raise
    a validation error and the state is as it was.  The record of an
    accepted body has the values of the body, the next identifier of the
    generator and the next two readings of the clock, whatever the body has
    under [id], [created_at] and [updated_at]: the client chooses none of
    the three. *)
Theorem post_fee_details_and_visa_status s :
  let w := world s in
  (forall body,
     match FeeDetailsDict.university_name body,
           FeeDetailsDict.number_of_credits body,
           FeeDetailsDict.fee_paid body with
     | Val n, Val c, Val p =>
         fst (handle (POST_fee_details body) s)
         = Returns (OneFeeDetails
                      {| FeeDetailsRead.university_name := n;
                         FeeDetailsRead.number_of_credits := c;
                         FeeDetailsRead.fee_paid := p;
                         FeeDetailsRead.id := rand w (drawn w);
                         FeeDetailsRead.created_at := clock w (ticks w);
                         FeeDetailsRead.updated_at := clock w (S (ticks w)) |})
     | _, _, _ => handle (POST_fee_details body) s = (Raises ValidationError, s)
     end)
  /\ (forall body,
     match VisaStatusDict.visa_status body with
     | Val v =>
         fst (handle (POST_visa_status body) s)
         = Returns (OneVisaStatus
                      {| VisaStatusRead.visa_status := v;
                         VisaStatusRead.id := rand w (drawn w);
                         VisaStatusRead.created_at := clock w (ticks w);
                         VisaStatusRead.updated_at := clock w (S (ticks w)) |})
     | _ => handle (POST_visa_status body) s = (Raises ValidationError, s)
     end).
Proof.
  intros w. split; intros body.
  - destruct body as [f1 f2 f3 fi fc fu]. simpl.
    destruct f1, f2, f3; reflexivity.
  - destruct body as [f1 fi fc fu]. simpl.
    destruct f1; reflexivity.
Qed.

(** X18. What [UNIType] accepts it returns as it is, reading and writing
    nothing, and it has 3 to 7 code points, of which the first two are
    lowercase ASCII letters. *)
Theorem accepted_uni_shape u s u' s' :
  UNIType u s = (Returns u', s') ->
  u' = u /\ s' = s
  /\ (3 <= List.length u <= 7)%nat
  /\ Forall (fun c => (97 <= c <= 122)%N) (firstn 2 u).
Proof.
  unfold UNIType. destruct (fullmatch UNI_pattern u) eqn:E; [|discriminate].
  intros [= <- <-]. split; [reflexivity|]. split; [reflexivity|].
  apply UNI_pattern_spec in E as (l & d & -> & Hl & Hlow & Hd & _).
  rewrite length_app. split; [lia|].
  destruct l as [|a [|b l]]; simpl in Hl; try lia.
  simpl. inversion Hlow as [|? ? Ha Hrest]; subst.
  inversion Hrest as [|? ? Hb _]; subst.
  constructor; [assumption|]. constructor; [assumption|]. constructor.
Qed.


(** ** One entity, one dictionary *)

(** X19. A request writes to the dictionary of its own entity only.  In
    particular the addresses embedded in a person are copies: a create or
    an update of a person leaves [addresses] as it was, and a create or an
    update of an address leaves every stored person, its embedded
    addresses included, as it was. *)
Theorem other_dictionaries_untouched r s :
  (entity_of r <> Person -> db_persons (snd (handle r s)) = db_persons s)
  /\ (entity_of r <> Address -> db_addresses (snd (handle r s)) = db_addresses s)
  /\ (entity_of r <> FeeDetails ->
      db_fee_details (snd (handle r s)) = db_fee_details s)
  /\ (entity_of r <> VisaStatus ->
      db_visa_statuses (snd (handle r s)) = db_visa_statuses s).
Proof.
  assert (Hsame : forall s',
    dicts s' = dicts s ->
    (entity_of r <> Person -> db_persons s' = db_persons s)
    /\ (entity_of r <> Address -> db_addresses s' = db_addresses s)
    /\ (entity_of r <> FeeDetails -> db_fee_details s' = db_fee_details s)
    /\ (entity_of r <> VisaStatus -> db_visa_statuses s' = db_visa_statuses s)).
  { unfold dicts. intros s' [= -> -> -> ->]. auto. }
  destruct r; simpl entity_of.
  - validated H (reads_only_AddressBase_init body s); [|now apply Hsame].
    unfold bind. rewrite create_address_eq.
    destruct (dict_mem (AddressCreate.id o) (db_addresses s1)); simpl;
      [now apply Hsame|].
    injection H as H1 H2 H3 H4. repeat split; intros; simpl; congruence.
  - unfold handle, bind. rewrite list_addresses_eq. now apply Hsame.
  - unfold handle, bind. rewrite get_address_eq.
    destruct (dict_get address_id (db_addresses s)); now apply Hsame.
  - validated H (reads_only_AddressUpdate_init body s); [|now apply Hsame].
    unfold bind.
    destruct (update_address_cases address_id o s1)
      as [[e ->] | (f & f' & _ & -> & _)]; simpl; [now apply Hsame|].
    injection H as H1 H2 H3 H4. repeat split; intros; simpl; congruence.
  - validated H (reads_only_PersonBase_init body s); [|now apply Hsame].
    unfold bind.
    destruct (create_person_cases o s1)
      as [(e & s2 & -> & Hd) | (p & s2 & Hd & ->)]; simpl;
      [apply Hsame; congruence|].
    injection H as H1 H2 H3 H4. injection Hd as D1 D2 D3 D4.
    repeat split; intros; simpl; congruence.
  - unfold handle, bind. rewrite list_persons_eq. now apply Hsame.
  - unfold handle, bind. rewrite get_person_eq.
    destruct (dict_get person_id (db_persons s)); now apply Hsame.
  - validated H (reads_only_PersonUpdate_init body s); [|now apply Hsame].
    unfold bind.
    destruct (update_person_cases person_id o s1)
      as [(e & s2 & -> & Hd) | (f & f' & s2 & _ & Hd & -> & _)]; simpl;
      [apply Hsame; congruence|].
    injection H as H1 H2 H3 H4. injection Hd as D1 D2 D3 D4.
    repeat split; intros; simpl; congruence.
  - validated H (reads_only_FeeDetailsCreate_init body s); [|now apply Hsame].
    unfold bind. rewrite create_fee_details_eq. simpl.
    injection H as H1 H2 H3 H4. repeat split; intros; simpl; congruence.
  - unfold handle, bind. rewrite list_fee_details_eq. now apply Hsame.
  - unfold handle, bind. rewrite get_fee_details_eq.
    destruct (dict_get fee_id (db_fee_details s)); now apply Hsame.
  - validated H (reads_only_FeeDetailsUpdate_init body s); [|now apply Hsame].
    unfold bind.
    destruct (update_fee_details_cases fee_id o s1)
      as [[e ->] | (f & f' & _ & -> & _)]; simpl; [now apply Hsame|].
    injection H as H1 H2 H3 H4. repeat split; intros; simpl; congruence.
  - validated H (reads_only_VisaStatusCreate_init body s); [|now apply Hsame].
    unfold bind. rewrite create_visa_status_eq. simpl.
    injection H as H1 H2 H3 H4. repeat split; intros; simpl; congruence.
  - unfold handle, bind. rewrite list_visa_statuses_eq. now apply Hsame.
  - unfold handle, bind. rewrite get_visa_status_eq.
    destruct (dict_get visa_id (db_visa_statuses s)); now apply Hsame.
  - validated H (reads_only_VisaStatusUpdate_init body s); [|now apply Hsame].
    unfold bind.
    destruct (update_visa_status_cases visa_id o s1)
      as [[e ->] | (f & f' & _ & -> & _)]; simpl; [now apply Hsame|].
    injection H as H1 H2 H3 H4. repeat split; intros; simpl; congruence.
Qed.

(** X20. When the validator of emails returns its own results unchanged,
    [POST /persons] stores every person that [PersonCreate] accepts: the
    second validation, by [PersonRead] in [create_person], never refuses
    it.  The record returned has the fields of the accepted payload, the
    next identifier of the generator and the next two readings of the
    clock; it is assigned to [persons] under that identifier, where a [get]
    finds it, and nothing else is written. *)
Theorem post_persons_accepted body s person s1 :
  (forall e e', validate_email e = Some e' -> validate_email e' = Some e') ->
  PersonCreate_init body s = (Returns person, s1) ->
  let w := world s1 in
  let r :=
    {| PersonRead.uni := PersonCreate.uni person;
       PersonRead.first_name := PersonCreate.first_name person;
       PersonRead.last_name := PersonCreate.last_name person;
       PersonRead.email := PersonCreate.email person;
       PersonRead.phone := PersonCreate.phone person;
       PersonRead.birth_date := PersonCreate.birth_date person;
       PersonRead.addresses := PersonCreate.addresses person;
       PersonRead.id := rand w (drawn w);
       PersonRead.created_at := clock w (ticks w);
       PersonRead.updated_at := clock w (S (ticks w)) |} in
  let s2 := snd (handle (POST_persons body) s) in
  fst (handle (POST_persons body) s) = Returns (OnePerson r)
  /\ db_persons s2 = dict_set (PersonRead.id r) r (db_persons s)
  /\ get_person (PersonRead.id r) s2 = (Returns r, s2)
  /\ db_addresses s2 = db_addresses s
  /\ db_fee_details s2 = db_fee_details s
  /\ db_visa_statuses s2 = db_visa_statuses s
  /\ world s2 = later 1 2 w.
Proof.
  intros Hidem Hinit w r s2.
  destruct (PersonBase_init_inv _ _ Hinit) as (_ & Hu & [e He] & _).
  apply Hidem in He.
  pose proof (reads_only_PersonBase_init body s) as Hd.
  unfold PersonCreate_init in Hinit. rewrite Hinit in Hd. simpl in Hd.
  injection Hd as D1 D2 D3 D4.
  subst s2. unfold handle, bind, PersonCreate_init. rewrite Hinit.
  rewrite create_person_eq by assumption. fold w. fold r. simpl.
  rewrite D1. repeat split; auto.
  rewrite get_person_eq. simpl. now rewrite dict_get_set_same.
Qed.


End Service.

(** ** The claims on sample data *)

Example date_str_2002_05_09 :
  date_str (Date 2002 5 9) = lit "2002-05-09".
Proof. reflexivity. Qed.

Example UNI_pattern_dy2530 :
  fullmatch UNI_pattern (lit "dy2530") = true
  /\ fullmatch UNI_pattern (lit "dy25301") = false
  /\ fullmatch UNI_pattern (lit "d2530") = false
  /\ fullmatch UNI_pattern (lit "dy") = false.
Proof. repeat split. Qed.

(** The digits of a [uni] need not be ASCII: the Arabic-Indic digits one
    and two (U+0661, U+0662) are in [\d], the euro sign (U+20AC) is not. *)
Example UNI_pattern_other_digits :
  fullmatch UNI_pattern [97; 98; 0x661; 0x662]%N = true
  /\ fullmatch UNI_pattern [97; 98; 0x20AC]%N = false
  /\ fullmatch UNI_pattern (lit "ab12 ") = false
  /\ fullmatch UNI_pattern (lit " ab12") = false.
Proof. repeat split. Qed.

(** The scenarios of the service: an address is created and read back, a
    person is found by the city of an embedded address, the fees are
    filtered by payment, an unused identifier is not found. *)
Example scenario_create_then_get :
  let s1 := snd (create_address Sample.riverside (boot Sample.coarse_world)) in
  fst (get_address 7%N s1) = Returns Sample.riverside_read
  /\ fst (get_visa_status 5%N s1)
     = Raises (HTTPException 404 "VisaStatus not found").
Proof. split; reflexivity. Qed.

Example scenario_list_by_city :
  fst (list_persons None None None None None None (Some (lit "New York")) None
         Sample.populated) = Returns [Sample.dy2530]
  /\ fst (list_persons None None None None None None (Some (lit "Boston")) None
            Sample.populated) = Returns [].
Proof. split; reflexivity. Qed.

Example scenario_list_by_fee_paid :
  fst (list_fee_details None (Some false) Sample.populated) = Returns []
  /\ fst (list_fee_details None (Some true) Sample.populated)
     = Returns [Sample.columbia].
Proof. split; reflexivity. Qed.

(** An update of a person with an address that has no identifier: the
    body is validated, which takes the identifier 1003 from the generator,
    and the person is built again from the dump without that identifier,
    which takes the next one, 1004, for the address that is stored. *)
Example scenario_patch_address_without_id :
  let address :=
    {| AddressDict.id := Unset;
       AddressDict.street := Val (lit "2960 Broadway");
       AddressDict.city := Val (lit "New York");
       AddressDict.state := Val (lit "NY");
       AddressDict.postal_code := Val (lit "10027");
       AddressDict.country := Val (lit "USA");
       AddressDict.created_at := Unset;
       AddressDict.updated_at := Unset |} in
  let body :=
    {| PersonDict.uni := Unset; PersonDict.first_name := Unset;
       PersonDict.last_name := Unset; PersonDict.email := Unset;
       PersonDict.phone := Unset; PersonDict.birth_date := Unset;
       PersonDict.addresses := Val [address];
       PersonDict.id := Unset; PersonDict.created_at := Unset;
       PersonDict.updated_at := Unset |} in
  (exists update s1,
     PersonUpdate_init Sample.has_at body Sample.populated = (Returns update, s1)
     /\ PersonUpdate.addresses update
        = Val [AddressBase.Parsed (with_id 1003%N Sample.broadway) false])
  /\ exists p s',
       handle Sample.has_at (PATCH_person 9%N body) Sample.populated
       = (Returns (OnePerson p), s')
       /\ PersonRead.addresses p = [with_id 1004%N Sample.broadway]
       /\ drawn (world s') = 5%nat.
Proof.
  intros address body. split.
  - do 2 eexists. split; reflexivity.
  - do 2 eexists. split; [vm_compute; reflexivity|]. split; reflexivity.
Qed.

(** A refused update of a person reads the generator all the same: the
    body gives [null] to [first_name] and an address without identifier. *)
Example scenario_refused_update_reads_generator :
  let update :=
    {| PersonUpdate.uni := Unset;
       PersonUpdate.first_name := Null;
       PersonUpdate.last_name := Unset;
       PersonUpdate.email := Unset;
       PersonUpdate.phone := Unset;
       PersonUpdate.birth_date := Unset;
       PersonUpdate.addresses := Val [AddressBase.Parsed Sample.broadway false] |} in
  update_person Sample.has_at 9%N update Sample.populated
  = (Raises ValidationError,
     set_world (later 1 0 (world Sample.populated)) Sample.populated).
Proof. reflexivity. Qed.

(** C1.  A record stored at time 100 is updated when the clock reads 200:
    the update is accepted and returns the same [id] and [created_at], and
    [updated_at] is still 100, equal to [created_at]; the clock was not
    read.  So for an Address, a Person and a FeeDetails. *)
Theorem update_keeps_updated_at :
  let s := Sample.populated in
  clock (world s) (ticks (world s)) = 200%Z
  /\ (exists a s',
        update_address 7%N Sample.to_brooklyn s = (Returns a, s')
        /\ AddressRead.city a = lit "Brooklyn"
        /\ AddressRead.id a = 7%N
        /\ AddressRead.created_at a = 100%Z
        /\ AddressRead.updated_at a = 100%Z
        /\ world s' = world s)
  /\ (exists p s',
        update_person Sample.has_at 9%N Sample.new_last_name s
        = (Returns p, s')
        /\ PersonRead.last_name p = lit "Reddy"
        /\ PersonRead.id p = 9%N
        /\ PersonRead.created_at p = 100%Z
        /\ PersonRead.updated_at p = 100%Z
        /\ world s' = world s)
  /\ (exists f s',
        update_fee_details 1%N Sample.credits_36 s = (Returns f, s')
        /\ FeeDetailsRead.number_of_credits f = 36%Z
        /\ FeeDetailsRead.id f = 1%N
        /\ FeeDetailsRead.created_at f = 100%Z
        /\ FeeDetailsRead.updated_at f = 100%Z
        /\ world s' = world s).
Proof.
  split; [reflexivity|].
  repeat split; do 2 eexists; (split; [vm_compute; reflexivity|]);
    repeat split.
Qed.

(** C3.  The stored person has no birth date, no date has [None] for its
    string, and the list filtered by [birth_date=None] returns that person:
    the filter compares with [str(None)]. *)
Theorem list_persons_birth_date_None :
  PersonRead.birth_date Sample.dy2530 = None
  /\ (forall d, date_str d <> lit "None")
  /\ list_persons None None None None None (Some (lit "None")) None None
       Sample.populated
     = (Returns [Sample.dy2530], Sample.populated).
Proof.
  split; [reflexivity|]. split; [|reflexivity].
  intros d H. discriminate H.
Qed.

(** C2 as stated fails: the body [{"fee_paid": null}] has one of the three
    attributes, and the update of a stored FeeDetails with it raises a
    validation error instead of returning a record. *)
Lemma partial_update_isolation_counterexample :
  dict_get 1%N (db_fee_details Sample.populated) = Some Sample.columbia
  /\ update_fee_details 1%N Sample.fee_paid_null Sample.populated
     = (Raises ValidationError, Sample.populated)
  /\ ~ (forall fee_id update s f,
          dict_get fee_id (db_fee_details s) = Some f ->
          (FeeDetailsUpdate.university_name update = Unset
           \/ FeeDetailsUpdate.number_of_credits update = Unset
           \/ FeeDetailsUpdate.fee_paid update = Unset) ->
          exists f' s',
            update_fee_details fee_id update s = (Returns f', s')
            /\ dict_get fee_id (db_fee_details s') = Some f'
            /\ (FeeDetailsUpdate.university_name update = Unset ->
                FeeDetailsRead.university_name f' = FeeDetailsRead.university_name f)
            /\ (FeeDetailsUpdate.number_of_credits update = Unset ->
                FeeDetailsRead.number_of_credits f'
                = FeeDetailsRead.number_of_credits f)
            /\ (FeeDetailsUpdate.fee_paid update = Unset ->
                FeeDetailsRead.fee_paid f' = FeeDetailsRead.fee_paid f)
            /\ (forall x, FeeDetailsUpdate.university_name update = Val x ->
                FeeDetailsRead.university_name f' = x)
            /\ (forall x, FeeDetailsUpdate.number_of_credits update = Val x ->
                FeeDetailsRead.number_of_credits f' = x)
            /\ (forall x, FeeDetailsUpdate.fee_paid update = Val x ->
                FeeDetailsRead.fee_paid f' = x)).
Proof.
  split; [reflexivity|]. split; [reflexivity|]. intros H.
  destruct (H 1%N Sample.fee_paid_null Sample.populated Sample.columbia)
    as (f' & s' & Hup & _); [reflexivity | now left |].
  discriminate Hup.
Qed.

(** C7 as stated fails: with a clock that advances between its readings, the
    record that [create_fee_details] returns has [created_at] before
    [updated_at]; and the record that [create_address] returns has the
    identifier 7 of the payload, not the value 1000 that the generator
    would give. *)
Lemma create_timestamps_counterexample :
  (exists r s',
     create_fee_details Sample.columbia_create (boot Sample.ticking_world)
     = (Returns r, s')
     /\ FeeDetailsRead.created_at r = 0%Z /\ FeeDetailsRead.updated_at r = 1%Z)
  /\ (exists r s',
     create_address Sample.riverside (boot Sample.ticking_world) = (Returns r, s')
     /\ AddressRead.id r = 7%N
     /\ rand Sample.ticking_world (drawn Sample.ticking_world) = 1000%N
     /\ world s' = later 0 2 Sample.ticking_world)
  /\ ~ (forall fee s r s',
          create_fee_details fee s = (Returns r, s') ->
          FeeDetailsRead.created_at r = FeeDetailsRead.updated_at r).
Proof.
  split; [|split].
  - do 2 eexists. split; [reflexivity|]. split; reflexivity.
  - do 2 eexists. split; [reflexivity|]. repeat split.
  - intros H.
    specialize (H Sample.columbia_create (boot Sample.ticking_world) _ _ eq_refl).
    discriminate H.
Qed.

(** C8 as stated fails: the body [{"first_name": null, "addresses": []}]
    has [addresses], and the update of a stored person with it raises a
    validation error; the person keeps the address it had. *)
Lemma update_person_addresses_counterexample :
  let update_person := update_person Sample.has_at in
  dict_get 9%N (db_persons Sample.populated) = Some Sample.dy2530
  /\ PersonRead.addresses Sample.dy2530 = [Sample.riverside]
  /\ update_person 9%N Sample.no_addresses_null_name Sample.populated
     = (Raises ValidationError, Sample.populated)
  /\ ~ (forall person_id update s p l,
          dict_get person_id (db_persons s) = Some p ->
          validated_uni (PersonRead.uni p) ->
          validated_email Sample.has_at (PersonRead.email p) ->
          (forall u, PersonUpdate.uni update = Val u ->
                     validated_uni u) ->
          (forall e, PersonUpdate.email update = Val e ->
                     validated_email Sample.has_at e) ->
          PersonUpdate.addresses update = Val l ->
          exists p' s',
            update_person person_id update s = (Returns p', s')
            /\ dict_get person_id (db_persons s') = Some p'
            /\ Forall2 same_address l (PersonRead.addresses p')).
Proof.
  intros up. subst up.
  split; [reflexivity|]. split; [reflexivity|]. split; [vm_compute; reflexivity|].
  intros H.
  destruct (H 9%N Sample.no_addresses_null_name Sample.populated Sample.dy2530 [])
    as (p' & s' & Hup & _);
    try reflexivity; try (intros ? ?; discriminate).
  vm_compute in Hup. discriminate Hup.
Qed.

(** C9 as stated fails: between two lists of the addresses of New York
    there is an update and no create, and the second list is empty where
    the first had one record. *)
Lemma list_after_update_counterexample :
  let serve := serve Sample.has_at in
  let moved :=
    PATCH_address 7%N
      {| AddressDict.id := Unset; AddressDict.street := Unset;
         AddressDict.city := Val (lit "Brooklyn"); AddressDict.state := Unset;
         AddressDict.postal_code := Unset; AddressDict.country := Unset;
         AddressDict.created_at := Unset; AddressDict.updated_at := Unset |} in
  let new_york := Some (lit "New York") in
  fst (list_addresses None new_york None None None Sample.populated)
  = Returns [Sample.riverside_read]
  /\ fst (list_addresses None new_york None None None
            (serve [moved] Sample.populated))
     = Returns []
  /\ ~ (forall rs s street city state postal_code country,
          forallb (fun r => negb (is_create r)) rs = true ->
          fst (list_addresses street city state postal_code country (serve rs s))
          = fst (list_addresses street city state postal_code country s)).
Proof.
  intros serve' moved new_york. subst serve' new_york.
  split; [reflexivity|]. split; [vm_compute; reflexivity|].
  intros H.
  specialize (H [moved] Sample.populated None (Some (lit "New York")) None None None
                eq_refl).
  vm_compute in H. discriminate H.
Qed.

(** ** The theorems at sample inputs *)


Lemma update_person_replaces_addresses_witness :
  let w := world Sample.populated in
  dict_get 9%N (db_persons Sample.populated) = Some Sample.dy2530
  /\ PersonUpdate.addresses Sample.two_addresses
     = Val [AddressBase.Parsed Sample.boston true;
            AddressBase.Parsed Sample.broadway false]
  /\ rand w (drawn w) = 1003%N
  /\ exists p' s',
       update_person Sample.has_at 9%N Sample.two_addresses Sample.populated
       = (Returns p', s')
       /\ dict_get 9%N (db_persons s') = Some p'
       /\ nth_error (PersonRead.addresses p') 0 = Some Sample.boston
       /\ nth_error (PersonRead.addresses p') 1
          = Some (with_id 1003%N Sample.broadway)
       /\ List.length (PersonRead.addresses p') = 2%nat
       /\ drawn (world s') = 4%nat.
Proof.
  intros w. split; [reflexivity|]. split; [reflexivity|]. split; [reflexivity|].
  destruct (@update_person_replaces_addresses Sample.has_at
              9%N Sample.two_addresses Sample.populated Sample.dy2530
              [AddressBase.Parsed Sample.boston true;
               AddressBase.Parsed Sample.broadway false])
    as (p' & s' & Hup & Hget & Hlen & Hgiven & Hnew & Hdrawn & _);
    try reflexivity; try discriminate.
  exists p', s'. split; [exact Hup|]. split; [exact Hget|].
  split; [exact (Hgiven 0%nat _ eq_refl eq_refl)|].
  split; [exact (Hnew 1%nat _ eq_refl eq_refl)|].
  split; [exact Hlen | exact Hdrawn].
Defined.

Lemma partial_update_isolation_witness :
  dict_get 1%N (db_fee_details Sample.populated) = Some Sample.columbia
  /\ (exists f s',
        update_fee_details 1%N Sample.credits_36 Sample.populated = (Returns f, s')
        /\ FeeDetailsRead.number_of_credits f = 36%Z
        /\ FeeDetailsRead.university_name f = lit "Columbia University"
        /\ FeeDetailsRead.fee_paid f = true)
  /\ dict_get 9%N (db_persons Sample.populated) = Some Sample.dy2530
  /\ (exists p s',
        update_person Sample.has_at 9%N Sample.two_addresses Sample.populated
        = (Returns p, s')
        /\ PersonRead.last_name p = lit "Yerramreddy"
        /\ PersonRead.addresses p
           = [Sample.boston; with_id 1003%N Sample.broadway]).
Proof.
  split; [reflexivity|]. split; [|split; [reflexivity|]].
  - do 2 eexists. split.
    + apply (proj1 (partial_update_isolation Sample.has_at)
               1%N Sample.credits_36 Sample.populated Sample.columbia).
      * reflexivity.
      * discriminate.
      * discriminate.
      * discriminate.
    + repeat split.
  - destruct (proj2 (proj2 (proj2 (partial_update_isolation Sample.has_at)))
                9%N Sample.two_addresses Sample.populated Sample.dy2530)
      as [Hup _];
      try reflexivity; try discriminate; try (intros ? H; discriminate H).
    do 2 eexists. split; [exact Hup|]. split; reflexivity.
Defined.

Lemma create_assigns_id_and_timestamps_witness :
  validated_uni (PersonCreate.uni Sample.dy2530_create)
  /\ validated_email Sample.has_at (PersonCreate.email Sample.dy2530_create)
  /\ monotone Sample.ticking_world
  /\ exists r s',
       create_person Sample.has_at Sample.dy2530_create
         (boot Sample.ticking_world) = (Returns r, s')
       /\ PersonRead.id r = 1000%N
       /\ PersonRead.created_at r = 0%Z
       /\ PersonRead.updated_at r = 1%Z
       /\ (PersonRead.created_at r <= PersonRead.updated_at r)%Z.
Proof.
  assert (Hu : validated_uni (PersonCreate.uni Sample.dy2530_create))
    by (vm_compute; reflexivity).
  assert (He : validated_email Sample.has_at (PersonCreate.email Sample.dy2530_create))
    by reflexivity.
  assert (Hm : monotone Sample.ticking_world)
    by (intros n m H; simpl; lia).
  split; [exact Hu|]. split; [exact He|]. split; [exact Hm|].
  destruct (proj1 (proj2 (proj2
              (create_assigns_id_and_timestamps Sample.has_at
                 (boot Sample.ticking_world))))
              Sample.dy2530_create Hu He)
    as (r & s' & Hc & Hi & Hca & Hua & _ & Hle).
  exists r, s'. repeat split; try assumption. exact (Hle Hm).
Defined.

Lemma list_order_stable_witness :
  let reads :=
    [GET_addresses None None None None None; GET_person 9%N;
     GET_visa_status 4%N] in
  forallb (fun r => negb (is_create r) && negb (is_update r)) reads = true
  /\ serve Sample.has_at reads Sample.populated
     = Sample.populated.
Proof.
  intros reads. split; [reflexivity|].
  apply (list_order_stable Sample.has_at). reflexivity.
Defined.

Lemma get_and_update_not_found_witness :
  dict_mem 4%N (db_visa_statuses Sample.populated) = false
  /\ update_visa_status 4%N {| VisaStatusUpdate.visa_status := Val (lit "OPT") |}
       Sample.populated
     = (Raises (HTTPException 404 "VisaStatus not found"), Sample.populated).
Proof.
  split; [reflexivity|].
  apply (get_and_update_not_found Sample.has_at 4%N
           Sample.populated).
  reflexivity.
Defined.

Lemma create_address_duplicate_witness :
  dict_mem (AddressCreate.id Sample.riverside) (db_addresses Sample.populated) = true
  /\ snd (create_address Sample.riverside Sample.populated) = Sample.populated.
Proof.
  split; [reflexivity|].
  apply (create_address_duplicate Sample.riverside Sample.populated).
  reflexivity.
Defined.

(** ** The further properties at sample inputs *)

Lemma created_is_listed_last_witness :
  dict_mem 1003%N (db_fee_details Sample.populated) = false
  /\ exists r,
       fst (create_fee_details Sample.columbia_create Sample.populated) = Returns r
       /\ fst (list_fee_details None None
                 (snd (create_fee_details Sample.columbia_create Sample.populated)))
          = Returns (dict_values (db_fee_details Sample.populated) ++ [r]).
Proof.
  split; [reflexivity|].
  apply (proj1 (created_is_listed_last Sample.has_at
                  Sample.populated)).
  reflexivity.
Defined.

Lemma create_then_get_witness :
  validated_uni (PersonCreate.uni Sample.dy2530_create)
  /\ validated_email Sample.has_at (PersonCreate.email Sample.dy2530_create)
  /\ exists r,
       fst (create_person Sample.has_at Sample.dy2530_create
              Sample.populated) = Returns r
       /\ get_person (PersonRead.id r)
            (snd (create_person Sample.has_at
                    Sample.dy2530_create Sample.populated))
          = (Returns r,
             snd (create_person Sample.has_at
                    Sample.dy2530_create Sample.populated)).
Proof.
  assert (Hu : validated_uni
                 (PersonCreate.uni Sample.dy2530_create))
    by (vm_compute; reflexivity).
  assert (He : validated_email Sample.has_at
                 (PersonCreate.email Sample.dy2530_create)) by reflexivity.
  split; [exact Hu|]. split; [exact He|].
  exact (proj1 (proj2 (proj2
           (create_then_get Sample.has_at Sample.populated)))
           Sample.dy2530_create Hu He).
Defined.

Lemma update_then_get_witness :
  exists r s',
    update_fee_details 1%N Sample.credits_36 Sample.populated = (Returns r, s')
    /\ dict_mem 1%N (db_fee_details Sample.populated) = true
    /\ get_fee_details 1%N s' = (Returns r, s').
Proof.
  do 2 eexists. split; [vm_compute; reflexivity|].
  apply (proj1 (update_then_get Sample.has_at 1%N
                  Sample.populated) Sample.credits_36).
  vm_compute. reflexivity.
Defined.


Lemma update_frame_witness :
  3%N <> 1%N
  /\ dict_get 3%N
       (db_fee_details (snd (update_fee_details 1%N Sample.credits_36
                               Sample.populated)))
     = dict_get 3%N (db_fee_details Sample.populated).
Proof.
  split; [discriminate|].
  apply (proj1 (proj1 (proj2 (proj2
           (update_frame Sample.has_at 1%N
              Sample.to_brooklyn Sample.new_last_name Sample.credits_36
              (VisaStatusUpdate.Make Unset) Sample.populated))))).
  discriminate.
Defined.

Lemma create_overwrites_on_collision_witness :
  let stored :=
    {| FeeDetailsRead.university_name := lit "New York University";
       FeeDetailsRead.number_of_credits := 12%Z;
       FeeDetailsRead.fee_paid := false;
       FeeDetailsRead.id := 1003%N;
       FeeDetailsRead.created_at := 100%Z;
       FeeDetailsRead.updated_at := 100%Z |} in
  let colliding :=
    store fee_details [(1%N, Sample.columbia); (1003%N, stored)]
      Sample.populated in
  dict_mem (rand (world colliding) (drawn (world colliding)))
    (db_fee_details colliding) = true
  /\ exists r,
       fst (create_fee_details Sample.columbia_create colliding) = Returns r
       /\ dict_get (rand (world colliding) (drawn (world colliding)))
            (db_fee_details (snd (create_fee_details Sample.columbia_create
                                    colliding))) = Some r
       /\ dict_keys (db_fee_details (snd (create_fee_details
                                            Sample.columbia_create colliding)))
          = dict_keys (db_fee_details colliding).
Proof.
  intros stored colliding. split; [reflexivity|].
  apply (proj1 (create_overwrites_on_collision Sample.has_at
                  colliding)).
  reflexivity.
Defined.

Lemma stamps_are_kept_witness :
  let rs :=
    [PATCH_fee_detail 1%N
       {| FeeDetailsDict.university_name := Unset;
          FeeDetailsDict.number_of_credits := Val 36%Z;
          FeeDetailsDict.fee_paid := Unset;
          FeeDetailsDict.id := Val 2%N;
          FeeDetailsDict.created_at := Val 0%Z;
          FeeDetailsDict.updated_at := Val 300%Z |};
     GET_fee_details None None] in
  forallb (fun r => negb (is_create r)) rs = true
  /\ forall k f',
       dict_get k (db_fee_details
                     (serve Sample.has_at rs Sample.populated))
       = Some f' ->
       exists f,
         dict_get k (db_fee_details Sample.populated) = Some f
         /\ stamp_of_fee_details f' = stamp_of_fee_details f.
Proof.
  intros rs. split; [reflexivity|].
  apply (stamps_are_kept Sample.has_at rs Sample.populated).
  reflexivity.
Defined.

Lemma update_with_null_is_refused_witness :
  let update :=
    {| PersonUpdate.uni := Unset;
       PersonUpdate.first_name := Null;
       PersonUpdate.last_name := Unset;
       PersonUpdate.email := Unset;
       PersonUpdate.phone := Unset;
       PersonUpdate.birth_date := Unset;
       PersonUpdate.addresses := Val [AddressBase.Parsed Sample.broadway false] |} in
  dict_get 1%N (db_fee_details Sample.populated) = Some Sample.columbia
  /\ FeeDetailsUpdate.fee_paid Sample.fee_paid_null = Null
  /\ update_fee_details 1%N Sample.fee_paid_null Sample.populated
     = (Raises ValidationError, Sample.populated)
  /\ dict_get 9%N (db_persons Sample.populated) = Some Sample.dy2530
  /\ PersonUpdate.first_name update = Null
  /\ fst (update_person Sample.has_at 9%N update Sample.populated)
     = Raises ValidationError
  /\ dicts (snd (update_person Sample.has_at 9%N update Sample.populated))
     = dicts Sample.populated
  /\ drawn (world (snd (update_person Sample.has_at 9%N update Sample.populated)))
     = S (drawn (world Sample.populated)).
Proof.
  intros update.
  pose proof (update_with_null_is_refused Sample.has_at 1%N Sample.populated)
    as (Hfee & _).
  pose proof (update_with_null_is_refused Sample.has_at 9%N Sample.populated)
    as (_ & _ & _ & Hperson).
  split; [reflexivity|]. split; [reflexivity|].
  split; [apply (Hfee Sample.fee_paid_null Sample.columbia);
          [reflexivity | right; right; reflexivity]|].
  split; [reflexivity|]. split; [reflexivity|].
  destruct (Hperson update Sample.dy2530) as [Hr Hd];
    [reflexivity | right; left; reflexivity |].
  split; [exact Hr|]. split; [exact Hd | reflexivity].
Defined.

Lemma empty_update_is_a_read_witness :
  dict_get 9%N (db_persons Sample.populated) = Some Sample.dy2530
  /\ update_person Sample.has_at 9%N
       (PersonUpdate.Make Unset Unset Unset Unset Unset Unset Unset)
       Sample.populated
     = (Returns Sample.dy2530, Sample.populated).
Proof.
  split; [reflexivity|].
  apply (proj2 (proj2 (proj2
           (empty_update_is_a_read Sample.has_at 9%N
              Sample.populated)))).
  - reflexivity.
  - vm_compute. reflexivity.
  - reflexivity.
Defined.

Lemma accepted_uni_shape_witness :
  UNIType (lit "dy2530") Sample.populated
  = (Returns (lit "dy2530"), Sample.populated)
  /\ (3 <= List.length (lit "dy2530") <= 7)%nat
  /\ Forall (fun c => (97 <= c <= 122)%N) (firstn 2 (lit "dy2530")).
Proof.
  assert (H : UNIType (lit "dy2530") Sample.populated
              = (Returns (lit "dy2530"), Sample.populated))
    by (vm_compute; reflexivity).
  split; [exact H|].
  exact (proj2 (proj2 (accepted_uni_shape (lit "dy2530")
                         Sample.populated H))).
Defined.

Lemma other_dictionaries_untouched_witness :
  let body :=
    {| PersonDict.uni := Unset; PersonDict.first_name := Unset;
       PersonDict.last_name := Unset; PersonDict.email := Unset;
       PersonDict.phone := Unset; PersonDict.birth_date := Unset;
       PersonDict.addresses :=
         Val [AddressBase.model_dump
                {| AddressBase.id := 8%N;
                   AddressBase.street := lit "1 Main St";
                   AddressBase.city := lit "Boston";
                   AddressBase.state := lit "MA";
                   AddressBase.postal_code := lit "02108";
                   AddressBase.country := lit "USA" |}];
       PersonDict.id := Unset; PersonDict.created_at := Unset;
       PersonDict.updated_at := Unset |} in
  entity_of (PATCH_person 9%N body) <> Address
  /\ db_addresses
       (snd (handle Sample.has_at (PATCH_person 9%N body)
               Sample.populated))
     = db_addresses Sample.populated.
Proof.
  intros body. split; [discriminate|].
  apply (proj1 (proj2
           (other_dictionaries_untouched Sample.has_at
              (PATCH_person 9%N body) Sample.populated))).
  discriminate.
Defined.

Lemma post_persons_accepted_witness :
  let body := PersonCreate.model_dump Sample.dy2530_create in
  let s := boot Sample.ticking_world in
  (forall e e', Sample.has_at e = Some e' -> Sample.has_at e' = Some e')
  /\ PersonCreate_init Sample.has_at body s = (Returns Sample.dy2530_create, s)
  /\ exists p,
       fst (handle Sample.has_at (POST_persons body) s) = Returns (OnePerson p)
       /\ PersonRead.uni p = lit "dy2530"
       /\ PersonRead.id p = 1000%N
       /\ db_persons (snd (handle Sample.has_at (POST_persons body) s))
          = [(1000%N, p)]
       /\ get_person 1000%N (snd (handle Sample.has_at (POST_persons body) s))
          = (Returns p, snd (handle Sample.has_at (POST_persons body) s)).
Proof.
  intros body s.
  assert (Hidem : forall e e',
            Sample.has_at e = Some e' -> Sample.has_at e' = Some e').
  { intros e e'. unfold Sample.has_at.
    destruct (existsb (N.eqb 64) e) eqn:E; [|discriminate].
    intros [= <-]. now rewrite E. }
  assert (Hinit : PersonCreate_init Sample.has_at body s
                  = (Returns Sample.dy2530_create, s))
    by (vm_compute; reflexivity).
  split; [exact Hidem|]. split; [exact Hinit|].
  destruct (post_persons_accepted Sample.has_at body s Hidem Hinit)
    as (Hr & Hdb & Hget & _).
  eexists. split; [exact Hr|]. split; [reflexivity|]. split; [reflexivity|].
  split; [exact Hdb | exact Hget].
Defined.
